(** * DocuSense ingestion and synchronisation pipeline

  A shallow embedding of the webhook handlers, the chunker, the embedder
  wrapper, the size tiers and the client-state check of the DocuSense
  backend, with the properties of the pipeline stated over it.

  Python values are modelled as follows.
  - document text ([str] that is split, stripped and joined): a list of
    Unicode code points, [list N];
  - identifiers, tokens, paths and dictionary keys: [string];
  - [int]: [Z] (sizes) or [nat] (indices and counts);
  - [dict]: [gmap]; a value that may be [None]: [option];
  - an exception: the [Raise] outcome of the [M] monad. *)

From Stdlib Require Import Floats.
From Stdlib Require Import Ascii String ZArith.
From stdpp Require Import gmap strings list fin_maps pretty.

Local Open Scope string_scope.
Local Open Scope list_scope.
Local Open Scope nat_scope.

(** ** Python built-ins on text *)

Module Py.

Abbreviation text := (list N).

(** [str.isspace] for one code point: the white-space table of CPython
    ([_PyUnicode_IsWhitespace]). *)
Definition isspace (c : N) : bool :=
  ((9 <=? c) && (c <=? 13) || (28 <=? c) && (c <=? 32)
   || (c =? 133) || (c =? 160) || (c =? 5760)
   || (8192 <=? c) && (c <=? 8202)
   || (c =? 8232) || (c =? 8233) || (c =? 8239) || (c =? 8287)
   || (c =? 12288))%N.

(** [s.split()] with no separator: maximal runs of non-space code points.
    [cur] is the word being read, most recent code point first. *)
Fixpoint split_acc (cur : text) (s : text) : list text :=
  match s with
  | [] => match cur with [] => [] | _ => [rev cur] end
  | c :: s' =>
      if isspace c
      then match cur with
           | [] => split_acc [] s'
           | _ => rev cur :: split_acc [] s'
           end
      else split_acc (c :: cur) s'
  end.

Definition split (s : text) : list text := split_acc [] s.

(** [sep.join(parts)] *)
Fixpoint join (sep : text) (parts : list text) : text :=
  match parts with
  | [] => []
  | [w] => w
  | w :: rest => w ++ sep ++ join sep rest
  end.

(** [s.lstrip()], [s.rstrip()] and [s.strip()] with no argument. *)
Fixpoint lstrip (s : text) : text :=
  match s with
  | [] => []
  | c :: s' => if isspace c then lstrip s' else s
  end.

Definition rstrip (s : text) : text := rev (lstrip (rev s)).

Definition strip (s : text) : text := rstrip (lstrip s).

(** Truth value of a string: non-empty. *)
Definition truthy (s : text) : bool :=
  match s with [] => false | _ => true end.

(** [range(start, stop, step)] for a non-negative start and step; a zero
    step raises [ValueError], here [None].  [fuel] bounds the number of
    elements: [stop] is always enough for a positive step. *)
Fixpoint range_from (fuel i stop step : nat) : list nat :=
  match fuel with
  | O => []
  | S fuel' =>
      if i <? stop then i :: range_from fuel' (i + step) stop step else []
  end.

Definition range (start stop step : nat) : option (list nat) :=
  if step =? 0 then None else Some (range_from stop start stop step).

(** [l[i:j]] for non-negative [i <= j]. *)
Definition slice {A} (l : list A) (i j : nat) : list A :=
  take (j - i) (drop i l).

(** Code points of an ASCII literal. *)
Definition of_string (s : string) : text :=
  (fun a => N_of_ascii a) <$> list_ascii_of_string s.

End Py.

(** ** ingest_local.py: the chunker *)

Module IngestLocal.

(** Default of the [size] parameter of [chunk_text]. *)
Definition DEFAULT_SIZE : nat := 300.

Definition space : Py.text := [32%N].

(** The body of the generator's loop at index [i]:
    [chunk = " ".join(words[i:i+size])], yielded with [i // size] when
    [chunk.strip()] is not empty. *)
Definition emit_chunk (words : list Py.text) (size i : nat) : list (Py.text * nat) :=
  let chunk := Py.join space (Py.slice words i (i + size)) in
  if Py.truthy (Py.strip chunk) then [(chunk, i / size)] else [].

(** [chunk_text(text, size)]: the generator's output as a list. *)
Definition chunk_text (text : Py.text) (size : nat)
  : option (list (Py.text * nat)) :=
  let words := Py.split text in
  idxs ← Py.range 0 (length words) size;
  Some (flat_map (emit_chunk words size) idxs).

End IngestLocal.

(** ** Python built-ins on identifiers and tokens *)

Module PyStr.

(** Truth value of a string. *)
Definition truthy (s : string) : bool :=
  match s with EmptyString => false | _ => true end.

(** [s.startswith(p)] *)
Definition startswith (s p : string) : bool := String.prefix p s.

(** [s.endswith(p)] *)
Definition endswith (s p : string) : bool :=
  let n := String.length s in
  let m := String.length p in
  (m <=? n) && String.eqb (String.substring (n - m) m s) p.

(** [s[i:j]] with Python's treatment of negative and out-of-range bounds. *)
Definition norm_index (len : nat) (i : Z) : nat :=
  let i' := (if i <? 0 then Z.max 0 (Z.of_nat len + i) else i)%Z in
  Nat.min len (Z.to_nat i').

Definition slice (s : string) (i j : Z) : string :=
  let len := String.length s in
  let a := norm_index len i in
  let b := norm_index len j in
  String.substring a (b - a) s.

(** [sub in s] *)
Definition contains (sub s : string) : bool :=
  match String.index 0 sub s with Some _ => true | None => false end.

(** [s.split(sep)] for a one-character separator: empty fields are kept. *)
Fixpoint split_on (sep : ascii) (s : string) : list string :=
  match s with
  | EmptyString => [EmptyString]
  | String c s' =>
      if Ascii.eqb c sep then EmptyString :: split_on sep s'
      else match split_on sep s' with
           | h :: t => String c h :: t
           | [] => [String c EmptyString]
           end
  end.

(** [s.lower()] for text in ASCII: the letters A to Z are lowered and every
    other character is kept.  Python also lowers the letters outside ASCII,
    which this function leaves alone; what is stated about the letter case
    of a name that is not in ASCII is stated under [is_ascii]. *)
Definition lower_ascii (c : ascii) : ascii :=
  let n := nat_of_ascii c in
  if (65 <=? n) && (n <=? 90) then ascii_of_nat (n + 32) else c.

Fixpoint lower (s : string) : string :=
  match s with
  | EmptyString => EmptyString
  | String c s' => String (lower_ascii c) (lower s')
  end.

(** [os.path.splitext(p)[1]] (posixpath): the text from the last dot of the
    last path component, unless that component has only leading dots before
    it.  [ext] is the candidate extension read so far from the right, and
    [seen] tells whether a character other than a dot precedes it. *)
Fixpoint last_component (s acc : string) : string :=
  match s with
  | EmptyString => acc
  | String c s' =>
      if Ascii.eqb c "/" then last_component s' EmptyString
      else last_component s' (acc +:+ String c EmptyString)
  end.

Fixpoint ext_of_component (s : string) (lead : bool) : string :=
  match s with
  | EmptyString => EmptyString
  | String c s' =>
      if Ascii.eqb c "." then
        if lead then ext_of_component s' true
        else match ext_of_component s' false with
             | EmptyString => s
             | e => e
             end
      else ext_of_component s' false
  end.

Definition splitext_ext (p : string) : string :=
  ext_of_component (last_component p EmptyString) true.

(** [str(x)] of an optional string inside an f-string. *)
Definition fmt (o : option string) : string := default "None" o.

End PyStr.

(** ** The world the handlers run in *)

(** A chunk document of the search index.  The handlers of
    webhook_handler.py write no [tenant_id]; only large_file_handler.py
    writes [file_size_category]. *)
Record Doc := mkDoc {
  doc_id : string;
  doc_title : string;
  doc_content : Py.text;
  doc_chunk : nat;
  doc_vector : list float;
  doc_source_drive_id : string;
  doc_source_item_id : option string;
  doc_tenant_id : option string;
  doc_last_modified : option string;
  doc_file_size_category : option string
}.

(** The OData filter the handlers build:
    [source_drive_id eq '..' and source_item_id eq '..'], with
    [and tenant_id eq '..'] in the tenant-aware handlers.  The handlers put
    the ids between the quotes as they are, so the record stands for the
    filter they send when no id contains a single quote; an id with a quote
    gives the service another filter, which the record cannot hold. *)
Record Filter := mkFilter {
  f_drive : string;
  f_item : string;
  f_tenant : option string
}.

(** The message put on the Service Bus queue for a large file. *)
Record QueueMessage := mkQueueMessage {
  q_drive_id : string;
  q_item_id : string;
  q_file_name : string;
  q_file_size : Z;
  q_tenant_id : string;
  q_queued_at : string
}.

Inductive Level := PRINT | INFO | WARNING | ERROR.

(** What a run does to the outside, in order: log lines, requests to the
    delta API, calls of the search client, queue sends.  A [print] is a log
    line of level [PRINT]; the emoji that open most printed lines are left
    out, and an exception shows as its message. *)
Inductive Event :=
| EvLog (lvl : Level) (msg : string)
| EvDeltaGet (url : string)
| EvIndexSearch (f : Filter)
| EvIndexDelete (ids : list string)
| EvIndexUpload (docs : list Doc)
| EvQueueSend (m : QueueMessage).

Record World := mkWorld {
  w_index : gmap string Doc;              (* the search index, by document key *)
  w_cache : gmap string (option string);  (* processed_files_cache *)
  w_files : gset string;                  (* temp files on disk *)
  w_queue : list QueueMessage;            (* the large-file queue *)
  w_trace : list Event
}.

(** One item of a delta response. [it_file] is [Some m] when the item has a
    [file] facet, [m] being its [mimeType] if any. *)
Record Item := mkItem {
  it_id : option string;
  it_name : option string;
  it_size : option Z;
  it_last_modified : option string;
  it_file : option (option string);
  it_deleted : bool
}.

(** A response of the delta API: status code, body text, the [value] array
    (empty when absent) and [@odata.nextLink]. *)
Record Response := mkResponse {
  status_code : nat;
  resp_text : string;
  resp_value : list Item;
  resp_next_link : option string
}.

(** Result of [graph_client.get_file_info] when it is neither [None] nor an
    empty object. *)
Record FileInfo := mkFileInfo {
  fi_name : option string;
  fi_last_modified : option string
}.

(** A notification of a Graph batch, as the Graph API sends it: each of
    the members is a string or is absent.  A batch in which a member is of
    another JSON type (a number as [clientState], say) is not a value of
    this type. *)
Record Notification := mkNotification {
  n_client_state : option string;
  n_resource : option string;
  n_change_type : option string;
  n_tenant_id : option string
}.

Inductive Result (A : Type) :=
| Ok (a : A)
| Raise (e : string).
Arguments Ok {A} a.
Arguments Raise {A} e.

(** How one download by the Graph client goes. *)
Inductive Download :=
| DlRefused (e : string)                 (* no token, request error or HTTP error status *)
| DlBroken (path : string) (e : string)  (* temp file created, then the stream or the write fails *)
| DlDone (path : string).                (* temp file created and written *)

(** How one streamed download of large_file_handler.py goes: there the temp
    file is made before the request is sent. *)
Inductive StreamDownload :=
| SdNoHeaders (e : string)               (* get_headers raises: no temp file yet *)
| SdStatus (path : string) (code : nat)  (* response status other than 200 *)
| SdBroken (path : string) (e : string)  (* the request, the stream or the write fails *)
| SdDone (path : string).

(** The services around the handlers.  Each field is the outcome of one
    external call. *)
Record Env := mkEnv {
  WEBHOOK_CLIENT_STATE : string;
  utcnow : string;                                     (* datetime.utcnow().isoformat() *)
  delta_get : string -> Result Response;               (* requests.get, response.json *)
  file_info : string -> string -> Result (option FileInfo);
  download : string -> string -> Download;             (* requests.get(stream), mkstemp(), write *)
  graph_headers : Result unit;                         (* graph_client.get_headers *)
  stream_download : string -> string -> string -> StreamDownload;
  parse : string -> string -> Result Py.text;          (* fitz, docx, pptx or open on (ext, path) *)
  embeddings_create : Py.text -> Result (list float);  (* client.embeddings.create *)
  search_ok : Filter -> Result unit;                   (* search_client.search *)
  delete_ok : list string -> Result unit;              (* search_client.delete_documents *)
  upload_ok : list Doc -> Result unit;                 (* search_client.upload_documents *)
  queue_send : QueueMessage -> Result unit;            (* ServiceBusClient ... send_messages *)
  decision_line : string -> Z -> option string -> bool -> string -> string
                                                       (* text of log_file_decision *)
}.

(** *** A state and exception monad *)

Definition M (A : Type) : Type := World -> Result A * World.

Definition ret {A} (a : A) : M A := fun w => (Ok a, w).

Definition bind {A B} (m : M A) (k : A -> M B) : M B :=
  fun w => match m w with
           | (Ok a, w') => k a w'
           | (Raise e, w') => (Raise e, w')
           end.

Definition raise {A} (e : string) : M A := fun w => (Raise e, w).

Definition lift {A} (r : Result A) : M A := fun w => (r, w).

(** [try: m except Exception as e: h e] *)
Definition try_except {A} (m : M A) (h : string -> M A) : M A :=
  fun w => match m w with
           | (Ok a, w') => (Ok a, w')
           | (Raise e, w') => h e w'
           end.

(** [try: m finally: fin] *)
Definition try_finally {A} (m : M A) (fin : M unit) : M A :=
  fun w => match m w with
           | (r, w') => match fin w' with
                        | (Ok _, w'') => (r, w'')
                        | (Raise e, w'') => (Raise e, w'')
                        end
           end.

#[global] Instance M_ret : MRet M := @ret.
#[global] Instance M_bind : MBind M := fun A B k m => bind m k.

Notation "'let*' x ':=' m 'in' k" := (bind m (fun x => k))
  (at level 10, x name, m at level 100, k at level 200, only parsing).

(** [for x in l: f x] *)
Fixpoint for_each {A} (l : list A) (f : A -> M unit) : M unit :=
  match l with
  | [] => ret tt
  | x :: l' => f x ;; for_each l' f
  end.

Definition gets {A} (f : World -> A) : M A := fun w => (Ok (f w), w).

Definition modify (f : World -> World) : M unit := fun w => (Ok tt, f w).

Definition set_index (f : gmap string Doc -> gmap string Doc) (w : World) : World :=
  mkWorld (f (w_index w)) (w_cache w) (w_files w) (w_queue w) (w_trace w).

Definition set_cache (f : gmap string (option string) -> gmap string (option string))
    (w : World) : World :=
  mkWorld (w_index w) (f (w_cache w)) (w_files w) (w_queue w) (w_trace w).

Definition set_files (f : gset string -> gset string) (w : World) : World :=
  mkWorld (w_index w) (w_cache w) (f (w_files w)) (w_queue w) (w_trace w).

Definition set_queue (f : list QueueMessage -> list QueueMessage) (w : World) : World :=
  mkWorld (w_index w) (w_cache w) (w_files w) (f (w_queue w)) (w_trace w).

Definition set_trace (f : list Event -> list Event) (w : World) : World :=
  mkWorld (w_index w) (w_cache w) (w_files w) (w_queue w) (f (w_trace w)).

Definition emit (e : Event) : M unit := modify (set_trace (fun t => t ++ [e])).

Definition log (lvl : Level) (msg : string) : M unit := emit (EvLog lvl msg).

(** *** The search client *)

Definition matches (f : Filter) (d : Doc) : bool :=
  String.eqb (doc_source_drive_id d) (f_drive f)
  && bool_decide (doc_source_item_id d = Some (f_item f))
  && match f_tenant f with
     | None => true
     | Some t => bool_decide (doc_tenant_id d = Some t)
     end.

(** [search_client.search(search_text="*", filter=f)], iterated. *)
Definition search (env : Env) (f : Filter) : M (list Doc) :=
  emit (EvIndexSearch f) ;;
  lift (search_ok env f) ;;
  gets (fun w => filter (fun d => matches f d = true) (map_to_list (w_index w)).*2).

(** [search_client.delete_documents(documents=[{"id": i} for i in ids])] *)
Definition delete_documents (env : Env) (ids : list string) : M unit :=
  emit (EvIndexDelete ids) ;;
  lift (delete_ok env ids) ;;
  modify (set_index (fun m => foldr delete m ids)).

(** [search_client.upload_documents(documents=docs)]: upsert by key. *)
Definition upload_documents (env : Env) (docs : list Doc) : M unit :=
  emit (EvIndexUpload docs) ;;
  lift (upload_ok env docs) ;;
  modify (set_index (fun m => foldl (fun m d => <[doc_id d := d]> m) m docs)).

(** *** Temp files *)

Definition create_file (path : string) : M unit :=
  modify (set_files (fun fs => {[path]} ∪ fs)).

(** [os.path.exists(path)] *)
Definition path_exists (path : string) : M bool :=
  gets (fun w => bool_decide (path ∈ w_files w)).

(** [os.unlink(path)] and [os.remove(path)]: [FileNotFoundError] when the
    file is not there. *)
Definition unlink (path : string) : M unit :=
  let* there := path_exists path in
  if there then modify (set_files (fun fs => fs ∖ {[path]}))
  else raise "No such file or directory".

Definition of_option {A} (o : option A) (e : string) : M A :=
  match o with Some a => ret a | None => raise e end.

(** ** embedding.py *)

Module Embedding.

(** [[0.1] * 1536] *)
#[warnings="-inexact-float"]
Definition MOCK_EMBEDDING : list float := replicate 1536 0.1%float.

Definition embed_text (env : Env) (text : Py.text) : M (list float) :=
  try_except (lift (embeddings_create env text))
    (fun e =>
       log PRINT ("Azure OpenAI Error: " +:+ e) ;;
       log PRINT "Falling back to mock embedding" ;;
       ret MOCK_EMBEDDING).

End Embedding.

(** ** graph_client.py *)

Module GraphClient.

(** [download_file]: the temp file is made by [mkstemp()] after the response
    status was checked; any exception is printed and turned into [None]. *)
Definition download_file (env : Env) (drive_id item_id : string) : M (option string) :=
  match download env drive_id item_id with
  | DlRefused e =>
      log PRINT ("Error downloading file " +:+ item_id +:+ ": " +:+ e) ;;
      ret None
  | DlBroken path e =>
      create_file path ;;
      log PRINT ("Error downloading file " +:+ item_id +:+ ": " +:+ e) ;;
      ret None
  | DlDone path =>
      create_file path ;;
      ret (Some path)
  end.

Definition get_file_info (env : Env) (drive_id item_id : string) : M (option FileInfo) :=
  try_except (lift (file_info env drive_id item_id))
    (fun e => log PRINT ("Error getting file info: " +:+ e) ;; ret None).

End GraphClient.

(** ** ingest_local.py: text extraction *)

Module TextExtraction.

Definition extract_text (env : Env) (path : string) : M Py.text :=
  let ext := PyStr.lower (PyStr.splitext_ext path) in
  try_except
    (if String.eqb ext ".pdf" then lift (parse env ext path)
     else if String.eqb ext ".docx" then lift (parse env ext path)
     else if String.eqb ext ".pptx" then lift (parse env ext path)
     else if String.eqb ext ".txt" then lift (parse env ext path)
     else log PRINT ("Unsupported file type: " +:+ ext) ;; ret [])
    (fun e =>
       log PRINT ("Error extracting text from " +:+ path +:+ ": " +:+ e) ;;
       ret []).

End TextExtraction.

(** ** file_type_filter.py *)

Module FileTypeFilter.

Definition SUPPORTED_MIME_TYPES : list string :=
  [ "application/vnd.openxmlformats-officedocument.wordprocessingml.document";
    "application/vnd.openxmlformats-officedocument.spreadsheetml.sheet";
    "application/vnd.openxmlformats-officedocument.presentationml.presentation";
    "application/msword";
    "application/vnd.ms-excel";
    "application/vnd.ms-powerpoint";
    "application/pdf";
    "text/plain"; "text/csv"; "text/html"; "text/xml"; "application/xml";
    "text/markdown"; "text/rtf"; "application/rtf";
    "application/vnd.oasis.opendocument.text";
    "application/vnd.oasis.opendocument.spreadsheet";
    "application/vnd.oasis.opendocument.presentation" ].

(** No entry is a suffix of another, so the order in which the set is
    walked does not matter. *)
Definition SKIP_EXTENSIONS : list string :=
  [ ".zip"; ".rar"; ".7z"; ".tar"; ".gz"; ".bz2";
    ".mp4"; ".avi"; ".mkv"; ".mov"; ".wmv"; ".flv";
    ".mp3"; ".wav"; ".flac"; ".aac"; ".ogg"; ".wma";
    ".jpg"; ".jpeg"; ".png"; ".gif"; ".bmp"; ".tiff"; ".svg"; ".webp";
    ".exe"; ".msi"; ".deb"; ".rpm"; ".dmg"; ".pkg";
    ".dll"; ".so"; ".dylib";
    ".dwg"; ".dxf"; ".3ds"; ".blend"; ".max";
    ".db"; ".sqlite"; ".mdb"; ".accdb";
    ".tmp"; ".temp"; ".cache"; ".log" ].

Definition binary_prefixes : list string :=
  [ "image/"; "video/"; "audio/"; "application/octet-stream" ].

Definition text_extensions : list string :=
  [ ".txt"; ".md"; ".csv"; ".json"; ".xml"; ".html"; ".htm"; ".rtf" ].

(** The [if mime_type:] block: [None] when it falls through. *)
Definition mime_decision (mime_type : option string) : option (bool * string) :=
  match mime_type with
  | None => None
  | Some m =>
      if negb (PyStr.truthy m) then None
      else if bool_decide (m ∈ SUPPORTED_MIME_TYPES)
      then Some (true, "Supported MIME type: " +:+ m)
      else if PyStr.startswith m "text/"
      then Some (true, "Text file: " +:+ m)
      else match find (PyStr.startswith m) binary_prefixes with
           | Some _ => Some (false, "Binary MIME type: " +:+ m)
           | None => None
           end
  end.

Definition should_process_file (file_name : string) (mime_type : option string)
    (file_size : Z) : bool * string :=
  let file_name_lower := PyStr.lower file_name in
  match find (PyStr.endswith file_name_lower) SKIP_EXTENSIONS with
  | Some skip_ext => (false, "Skipped binary file type: " +:+ skip_ext)
  | None =>
      match mime_decision mime_type with
      | Some d => d
      | None =>
          match find (PyStr.endswith file_name_lower) text_extensions with
          | Some ext => (true, "Text file extension: " +:+ ext)
          | None =>
              if (10 * 1024 * 1024 <? file_size)%Z
              then (false, "Unknown file type and large size (" +:+ pretty file_size
                           +:+ " bytes), skipping to save bandwidth")
              else (true, "Small unknown file (" +:+ pretty file_size
                          +:+ " bytes), processing")
          end
      end
  end.

(** [log_file_decision]: one INFO line. *)
Definition log_file_decision (env : Env) (file_name : string) (file_size : Z)
    (mime_type : option string) (should_process : bool) (reason : string) : M unit :=
  log INFO (decision_line env file_name file_size mime_type should_process reason).

End FileTypeFilter.

(** ** queue_based_processor.py *)

Module QueueProcessor.

Definition MAX_QUEUE_FILE_SIZE : Z := 1024 * 1024 * 1024.

Definition should_use_queue_processing (file_size : Z) : bool :=
  (200 * 1024 * 1024 <? file_size)%Z.

Definition enqueue_large_file_processing (env : Env) (drive_id item_id file_name : string)
    (file_size : Z) (tenant_id : string) : M bool :=
  try_except
    (if (MAX_QUEUE_FILE_SIZE <? file_size)%Z then
       log WARNING ("File " +:+ file_name +:+ " exceeds maximum size limit ("
                    +:+ pretty file_size +:+ " bytes)") ;;
       ret false
     else
       let message_data :=
         mkQueueMessage drive_id item_id file_name file_size tenant_id (utcnow env) in
       emit (EvQueueSend message_data) ;;
       lift (queue_send env message_data) ;;
       modify (set_queue (fun q => q ++ [message_data])) ;;
       log INFO ("Enqueued large file " +:+ file_name +:+ " (" +:+ pretty file_size
                 +:+ " bytes) for processing") ;;
       ret true)
    (fun e =>
       log ERROR ("Error enqueueing large file " +:+ file_name +:+ ": " +:+ e) ;;
       ret false).

End QueueProcessor.

(** ** The chunk loop shared by the handlers

    [for snippet, chunk_idx in chunk_text(content): try: ... docs.append(doc)
    except Exception as e: <log>].  [mk] builds the document of a handler
    and [on_error] is its except clause. *)

Definition chunks_of (content : Py.text) : M (list (Py.text * nat)) :=
  of_option (IngestLocal.chunk_text content IngestLocal.DEFAULT_SIZE)
            "range() arg 3 must not be zero".

Fixpoint embed_chunks (env : Env) (mk : Py.text -> nat -> list float -> Doc)
    (on_error : nat -> string -> M unit) (chunks : list (Py.text * nat))
    : M (list Doc) :=
  match chunks with
  | [] => ret []
  | (snippet, chunk_idx) :: rest =>
      let* doc := try_except
                    (let* embedding := Embedding.embed_text env snippet in
                     ret [mk snippet chunk_idx embedding])
                    (fun e => on_error chunk_idx e ;; ret []) in
      let* docs := embed_chunks env mk on_error rest in
      ret (doc ++ docs)
  end.

(** The [finally] clause of [process_large_file] and of the tenant-aware
    [ingest_single_file]:
    [if temp_path and os.path.exists(temp_path): try: <remove> except: <log>].
    [removed] is what follows the removal inside that [try]. *)
Definition finally_cleanup (temp_path : option string) (removed : string -> M unit) : M unit :=
  match temp_path with
  | None => ret tt
  | Some path =>
      if negb (PyStr.truthy path) then ret tt
      else
        let* there := path_exists path in
        if there then
          try_except (unlink path ;; removed path)
            (fun e => log WARNING ("Failed to clean up temp file " +:+ path +:+ ": " +:+ e))
        else ret tt
  end.

(** ** large_file_handler.py *)

Module LargeFileHandler.

Definition MAX_STANDARD_FILE_SIZE : Z := 50 * 1024 * 1024.
Definition MAX_LARGE_FILE_SIZE : Z := 200 * 1024 * 1024.

Definition can_process_file_size (file_size : Z) : bool * string :=
  if (file_size <=? MAX_STANDARD_FILE_SIZE)%Z then (true, "standard")
  else if (file_size <=? MAX_LARGE_FILE_SIZE)%Z then (true, "streaming")
  else (false, "too_large").

Definition remove_file_from_index (env : Env) (drive_id item_id tenant_id : string)
    : M unit :=
  try_except
    (let* results := search env (mkFilter drive_id item_id (Some tenant_id)) in
     let doc_ids := doc_id <$> results in
     match doc_ids with
     | [] => ret tt
     | _ =>
         delete_documents env doc_ids ;;
         log INFO ("Removed " +:+ pretty (length doc_ids)
                   +:+ " chunks from search index (tenant: " +:+ tenant_id +:+ ")")
     end)
    (fun e => log ERROR ("Error removing file from index: " +:+ e)).

(** [stream_download_large_file]: [mkstemp(suffix="_" + file_name)]; the
    temp file is removed again when the status is not 200 or the stream
    fails. *)
Definition stream_download_large_file (env : Env) (drive_id item_id file_name : string)
    : M (option string) :=
  let on_exception (created : option string) (e : string) : M (option string) :=
    log ERROR ("Error streaming download " +:+ file_name +:+ ": " +:+ e) ;;
    match created with
    | None => ret tt
    | Some path =>
        let* there := path_exists path in
        if there then unlink path else ret tt
    end ;;
    ret None in
  match stream_download env drive_id item_id file_name with
  | SdNoHeaders e => on_exception None e
  | SdStatus path code =>
      create_file path ;;
      try_except
        (log ERROR ("Failed to download " +:+ file_name +:+ ": " +:+ pretty code) ;;
         unlink path ;;
         ret None)
        (on_exception (Some path))
  | SdBroken path e =>
      create_file path ;;
      on_exception (Some path) e
  | SdDone path =>
      create_file path ;;
      log INFO ("Successfully streamed " +:+ file_name +:+ " to " +:+ path) ;;
      ret (Some path)
  end.

Definition large_doc (drive_id item_id file_name tenant_id now : string)
    (snippet : Py.text) (chunk_idx : nat) (embedding : list float) : Doc :=
  mkDoc (tenant_id +:+ "_" +:+ drive_id +:+ "_" +:+ item_id +:+ "_" +:+ pretty chunk_idx)
        file_name snippet chunk_idx embedding drive_id (Some item_id)
        (Some tenant_id) (Some now) (Some "large").

(** [process_text_in_batches] together with the loop of
    [process_file_in_chunks] that consumes it: [consume] is the body of that
    loop, run at each [yield].  An exception of [consume] is raised in the
    consumer, not in the generator, so it is outside the generator's
    [try]. *)
Fixpoint process_text_in_batches (env : Env) (file_name drive_id item_id tenant_id : string)
    (batch_size : nat) (consume : list Doc -> nat -> M nat)
    (chunks : list (Py.text * nat)) (batch_docs : list Doc) (total_chunks : nat)
    : M nat :=
  match chunks with
  | [] =>
      match batch_docs with
      | [] => ret total_chunks
      | _ => consume batch_docs total_chunks
      end
  | (snippet, chunk_idx) :: rest =>
      let* batch_docs := try_except
          (let* embedding := Embedding.embed_text env snippet in
           ret (batch_docs ++ [large_doc drive_id item_id file_name tenant_id (utcnow env)
                                         snippet chunk_idx embedding]))
          (fun e =>
             log ERROR ("Error processing chunk " +:+ pretty chunk_idx +:+ " from "
                        +:+ file_name +:+ ": " +:+ e) ;;
             ret batch_docs) in
      if batch_size <=? length batch_docs
      then let* total_chunks := consume batch_docs total_chunks in
           process_text_in_batches env file_name drive_id item_id tenant_id
                                   batch_size consume rest [] total_chunks
      else process_text_in_batches env file_name drive_id item_id tenant_id
                                   batch_size consume rest batch_docs total_chunks
  end.

Definition process_file_in_chunks (env : Env) (temp_path drive_id item_id file_name tenant_id : string)
    : M bool :=
  try_except
    (log INFO ("Extracting text from " +:+ file_name) ;;
     let* content := TextExtraction.extract_text env temp_path in
     if negb (Py.truthy (Py.strip content)) then
       log WARNING ("No text extracted from " +:+ file_name) ;;
       ret false
     else
       remove_file_from_index env drive_id item_id tenant_id ;;
       let batch_size := 10 in
       let* chunks := chunks_of content in
       let* total_chunks :=
         process_text_in_batches env file_name drive_id item_id tenant_id batch_size
           (fun batch_docs total_chunks =>
              match batch_docs with
              | [] => ret total_chunks
              | _ =>
                  upload_documents env batch_docs ;;
                  log INFO ("Uploaded batch of " +:+ pretty (length batch_docs)
                            +:+ " chunks for " +:+ file_name) ;;
                  ret (total_chunks + length batch_docs)
              end)
           chunks [] 0 in
       log INFO ("Successfully indexed " +:+ pretty total_chunks
                 +:+ " chunks from large file " +:+ file_name) ;;
       ret true)
    (fun e =>
       log ERROR ("Error processing file chunks for " +:+ file_name +:+ ": " +:+ e) ;;
       ret false).

(** [process_large_file].  The first two statements of the [try] block
    cannot raise, so they are written before it; the [finally] clause sees
    the [temp_path] they set. *)
Definition process_large_file (env : Env) (drive_id item_id file_name : string)
    (file_size : Z) (tenant_id : string) : M bool :=
  log INFO ("Processing large file: " +:+ file_name +:+ " (" +:+ pretty file_size
            +:+ " bytes) for tenant " +:+ tenant_id) ;;
  let* temp_path := stream_download_large_file env drive_id item_id file_name in
  try_finally
    (try_except
       (match temp_path with
        | None =>
            log ERROR ("Failed to stream download " +:+ file_name) ;;
            ret false
        | Some path =>
            if negb (PyStr.truthy path) then
              log ERROR ("Failed to stream download " +:+ file_name) ;;
              ret false
            else process_file_in_chunks env path drive_id item_id file_name tenant_id
        end)
       (fun e =>
          log ERROR ("Error processing large file " +:+ file_name +:+ ": " +:+ e) ;;
          ret false))
    (finally_cleanup temp_path (fun path => log INFO ("Cleaned up temp file: " +:+ path))).

(** [ingest_single_file_standard]: the source returns [True] and does
    nothing else. *)
Definition ingest_single_file_standard (drive_id item_id file_name tenant_id : string)
    : M bool :=
  ret true.

Definition ingest_file_with_size_handling (env : Env) (drive_id item_id file_name : string)
    (file_size : Z) (tenant_id : string) : M bool :=
  let '(can_process, method) := can_process_file_size file_size in
  if negb can_process then
    log WARNING ("File " +:+ file_name +:+ " too large (" +:+ pretty file_size
                 +:+ " bytes), skipping") ;;
    ret false
  else if String.eqb method "standard" then
    ingest_single_file_standard drive_id item_id file_name tenant_id
  else
    process_large_file env drive_id item_id file_name file_size tenant_id.

End LargeFileHandler.

(** ** HTTP requests and responses *)

(** The JSON body of a request: not JSON at all, the empty object, or an
    object with other members, of which [value] is kept (empty when
    absent). *)
Inductive Body :=
| BodyInvalid
| BodyEmpty
| BodyObject (value : list Notification).

Record Request := mkRequest {
  req_validation_token : option string;   (* query parameter validationToken *)
  req_body : Body
}.

Inductive Json :=
| JStr (s : string)
| JNum (n : nat).

Inductive Payload :=
| PlainText (s : string)                  (* text/plain *)
| JsonObject (members : list (string * Json)).   (* application/json *)

Record HttpResponse := mkHttp {
  http_status : nat;
  http_payload : Payload
}.

(** ** webhook_handler.py (FastAPI) *)

Module WebhookHandler.

Definition cache_key (drive_id : string) (item_id : option string) : string :=
  drive_id +:+ "_" +:+ PyStr.fmt item_id.

(** [processed_files_cache.get(cache_key) == last_modified] *)
Definition is_already_processed (drive_id : string) (item_id last_modified : option string)
    : M bool :=
  let* cached_timestamp :=
    gets (fun w => default None (w_cache w !! cache_key drive_id item_id)) in
  ret (bool_decide (cached_timestamp = last_modified)).

Definition mark_as_processed (drive_id : string) (item_id last_modified : option string)
    : M unit :=
  modify (set_cache (fun c => <[cache_key drive_id item_id := last_modified]> c)).

Definition remove_file_from_index (env : Env) (drive_id : string) (item_id : option string)
    : M unit :=
  try_except
    (let* results := search env (mkFilter drive_id (PyStr.fmt item_id) None) in
     let doc_ids := doc_id <$> results in
     match doc_ids with
     | [] => ret tt
     | _ =>
         delete_documents env doc_ids ;;
         log PRINT ("Removed " +:+ pretty (length doc_ids) +:+ " chunks from search index")
     end)
    (fun e => log PRINT ("Error removing file from index: " +:+ e)).

Definition supported_extensions : list string := [".pdf"; ".docx"; ".pptx"; ".txt"].

Definition make_doc (drive_id : string) (item_id : option string) (file_name : string)
    (last_modified : option string)
    (snippet : Py.text) (chunk_idx : nat) (embedding : list float) : Doc :=
  mkDoc (drive_id +:+ "_" +:+ PyStr.fmt item_id +:+ "_" +:+ pretty chunk_idx)
        file_name snippet chunk_idx embedding drive_id item_id None last_modified None.

Definition ingest_single_file (env : Env) (drive_id : string) (item_id : option string)
    : M unit :=
  try_except
    (let* file_info := GraphClient.get_file_info env drive_id (PyStr.fmt item_id) in
     match file_info with
     | None => log PRINT ("Could not get file info for " +:+ PyStr.fmt item_id)
     | Some file_info =>
         let file_name := default "Unknown" (fi_name file_info) in
         let file_ext := PyStr.lower (PyStr.splitext_ext file_name) in
         if negb (bool_decide (file_ext ∈ supported_extensions)) then
           log PRINT ("Skipping unsupported file type: " +:+ file_name)
         else
           log PRINT ("Processing updated file: " +:+ file_name) ;;
           let* temp_path := GraphClient.download_file env drive_id (PyStr.fmt item_id) in
           match temp_path with
           | None => log PRINT ("Failed to download " +:+ file_name)
           | Some temp_path =>
               if negb (PyStr.truthy temp_path) then
                 log PRINT ("Failed to download " +:+ file_name)
               else
                 let* content := TextExtraction.extract_text env temp_path in
                 if negb (Py.truthy (Py.strip content)) then
                   log PRINT ("No text extracted from " +:+ file_name) ;;
                   unlink temp_path
                 else
                   remove_file_from_index env drive_id item_id ;;
                   let* chunks := chunks_of content in
                   let* docs :=
                     embed_chunks env
                       (make_doc drive_id item_id file_name (fi_last_modified file_info))
                       (fun _ e => log PRINT ("Error processing chunk from " +:+ file_name
                                              +:+ ": " +:+ e))
                       chunks in
                   match docs with
                   | [] => ret tt
                   | _ =>
                       upload_documents env docs ;;
                       log PRINT ("Indexed " +:+ pretty (length docs) +:+ " chunks from "
                                  +:+ file_name)
                   end ;;
                   unlink temp_path
           end
     end)
    (fun e => log PRINT ("Error ingesting file " +:+ PyStr.fmt item_id +:+ ": " +:+ e)).

Definition delta_url (drive_id : string) : string :=
  "https://graph.microsoft.com/v1.0/drives/" +:+ drive_id +:+ "/root/delta".

(** The body of the loop over the delta changes. *)
Definition process_change (env : Env) (drive_id : string) (item : Item) : M unit :=
  if it_deleted item then
    remove_file_from_index env drive_id (it_id item)
  else if bool_decide (is_Some (it_file item)) then
    let item_id := it_id item in
    let last_modified := it_last_modified item in
    let* processed := is_already_processed drive_id item_id last_modified in
    if negb processed then
      ingest_single_file env drive_id item_id ;;
      mark_as_processed drive_id item_id last_modified
    else ret tt
  else ret tt.

Definition process_drive_delta (env : Env) (drive_id : string) : M unit :=
  try_except
    (lift (graph_headers env) ;;
     emit (EvDeltaGet (delta_url drive_id)) ;;
     let* response := lift (delta_get env (delta_url drive_id)) in
     if status_code response =? 200 then
       let changes := resp_value response in
       log PRINT ("Processing " +:+ pretty (length changes) +:+ " delta changes") ;;
       for_each changes (process_change env drive_id)
     else
       log PRINT ("Delta query failed: " +:+ pretty (status_code response) +:+ " - "
                  +:+ resp_text response))
    (fun e => log PRINT ("Error processing drive delta: " +:+ e)).

Definition process_file_change (env : Env) (notification : Notification) : M unit :=
  try_except
    (let resource := default "" (n_resource notification) in
     let change_type := default "" (n_change_type notification) in
     log PRINT ("Webhook: " +:+ change_type +:+ " - " +:+ resource) ;;
     if PyStr.contains "/drives/" resource then
       let parts := PyStr.split_on "/" resource in
       let* drive_id := of_option (parts !! 2) "list index out of range" in
       process_drive_delta env drive_id
     else ret tt)
    (fun e => log PRINT ("Error processing webhook notification: " +:+ e)).

(** The loop of [validate_webhook]. *)
Fixpoint validate_notifications (env : Env) (notifications : list Notification) : M bool :=
  match notifications with
  | [] => ret true
  | notification :: rest =>
      let client_state := n_client_state notification in
      if negb (bool_decide (client_state = Some (WEBHOOK_CLIENT_STATE env))) then
        log PRINT ("Invalid client state: " +:+ PyStr.fmt client_state) ;;
        ret false
      else validate_notifications env rest
  end.

(** [await request.json()] followed by [body.get("value", [])]. *)
Definition request_notifications (request : Request) : M (list Notification) :=
  match req_body request with
  | BodyInvalid => raise "Expecting value"
  | BodyEmpty => ret []
  | BodyObject value => ret value
  end.

Definition validate_webhook (env : Env) (request : Request) : M bool :=
  try_except
    (let* notifications := request_notifications request in
     validate_notifications env notifications)
    (fun e => log PRINT ("Webhook validation error: " +:+ e) ;; ret false).

(** [handle_graph_webhook] gives the response and the background tasks it
    added; a returned dict is sent as a JSON object with status 200, and
    [HTTPException(401, "Unauthorized")] as status 401 with a [detail]
    member. *)
Definition handle_graph_webhook (env : Env) (request : Request)
    : M (HttpResponse * list Notification) :=
  let validation_token := req_validation_token request in
  if PyStr.truthy (default "" validation_token) then
    log PRINT ("Webhook validation requested: " +:+ PyStr.fmt validation_token) ;;
    ret (mkHttp 200 (JsonObject [("validationToken", JStr (PyStr.fmt validation_token))]), [])
  else
    let* validation_result := validate_webhook env request in
    if negb validation_result then
      ret (mkHttp 401 (JsonObject [("detail", JStr "Unauthorized")]), [])
    else
      let* notifications := request_notifications request in
      ret (mkHttp 200 (JsonObject [("status", JStr "accepted")]), notifications).

(** The endpoint as FastAPI runs it: the handler, then its background
    tasks in the order they were added. *)
Definition endpoint (env : Env) (request : Request) : M HttpResponse :=
  let* handled := handle_graph_webhook env request in
  let '(response, tasks) := handled in
  for_each tasks (process_file_change env) ;;
  ret response.

End WebhookHandler.

(** ** telemetry.py *)

Module Telemetry.

(** [@track_performance(name)]: the wrapper logs the completion or the
    failure of the operation and lets the exception through. *)
Definition track_performance {A} (operation_name : string) (m : M A) : M A :=
  fun w => match m w with
           | (Ok a, w') =>
               match log INFO ("operation_completed: " +:+ operation_name) w' with
               | (_, w'') => (Ok a, w'')
               end
           | (Raise e, w') =>
               match log ERROR ("operation_failed: " +:+ operation_name) w' with
               | (_, w'') => (Raise e, w'')
               end
           end.

(** [logger.log_webhook_event(event, data)] without an error. *)
Definition log_webhook_event (event : string) : M unit :=
  log INFO ("webhook_success: " +:+ event).

End Telemetry.

(** ** azure_function_webhook_enhanced.py (Azure Function) *)

Module Enhanced.

Definition validate_client_state (env : Env) (client_state : option string) : option string :=
  match client_state with
  | None => None
  | Some client_state =>
      if negb (PyStr.truthy client_state) then None
      else if String.eqb client_state (WEBHOOK_CLIENT_STATE env) then Some "default"
      else if PyStr.startswith client_state "docusense-"
              && PyStr.endswith client_state "-webhook"
      then let tenant_id := PyStr.slice client_state 10 (-8) in
           if PyStr.truthy tenant_id then Some tenant_id else None
      else None
  end.

Definition cache_key (tenant_id drive_id item_id : string) : string :=
  tenant_id +:+ "_" +:+ drive_id +:+ "_" +:+ item_id.

Definition is_already_processed (drive_id item_id : string) (last_modified : option string)
    (tenant_id : string) : M bool :=
  let* cached_timestamp :=
    gets (fun w => default None (w_cache w !! cache_key tenant_id drive_id item_id)) in
  ret (bool_decide (cached_timestamp = last_modified)).

Definition mark_as_processed (drive_id item_id : string) (last_modified : option string)
    (tenant_id : string) : M unit :=
  modify (set_cache (fun c => <[cache_key tenant_id drive_id item_id := last_modified]> c)).

Definition remove_file_from_index (env : Env) (drive_id item_id tenant_id : string)
    : M unit :=
  try_except
    (let* results := search env (mkFilter drive_id item_id (Some tenant_id)) in
     let doc_ids := doc_id <$> results in
     match doc_ids with
     | [] => ret tt
     | _ =>
         delete_documents env doc_ids ;;
         log INFO ("Removed " +:+ pretty (length doc_ids)
                   +:+ " chunks from search index (tenant: " +:+ tenant_id +:+ ")")
     end)
    (fun e => log ERROR ("Error removing file from index: " +:+ e)).

Definition make_doc (drive_id item_id file_name tenant_id now : string)
    (snippet : Py.text) (chunk_idx : nat) (embedding : list float) : Doc :=
  mkDoc (tenant_id +:+ "_" +:+ drive_id +:+ "_" +:+ item_id +:+ "_" +:+ pretty chunk_idx)
        file_name snippet chunk_idx embedding drive_id (Some item_id)
        (Some tenant_id) (Some now) None.

(** [ingest_single_file].  The first two statements of the [try] block
    cannot raise, so they are written before it; the [finally] clause sees
    the [temp_path] they set. *)
Definition ingest_single_file (env : Env) (drive_id item_id file_name tenant_id : string)
    : M unit :=
  log INFO ("Ingesting file: " +:+ file_name +:+ " (tenant: " +:+ tenant_id +:+ ")") ;;
  let* temp_path := GraphClient.download_file env drive_id item_id in
  try_finally
    (try_except
       (match temp_path with
        | None => log ERROR ("Failed to download " +:+ file_name)
        | Some path =>
            if negb (PyStr.truthy path) then
              log ERROR ("Failed to download " +:+ file_name)
            else
              let* content := TextExtraction.extract_text env path in
              if negb (Py.truthy (Py.strip content)) then
                log WARNING ("No text extracted from " +:+ file_name)
              else
                remove_file_from_index env drive_id item_id tenant_id ;;
                let* chunks := chunks_of content in
                let* docs :=
                  embed_chunks env
                    (make_doc drive_id item_id file_name tenant_id (utcnow env))
                    (fun _ e => log ERROR ("Error processing chunk from " +:+ file_name
                                           +:+ ": " +:+ e))
                    chunks in
                match docs with
                | [] => ret tt
                | _ =>
                    upload_documents env docs ;;
                    log INFO ("Indexed " +:+ pretty (length docs) +:+ " chunks from "
                              +:+ file_name +:+ " (tenant: " +:+ tenant_id +:+ ")")
                end
        end)
       (fun e => log ERROR ("Error ingesting file " +:+ item_id +:+ ": " +:+ e)))
    (finally_cleanup temp_path (fun _ => ret tt)).

(** [process_single_item_change].  In the source the idempotency check and
    the call of [ingest_file_with_size_handling] (lines 221 to 246) are
    indented under [if not can_process:], after its [return]: they are
    never run, and the function ends after the size checks. *)
Definition process_single_item_change (env : Env) (item : Item) (drive_id tenant_id : string)
    : M unit :=
  let item_id := default "" (it_id item) in
  if negb (PyStr.truthy item_id) then
    log WARNING "Item missing ID, skipping"
  else if it_deleted item then
    log INFO ("File deleted: " +:+ item_id) ;;
    remove_file_from_index env drive_id item_id tenant_id
  else
    match it_file item with
    | None => ret tt
    | Some mime_type =>
        let file_name := default "Unknown" (it_name item) in
        let file_size := default 0%Z (it_size item) in
        let '(should_process, reason) :=
          FileTypeFilter.should_process_file file_name mime_type file_size in
        FileTypeFilter.log_file_decision env file_name file_size mime_type
                                         should_process reason ;;
        if negb should_process then ret tt
        else if QueueProcessor.should_use_queue_processing file_size then
          let* success :=
            QueueProcessor.enqueue_large_file_processing env drive_id item_id file_name
                                                         file_size tenant_id in
          if success then
            log INFO ("Large file " +:+ file_name +:+ " (" +:+ pretty file_size
                      +:+ " bytes) enqueued for background processing")
          else
            log ERROR ("Failed to enqueue large file " +:+ file_name)
        else
          let '(can_process, method) :=
            LargeFileHandler.can_process_file_size file_size in
          if negb can_process then
            log WARNING ("File " +:+ file_name +:+ " too large (" +:+ pretty file_size
                         +:+ " bytes), maximum supported is 1GB via queue")
          else ret tt
    end.

Definition delta_url (drive_id : string) : string :=
  "https://graph.microsoft.com/v1.0/drives/" +:+ drive_id +:+ "/root/delta".

Definition process_drive_delta (env : Env) (drive_id tenant_id : string) : M unit :=
  try_except
    (lift (graph_headers env) ;;
     emit (EvDeltaGet (delta_url drive_id)) ;;
     let* response := lift (delta_get env (delta_url drive_id)) in
     if status_code response =? 200 then
       let changes := resp_value response in
       log INFO ("Processing " +:+ pretty (length changes) +:+ " delta changes for tenant "
                 +:+ tenant_id) ;;
       for_each changes
         (fun item =>
            try_except (process_single_item_change env item drive_id tenant_id)
              (fun e => log ERROR ("Error processing item "
                                   +:+ default "unknown" (it_id item) +:+ ": " +:+ e))) ;;
       if PyStr.truthy (default "" (resp_next_link response)) then
         log INFO "Delta query has more pages, consider implementing pagination"
       else ret tt
     else
       log ERROR ("Delta query failed: " +:+ pretty (status_code response) +:+ " - "
                  +:+ resp_text response))
    (fun e => log ERROR ("Error processing drive delta: " +:+ e)).

Definition process_notification_sync (env : Env) (notification : Notification) : M unit :=
  try_except
    (let resource := default "" (n_resource notification) in
     let change_type := default "" (n_change_type notification) in
     let tenant_id := default "default" (n_tenant_id notification) in
     log INFO ("Processing " +:+ change_type +:+ " notification for " +:+ resource
               +:+ " (tenant: " +:+ tenant_id +:+ ")") ;;
     if PyStr.contains "/drives/" resource then
       let parts := PyStr.split_on "/" resource in
       if 3 <=? length parts then
         let* drive_id := of_option (parts !! 2) "list index out of range" in
         process_drive_delta env drive_id tenant_id
       else log ERROR ("Invalid resource path format: " +:+ resource)
     else log WARNING ("Unsupported resource type: " +:+ resource))
    (fun e => log ERROR ("Error processing notification: " +:+ e)).

(** The loop of [main] over the batch: [Some r] when it returns [r] from
    inside the loop. *)
Fixpoint process_notifications (env : Env) (notifications : list Notification)
    : M (option HttpResponse) :=
  match notifications with
  | [] => ret None
  | notification :: rest =>
      let client_state := n_client_state notification in
      match validate_client_state env client_state with
      | None =>
          log ERROR "Invalid client state" ;;
          ret (Some (mkHttp 401 (PlainText "Unauthorized")))
      | Some tenant_id =>
          let notification :=
            mkNotification (n_client_state notification) (n_resource notification)
                           (n_change_type notification) (Some tenant_id) in
          Telemetry.log_webhook_event "notification_received" ;;
          process_notification_sync env notification ;;
          process_notifications env rest
      end
  end.

Definition main (env : Env) (req : Request) : M HttpResponse :=
  Telemetry.track_performance "webhook_processing"
    (log INFO "Graph webhook notification received" ;;
     try_except
       (let validation_token := req_validation_token req in
        if PyStr.truthy (default "" validation_token) then
          log INFO ("Webhook validation requested: " +:+ PyStr.fmt validation_token) ;;
          ret (mkHttp 200 (PlainText (PyStr.fmt validation_token)))
        else
          match req_body req with
          | BodyInvalid =>
              log ERROR "Invalid JSON in request body" ;;
              ret (mkHttp 400 (PlainText "Invalid JSON"))
          | BodyEmpty =>
              log ERROR "Empty request body" ;;
              ret (mkHttp 400 (PlainText "Empty body"))
          | BodyObject [] =>
              log WARNING "No notifications in request body" ;;
              ret (mkHttp 400 (PlainText "No notifications"))
          | BodyObject notifications =>
              log INFO ("Processing " +:+ pretty (length notifications) +:+ " notifications") ;;
              let* returned := process_notifications env notifications in
              match returned with
              | Some response => ret response
              | None =>
                  ret (mkHttp 200 (JsonObject [("status", JStr "accepted");
                                               ("processed", JNum (length notifications))]))
              end
          end)
       (fun e =>
          log ERROR ("Error processing webhook: " +:+ e) ;;
          ret (mkHttp 500 (PlainText "Internal error")))).

End Enhanced.


(** ** The delta API as the specification describes it *)

(** The full change set in the words of the specification ("must follow
    server-provided pagination links to retrieve the full change set"): the
    change records of all pages, from [url] on, at most [fuel] pages.  No
    handler computes this; the resolver is compared with it. *)
Fixpoint paged_changes (env : Env) (fuel : nat) (url : string) : list Item :=
  match fuel with
  | O => []
  | S fuel' =>
      match delta_get env url with
      | Ok response =>
          resp_value response
          ++ match resp_next_link response with
             | Some next => paged_changes env fuel' next
             | None => []
             end
      | Raise _ => []
      end
  end.

(** The environment with another delta API. *)
Definition with_delta_get (env : Env) (g : string -> Result Response) : Env :=
  mkEnv (WEBHOOK_CLIENT_STATE env) (utcnow env) g (file_info env) (download env)
        (graph_headers env) (stream_download env) (parse env) (embeddings_create env)
        (search_ok env) (delete_ok env) (upload_ok env) (queue_send env)
        (decision_line env).

(** ** Sample runs *)

Module Sample.

Definition stamp : string := "2024-05-01T10:00:00Z".

(** An environment in which the Graph API knows nothing and the search
    service and the queue work. *)
Definition quiet : Env :=
  mkEnv "docusense-webhook-secret" "2024-05-02T08:30:00"
        (fun _ => Raise "HTTPSConnectionPool: Max retries exceeded")
        (fun _ _ => Raise "404 Client Error: Not Found")
        (fun _ _ => DlRefused "404 Client Error: Not Found")
        (Ok tt)
        (fun _ _ _ => SdNoHeaders "Failed to get access token")
        (fun _ _ => Raise "cannot open file")
        (fun _ => Raise "Connection error.")
        (fun _ => Ok tt) (fun _ => Ok tt) (fun _ => Ok tt) (fun _ => Ok tt)
        (fun file_name _ _ _ reason => file_name +:+ " - " +:+ reason).

Definition empty_world : World := mkWorld ∅ ∅ ∅ [] [].

(** An upsert record of a delta response and a deletion record. *)
Definition upsert (item_id file_name : string) (size : Z) : Item :=
  mkItem (Some item_id) (Some file_name) (Some size) (Some stamp)
         (Some (Some "application/pdf")) false.

Definition deletion (item_id : string) : Item :=
  mkItem (Some item_id) None None None None true.

Definition page (value : list Item) (next : option string) : Response :=
  mkResponse 200 "" value next.

(** A chunk of [item_id] of drive d1 already in the index, written by the
    tenant-aware handler for the tenant "default". *)
Definition indexed (item_id : string) : Doc :=
  Enhanced.make_doc "d1" item_id "old.pdf" "default" "2024-04-01T00:00:00"
                    (Py.of_string "old text") 0 [].

Definition world_with (docs : list Doc) : World :=
  mkWorld (list_to_map ((fun d => (doc_id d, d)) <$> docs)) ∅ ∅ [] [].

(** The delta API answers for drive d1 with one upsert of report.pdf; the
    item exists, and its download is refused by the server. *)
Definition download_refused : Env :=
  mkEnv "your-secret-state" (utcnow quiet)
        (fun url => if String.eqb url (WebhookHandler.delta_url "d1")
                    then Ok (page [upsert "i1" "report.pdf" 2000000] None)
                    else delta_get quiet url)
        (fun _ _ => Ok (Some (mkFileInfo (Some "report.pdf") (Some stamp))))
        (fun _ _ => DlRefused "503 Server Error: Service Unavailable")
        (Ok tt) (stream_download quiet) (parse quiet) (embeddings_create quiet)
        (search_ok quiet) (delete_ok quiet) (upload_ok quiet) (queue_send quiet)
        (decision_line quiet).

(** The same, but the connection breaks while the content is streamed into
    the temp file. *)
Definition download_broken : Env :=
  mkEnv "your-secret-state" (utcnow quiet)
        (delta_get download_refused) (file_info download_refused)
        (fun _ _ => DlBroken "/tmp/tmpq7w2k9xs" "Connection broken: IncompleteRead")
        (Ok tt)
        (fun _ _ file_name =>
           SdBroken ("/tmp/tmpq7w2k9xs_" +:+ file_name) "Connection broken: IncompleteRead")
        (parse quiet) (embeddings_create quiet)
        (search_ok quiet) (delete_ok quiet) (upload_ok quiet) (queue_send quiet)
        (decision_line quiet).

(** A large text file is streamed to a temp file named after it and read
    back as two words; the embedding service is down. *)
Definition embedding_down : Env :=
  mkEnv (WEBHOOK_CLIENT_STATE quiet) (utcnow quiet)
        (delta_get quiet) (file_info quiet) (download quiet) (Ok tt)
        (fun _ _ file_name => SdDone ("/tmp/tmpq7w2k9xs_" +:+ file_name))
        (fun _ _ => Ok (Py.of_string "hello world"))
        (fun _ => Raise "Request timed out.")
        (search_ok quiet) (delete_ok quiet) (upload_ok quiet) (queue_send quiet)
        (decision_line quiet).

(** The delta API answers for drive d1 with the deletion of i1. *)
Definition one_deletion : Env :=
  with_delta_get quiet
    (fun url => if String.eqb url (Enhanced.delta_url "d1")
                then Ok (page [deletion "i1"] None)
                else delta_get quiet url).

(** A batch of two notifications for drive d1: the first carries the
    shared secret, the second a forged client state. *)
Definition mixed_batch : Request :=
  mkRequest None
    (BodyObject [ mkNotification (Some "docusense-webhook-secret")
                                 (Some "/drives/d1/root") (Some "updated") None;
                  mkNotification (Some "forged")
                                 (Some "/drives/d1/root") (Some "updated") None ]).

(** The delta API answers for drive d1 in two pages: the deletion of i1,
    with a link to the second page, and there the deletion of i2. *)
Definition page2_url : string :=
  "https://graph.microsoft.com/v1.0/drives/d1/root/delta?token=page2".

Definition two_pages : Env :=
  with_delta_get quiet
    (fun url => if String.eqb url (Enhanced.delta_url "d1")
                then Ok (page [deletion "i1"] (Some page2_url))
                else if String.eqb url page2_url
                then Ok (page [deletion "i2"] None)
                else delta_get quiet url).

(** The subscription handshake. *)
Definition handshake : Request :=
  mkRequest (Some "Validation: Testing client application reachability") BodyEmpty.

End Sample.

(** ** queue_based_processor.py: the Service Bus trigger *)

Module QueueFunction.

(** [process_very_large_file]: the source logs one line and returns
    [True]. *)
Definition process_very_large_file (drive_id item_id file_name : string) (file_size : Z)
    (tenant_id : string) : M bool :=
  try_except
    (log INFO ("Processing very large file: " +:+ file_name +:+ " (" +:+ pretty file_size
               +:+ " bytes)") ;;
     ret true)
    (fun e =>
       log ERROR ("Error processing very large file " +:+ file_name +:+ ": " +:+ e) ;;
       ret false).

(** [process_queued_large_file].  [msg] is what decoding the body of the
    Service Bus message and reading its five keys gives: the message, or the
    exception of [json.loads] or of a missing key.  The [except] clause logs
    and raises again. *)
Definition process_queued_large_file (msg : Result QueueMessage) : M unit :=
  try_except
    (let* message_data := lift msg in
     let drive_id := q_drive_id message_data in
     let item_id := q_item_id message_data in
     let file_name := q_file_name message_data in
     let file_size := q_file_size message_data in
     let tenant_id := q_tenant_id message_data in
     log INFO ("Processing queued large file: " +:+ file_name +:+ " (" +:+ pretty file_size
               +:+ " bytes)") ;;
     let* success := process_very_large_file drive_id item_id file_name file_size tenant_id in
     if success then log INFO ("Successfully processed large file: " +:+ file_name)
     else log ERROR ("Failed to process large file: " +:+ file_name))
    (fun e =>
       log ERROR ("Error processing queued message: " +:+ e) ;;
       raise e).

End QueueFunction.

(** ** webhook_handler.py: WebhookManager *)

(** The body of the request that creates a subscription. *)
Record SubscriptionData := mkSubscriptionData {
  sub_change_type : string;
  sub_notification_url : string;
  sub_resource : string;
  sub_expiration : string;
  sub_client_state : string
}.

Module WebhookManager.

(** The [subscription_data] that [create_subscription] builds and posts to
    the Graph API.  [expires] is
    [(datetime.utcnow() + timedelta(days=3)).isoformat()]; a [tenant_id]
    that is [None] or empty counts as not given. *)
Definition subscription_data (env : Env) (drive_id notification_url : string)
    (tenant_id : option string) (expires : string) : SubscriptionData :=
  let given := PyStr.truthy (default "" tenant_id) in
  let notification_url :=
    if given && negb (PyStr.contains "?" notification_url)
    then notification_url +:+ "?tenant=" +:+ PyStr.fmt tenant_id
    else if given then notification_url +:+ "&tenant=" +:+ PyStr.fmt tenant_id
    else notification_url in
  let client_state :=
    if given then "docusense-" +:+ PyStr.fmt tenant_id +:+ "-webhook"
    else WEBHOOK_CLIENT_STATE env in
  mkSubscriptionData "created,updated,deleted" notification_url
                     ("/drives/" +:+ drive_id +:+ "/root") (expires +:+ "Z") client_state.

End WebhookManager.

(** ** Further sample environments *)

Module Cases.

(** The search service is down. *)
Definition index_down : Env :=
  mkEnv (WEBHOOK_CLIENT_STATE Sample.quiet) (utcnow Sample.quiet)
        (delta_get Sample.quiet) (file_info Sample.quiet) (download Sample.quiet) (Ok tt)
        (stream_download Sample.quiet) (parse Sample.quiet)
        (embeddings_create Sample.quiet)
        (fun _ => Raise "ServiceRequestError: connection refused")
        (fun _ => Raise "ServiceRequestError: connection refused")
        (fun _ => Raise "ServiceRequestError: connection refused")
        (queue_send Sample.quiet) (decision_line Sample.quiet).

(** report.pdf is downloaded to a temp file that [mkstemp()] has named; the
    parsers would read two words from any file they are given. *)
Definition download_done : Env :=
  mkEnv (WEBHOOK_CLIENT_STATE Sample.quiet) (utcnow Sample.quiet)
        (delta_get Sample.quiet)
        (fun _ _ => Ok (Some (mkFileInfo (Some "report.pdf") (Some Sample.stamp))))
        (fun _ _ => DlDone "/tmp/tmpq7w2k9xs")
        (Ok tt) (stream_download Sample.quiet)
        (fun _ _ => Ok (Py.of_string "hello world"))
        (embeddings_create Sample.quiet)
        (search_ok Sample.quiet) (delete_ok Sample.quiet) (upload_ok Sample.quiet)
        (queue_send Sample.quiet) (decision_line Sample.quiet).

(** An upsert record without [lastModifiedDateTime]. *)
Definition undated : Item :=
  mkItem (Some "i1") (Some "report.pdf") (Some 2000000%Z) None
         (Some (Some "application/pdf")) false.

(** A notification of a subscription to drive d1. *)
Definition drive_notification : Notification :=
  mkNotification (Some "docusense-webhook-secret") (Some "/drives/d1/root")
                 (Some "updated") None.

(** The message for a file of 300MB. *)
Definition big_message : QueueMessage :=
  mkQueueMessage "d1" "i1" "survey.pdf" (300 * 1024 * 1024) "default" (utcnow Sample.quiet).

End Cases.

(** ** Notions used to state the properties *)

(** Sizes in the units of the specification. *)
Definition MB : Z := 1024 * 1024.
Definition GB : Z := 1024 * MB.

(** A word as [split] produces it: not empty and free of white space. *)
Definition word (w : Py.text) : Prop :=
  w <> [] /\ Forall (fun c => Py.isspace c = false) w.

(** The multi-tenant token of a tenant. *)
Definition tenant_token (tenant_id : string) : string :=
  "docusense-" +:+ tenant_id +:+ "-webhook".

(** The vector [embed_text] returns for a snippet, and what it prints. *)
Definition embedding_for (env : Env) (snippet : Py.text) : list float :=
  match embeddings_create env snippet with
  | Ok v => v
  | Raise _ => Embedding.MOCK_EMBEDDING
  end.

Definition embedding_events (env : Env) (snippet : Py.text) : list Event :=
  match embeddings_create env snippet with
  | Ok _ => []
  | Raise e => [EvLog PRINT ("Azure OpenAI Error: " +:+ e);
                EvLog PRINT "Falling back to mock embedding"]
  end.

(** [m] keeps the relation [R] between the world before and after it. *)
Definition keeps (R : World -> World -> Prop) {A} (m : M A) : Prop :=
  forall w, R w (m w).2.

(** [m] never raises. *)
Definition total {A} (m : M A) : Prop :=
  forall w, exists a, (m w).1 = Ok a.

(** The trace grows by events that all satisfy [P]; nothing else is said. *)
Definition extends (P : Event -> Prop) (w w' : World) : Prop :=
  exists evs, w_trace w' = w_trace w ++ evs /\ Forall P evs.

Definition same_cache (w w' : World) : Prop := w_cache w' = w_cache w.

Definition same_files (w w' : World) : Prop := w_files w' = w_files w.

Definition is_index_write (e : Event) : Prop :=
  match e with
  | EvIndexDelete _ | EvIndexUpload _ => True
  | _ => False
  end.

Definition is_delta_get (e : Event) : Prop :=
  match e with
  | EvDeltaGet _ => True
  | _ => False
  end.

(** Nothing is written to the index and no write is attempted. *)
Definition no_index_write (w w' : World) : Prop :=
  w_index w' = w_index w /\ extends (fun e => ~ is_index_write e) w w'.

(** The URLs of the delta requests among some events. *)
Definition delta_requests (evs : list Event) : list string :=
  omap (fun e => match e with EvDeltaGet url => Some url | _ => None end) evs.

(** The index is keyed by the [id] field of its documents, as an upload
    leaves it. *)
Definition keyed (w : World) : Prop :=
  forall key doc, w_index w !! key = Some doc -> doc_id doc = key.

(** What is left of an index entry when the documents matching [f] are
    deleted. *)
Definition unless_matching (f : Filter) (entry : option Doc) : option Doc :=
  match entry with
  | Some doc => if matches f doc then None else Some doc
  | None => None
  end.

(** The index, the tracker and the temp files are as before; the queue and
    the trace may have grown. *)
Definition stores_untouched (w w' : World) : Prop :=
  w_index w' = w_index w /\ w_cache w' = w_cache w /\ w_files w' = w_files w.

(** The external call went through. *)
Definition succeeded {A} (r : Result A) : bool :=
  match r with
  | Ok _ => true
  | Raise _ => false
  end.

(** The client state of a notification is one [validate_client_state]
    accepts. *)
Definition has_valid_state (env : Env) (notification : Notification) : bool :=
  match Enhanced.validate_client_state env (n_client_state notification) with
  | Some _ => true
  | None => false
  end.

(** The index after the documents were uploaded, in order. *)
Definition upsert_all (docs : list Doc) (index : gmap string Doc) : gmap string Doc :=
  foldl (fun m d => <[doc_id d := d]> m) index docs.

(** The index without the documents that match [f]. *)
Definition without_matching (f : Filter) (index : gmap string Doc) : gmap string Doc :=
  filter (fun entry : string * Doc => matches f entry.2 = false) index.

(** The text is in ASCII, where [PyStr.lower] is Python's [lower]. *)
Definition is_ascii (s : string) : bool :=
  forallb (fun c => nat_of_ascii c <? 128) (list_ascii_of_string s).

(** The id has no single quote: between the quotes of a filter it is the
    literal the field is compared with. *)
Definition quote_free (s : string) : Prop :=
  ~ In "'"%char (list_ascii_of_string s).

(** A log line or a message to the queue: the event is no call of the
    search client and no request to the Graph API. *)
Definition away_from_index (e : Event) : Prop :=
  match e with
  | EvLog _ _ | EvQueueSend _ => True
  | _ => False
  end.

(** * Properties *)

(** ** Size tiers *)

Ltac size_lia := unfold GB, MB in *; lia.

Section Tiers.

Variable env : Env.
Variables drive_id item_id file_name tenant_id : string.

Local Open Scope Z_scope.

Lemma can_process_standard size :
  size <= 50 * MB ->
  LargeFileHandler.can_process_file_size size = (true, "standard").
Proof.
  intros H. unfold LargeFileHandler.can_process_file_size,
    LargeFileHandler.MAX_STANDARD_FILE_SIZE, MB in *.
  destruct (Z.leb_spec size (50 * 1024 * 1024)); [reflexivity | lia].
Qed.

Lemma can_process_streaming size :
  50 * MB < size <= 200 * MB ->
  LargeFileHandler.can_process_file_size size = (true, "streaming").
Proof.
  intros H. unfold LargeFileHandler.can_process_file_size,
    LargeFileHandler.MAX_STANDARD_FILE_SIZE, LargeFileHandler.MAX_LARGE_FILE_SIZE, MB in *.
  destruct (Z.leb_spec size (50 * 1024 * 1024)); [lia |].
  destruct (Z.leb_spec size (200 * 1024 * 1024)); [reflexivity | lia].
Qed.

Lemma use_queue_iff size :
  QueueProcessor.should_use_queue_processing size = true <-> 200 * MB < size.
Proof.
  unfold QueueProcessor.should_use_queue_processing, MB.
  rewrite Z.ltb_lt. lia.
Qed.

Lemma use_queue_false size :
  size <= 200 * MB -> QueueProcessor.should_use_queue_processing size = false.
Proof.
  intros H. apply not_true_is_false. rewrite use_queue_iff. lia.
Qed.

(** The tier functions on their own: exactly 50MB is labelled standard,
    above 50MB up to 200MB streaming; above 200MB up to 1GB the enqueue
    function puts the file on the queue, and above 1GB it refuses the file,
    logs that it exceeds the maximum size and leaves the queue as it was.
    [ingest_file_with_size_handling] would dispatch on the label. *)
Theorem tier_boundaries (size : Z) :
  (size = 50 * MB ->
     QueueProcessor.should_use_queue_processing size = false
     /\ LargeFileHandler.can_process_file_size size = (true, "standard")
     /\ LargeFileHandler.ingest_file_with_size_handling
          env drive_id item_id file_name size tenant_id
        = LargeFileHandler.ingest_single_file_standard
            drive_id item_id file_name tenant_id)
  /\ (50 * MB < size <= 200 * MB ->
     QueueProcessor.should_use_queue_processing size = false
     /\ LargeFileHandler.can_process_file_size size = (true, "streaming")
     /\ LargeFileHandler.ingest_file_with_size_handling
          env drive_id item_id file_name size tenant_id
        = LargeFileHandler.process_large_file
            env drive_id item_id file_name size tenant_id)
  /\ (200 * MB < size <= GB ->
     QueueProcessor.should_use_queue_processing size = true
     /\ forall w,
        let m := mkQueueMessage drive_id item_id file_name size tenant_id (utcnow env) in
        queue_send env m = Ok tt ->
        exists w',
          QueueProcessor.enqueue_large_file_processing
            env drive_id item_id file_name size tenant_id w = (Ok true, w')
          /\ w_queue w' = w_queue w ++ [m])
  /\ (GB < size ->
     QueueProcessor.should_use_queue_processing size = true
     /\ forall w,
        QueueProcessor.enqueue_large_file_processing
          env drive_id item_id file_name size tenant_id w
        = (Ok false,
           set_trace (fun t => t ++ [EvLog WARNING
                ("File " +:+ file_name +:+ " exceeds maximum size limit ("
                 +:+ pretty size +:+ " bytes)")]) w)).
Proof.
  split; [| split; [| split]].
  - intros ->. split; [| split].
    + apply use_queue_false. size_lia.
    + apply can_process_standard. size_lia.
    + unfold LargeFileHandler.ingest_file_with_size_handling.
      rewrite can_process_standard by size_lia. reflexivity.
  - intros Hsize. split; [| split].
    + apply use_queue_false. size_lia.
    + apply can_process_streaming. size_lia.
    + unfold LargeFileHandler.ingest_file_with_size_handling.
      rewrite can_process_streaming by size_lia. reflexivity.
  - intros Hsize. split.
    + apply use_queue_iff. size_lia.
    + intros w m Hsend.
      unfold QueueProcessor.enqueue_large_file_processing,
        QueueProcessor.MAX_QUEUE_FILE_SIZE.
      destruct (Z.ltb_spec (1024 * 1024 * 1024) size); [size_lia |].
      unfold try_except, mbind, M_bind, bind, emit, modify, lift, log, emit, modify, ret.
      fold m. rewrite Hsend. simpl. eexists. split; reflexivity.
  - intros Hsize. split.
    + apply use_queue_iff. size_lia.
    + intros w.
      unfold QueueProcessor.enqueue_large_file_processing,
        QueueProcessor.MAX_QUEUE_FILE_SIZE.
      destruct (Z.ltb_spec (1024 * 1024 * 1024) size); [| size_lia].
      reflexivity.
Qed.

End Tiers.

(** The four tiers at the sizes next to the boundaries. *)
Lemma tier_boundaries_witness :
  LargeFileHandler.can_process_file_size (50 * MB) = (true, "standard")
  /\ LargeFileHandler.can_process_file_size (50 * MB + 1) = (true, "streaming")
  /\ QueueProcessor.should_use_queue_processing (200 * MB) = false
  /\ QueueProcessor.should_use_queue_processing (200 * MB + 1) = true
  /\ QueueProcessor.should_use_queue_processing (GB + 1) = true.
Proof.
  pose (env := Sample.quiet).
  pose proof (tier_boundaries env "d" "i" "f" "t" (50 * MB)) as (Ha & _).
  pose proof (tier_boundaries env "d" "i" "f" "t" (50 * MB + 1)) as (_ & Hb & _).
  pose proof (tier_boundaries env "d" "i" "f" "t" (200 * MB)) as (_ & Hc & _).
  pose proof (tier_boundaries env "d" "i" "f" "t" (200 * MB + 1)) as (_ & _ & Hd & _).
  pose proof (tier_boundaries env "d" "i" "f" "t" (GB + 1)) as (_ & _ & _ & He).
  split; [| split; [| split; [| split]]].
  - apply Ha. reflexivity.
  - apply Hb. size_lia.
  - apply Hc. size_lia.
  - apply Hd. size_lia.
  - apply He. size_lia.
Defined.

(** ** The chunker *)

Section Chunker.

Import Py IngestLocal.


Lemma split_acc_words s : forall cur,
  Forall (fun c => isspace c = false) cur -> Forall word (split_acc cur s).
Proof.
  induction s as [| c s IH]; intros cur Hcur; simpl.
  - destruct cur as [| c0 cur']; [constructor |].
    constructor; [| constructor]. split.
    + intros Hnil. apply (f_equal length) in Hnil.
      rewrite length_rev in Hnil. discriminate.
    + apply Forall_rev. exact Hcur.
  - destruct (isspace c) eqn:Hc.
    + destruct cur as [| c0 cur'].
      * apply IH. constructor.
      * constructor; [| apply IH; constructor]. split.
        -- intros Hnil. apply (f_equal length) in Hnil.
           rewrite length_rev in Hnil. discriminate.
        -- apply Forall_rev. exact Hcur.
    + apply IH. constructor; assumption.
Qed.

Lemma split_words s : Forall word (split s).
Proof. apply split_acc_words. constructor. Qed.

Lemma split_acc_app w : forall cur rest,
  Forall (fun c => isspace c = false) w ->
  split_acc cur (w ++ rest) = split_acc (rev w ++ cur) rest.
Proof.
  induction w as [| c w IH]; intros cur rest Hw; [reflexivity |].
  inversion Hw as [| ? ? Hc Hw']; subst. simpl.
  rewrite Hc, IH by assumption. now rewrite <- app_assoc.
Qed.

Lemma split_join ws : Forall word ws -> split (join space ws) = ws.
Proof.
  unfold split. induction 1 as [| w ws [Hne Hw] Hws IH]; [reflexivity |].
  assert (Hrev : exists c r, rev w = c :: r).
  { destruct (rev w) as [| c r] eqn:E; [| eauto].
    apply (f_equal (@rev N)) in E. rewrite rev_involutive in E. contradiction. }
  destruct Hrev as (c & r & Hrev).
  destruct ws as [| w' ws'].
  - simpl. rewrite <- (app_nil_r w) at 1. rewrite split_acc_app by assumption.
    rewrite app_nil_r. simpl. rewrite Hrev, <- Hrev. now rewrite rev_involutive.
  - change (join space (w :: w' :: ws')) with (w ++ space ++ join space (w' :: ws')).
    rewrite split_acc_app by assumption. rewrite app_nil_r.
    unfold space at 1. simpl app. cbn [split_acc].
    change (isspace 32) with true. cbn iota.
    rewrite Hrev, <- Hrev, rev_involutive. f_equal. exact IH.
Qed.

Lemma lstrip_keeps c s : In c s -> isspace c = false -> In c (lstrip s).
Proof.
  induction s as [| a s IH]; intros Hin Hc; [destruct Hin |].
  simpl. destruct (isspace a) eqn:Ha; [| exact Hin].
  destruct Hin as [-> | Hin]; [congruence | auto].
Qed.

Lemma strip_truthy c s : In c s -> isspace c = false -> truthy (strip s) = true.
Proof.
  intros Hin Hc. unfold strip, rstrip.
  assert (H : In c (rev (lstrip (rev (lstrip s))))).
  { apply in_rev. rewrite rev_involutive. apply lstrip_keeps; [| assumption].
    apply -> in_rev. apply lstrip_keeps; assumption. }
  destruct (rev (lstrip (rev (lstrip s)))); [destruct H | reflexivity].
Qed.

Lemma join_truthy ws : ws <> [] -> Forall word ws -> truthy (strip (join space ws)) = true.
Proof.
  intros Hne Hws. destruct ws as [| w ws]; [contradiction |].
  inversion Hws as [| ? ? [Hw Hall] _]; subst.
  destruct w as [| c w]; [contradiction |].
  inversion Hall; subst.
  apply strip_truthy with (c := c); [| assumption].
  destruct ws; simpl; auto.
Qed.

Lemma join_app a b :
  a <> [] -> b <> [] -> join space (a ++ b) = join space a ++ space ++ join space b.
Proof.
  intros Ha Hb. induction a as [| w a IH]; [contradiction |].
  destruct a as [| w' a'].
  - simpl. destruct b; [contradiction | reflexivity].
  - change (join space ((w :: w' :: a') ++ b))
      with (w ++ space ++ join space ((w' :: a') ++ b)).
    rewrite IH by discriminate.
    change (join space (w :: w' :: a')) with (w ++ space ++ join space (w' :: a')).
    now rewrite <- !app_assoc.
Qed.


Lemma slice_window {A} (l : list A) i size : slice l i (i + size) = take size (drop i l).
Proof. unfold slice. f_equal. lia. Qed.

Lemma chunk_loop words size : 0 < size -> Forall word words ->
  forall fuel k, length words <= fuel + k * size ->
  let out := flat_map (emit_chunk words size)
                      (range_from fuel (k * size) (length words) size) in
  join space out.*1 = join space (drop (k * size) words)
  /\ out.*2 = seq k (length out)
  /\ Forall (fun c => length (split c.1) <= size) out
  /\ (out = [] <-> length words <= k * size).
Proof.
  intros Hsize Hwords. induction fuel as [| fuel IH]; intros k Hfuel out; subst out.
  - simpl in *. rewrite drop_ge by lia. repeat split; auto; lia.
  - cbn [range_from].
    destruct (Nat.ltb_spec (k * size) (length words)) as [Hlt | Hge].
    2:{ simpl. rewrite drop_ge by lia. repeat split; auto; lia. }
    cbn [flat_map].
    specialize (IH (S k)). replace (k * size + size) with (S k * size) by lia.
    destruct IH as (IHjoin & IHidx & IHlen & IHnil); [simpl; lia |].
    set (rest := flat_map (emit_chunk words size)
                          (range_from fuel (S k * size) (length words) size)) in *.
    set (l := drop (k * size) words).
    assert (Hl : l <> []).
    { intros E. apply (f_equal length) in E. subst l.
      rewrite length_drop in E. simpl in E. lia. }
    assert (Hgood : Forall word (take size l))
      by (apply Forall_take, Forall_drop, Hwords).
    assert (Htake : take size l <> []).
    { destruct l; [contradiction |]. destruct size; [lia | discriminate]. }
    assert (Hemit : emit_chunk words size (k * size) = [(join space (take size l), k)]).
    { unfold emit_chunk. rewrite slice_window. fold l.
      rewrite join_truthy by assumption. now rewrite Nat.div_mul by lia. }
    rewrite Hemit. cbn [app fmap list_fmap fst snd length seq].
    assert (Hrest : drop (S k * size) words = drop size l).
    { subst l. rewrite drop_drop. f_equal. lia. }
    rewrite Hrest in IHjoin.
    split; [| split; [| split]].
    + destruct rest as [| r rest'] eqn:Erest.
      * simpl. assert (Hshort : length words <= S k * size) by (now apply IHnil).
        rewrite take_ge; [reflexivity |]. subst l. rewrite length_drop. lia.
      * assert (Hmore : drop size l <> []).
        { intros E. apply (f_equal length) in E. subst l.
          rewrite !length_drop in E. simpl in E.
          assert (length words <= S k * size) as Hle by lia.
          apply IHnil in Hle. discriminate. }
        rewrite <- (take_drop size l) at 2.
        rewrite join_app by assumption. rewrite <- IHjoin. reflexivity.
    + f_equal. exact IHidx.
    + constructor; [| exact IHlen]. simpl.
      rewrite split_join by assumption. rewrite length_take. lia.
    + split; [discriminate | lia].
Qed.

(** C6.  With the default size of 300 words, the chunks joined by single
    spaces give the white-space normalised input, every chunk has at most
    300 words, and the chunk indices are 0, 1, 2, ... without a gap. *)
Theorem chunk_text_roundtrip (input : text) :
  exists chunks,
    chunk_text input DEFAULT_SIZE = Some chunks
    /\ join space chunks.*1 = join space (split input)
    /\ Forall (fun c => length (split c.1) <= 300) chunks
    /\ chunks.*2 = seq 0 (length chunks).
Proof.
  unfold chunk_text, DEFAULT_SIZE, range. cbn [Nat.eqb mbind option_bind].
  eexists. split; [reflexivity |].
  pose proof (chunk_loop (split input) 300 ltac:(lia) (split_words input)
                         (length (split input)) 0 ltac:(lia)) as H.
  cbn zeta in H. change (0 * 300) with 0 in H. rewrite drop_0 in H.
  destruct H as (Hjoin & Hidx & Hlen & _). auto.
Qed.

End Chunker.

(** ** Strings *)

Section Strings.

Lemma app_cons c (a b : string) : String c a +:+ b = String c (a +:+ b).
Proof. reflexivity. Qed.

Lemma app_length (a b : string) :
  String.length (a +:+ b) = String.length a + String.length b.
Proof. induction a as [| c a IH]; [reflexivity |]. rewrite app_cons. simpl. now rewrite IH. Qed.

Lemma app_assoc_s (a b c : string) : (a +:+ b) +:+ c = a +:+ (b +:+ c).
Proof. induction a as [| x a IH]; [reflexivity |]. rewrite !app_cons. now rewrite IH. Qed.

Lemma substring_all (s : string) : substring 0 (String.length s) s = s.
Proof. induction s as [| c s IH]; [reflexivity |]. simpl. now rewrite IH. Qed.

Lemma substring_cut (s : string) : forall a b c,
  substring a (b + c) s = substring a b s +:+ substring (a + b) c s.
Proof.
  induction s as [| x s IH]; intros a b c.
  - destruct a, b, c; reflexivity.
  - destruct a as [| a].
    + destruct b as [| b]; [reflexivity |].
      simpl substring. rewrite app_cons. f_equal. apply (IH 0).
    + simpl. apply IH.
Qed.

Lemma substring_zero (s : string) : forall n, substring n 0 s = "".
Proof. induction s as [| c s IH]; intros [| n]; try reflexivity. simpl. apply IH. Qed.

Lemma substring_skip (a b : string) n :
  substring (String.length a) n (a +:+ b) = substring 0 n b.
Proof. induction a as [| c a IH]; [reflexivity |]. rewrite app_cons. simpl. exact IH. Qed.

Lemma substring_head (a b : string) : substring 0 (String.length a) (a +:+ b) = a.
Proof. induction a as [| c a IH]; [destruct b; reflexivity |]. rewrite app_cons. simpl. now rewrite IH. Qed.

Lemma startswith_app (p r : string) : PyStr.startswith (p +:+ r) p = true.
Proof. unfold PyStr.startswith. apply prefix_correct, substring_head. Qed.

Lemma endswith_app (l p : string) : PyStr.endswith (l +:+ p) p = true.
Proof.
  unfold PyStr.endswith. rewrite app_length.
  apply andb_true_iff. split; [apply Nat.leb_le; lia |].
  apply String.eqb_eq.
  replace (String.length l + String.length p - String.length p) with (String.length l) by lia.
  rewrite substring_skip. apply substring_all.
Qed.

(** A string that starts with [p], ends with [q] and is long enough for
    both is [p], a middle part and [q]. *)
Lemma split_three (s p q : string) :
  PyStr.startswith s p = true -> PyStr.endswith s q = true ->
  String.length p + String.length q <= String.length s ->
  s = p +:+ substring (String.length p)
                      (String.length s - String.length p - String.length q) s +:+ q.
Proof.
  unfold PyStr.startswith, PyStr.endswith. intros Hp Hq Hlen.
  apply prefix_correct in Hp. apply andb_true_iff in Hq as [_ Hq].
  apply String.eqb_eq in Hq.
  set (n := String.length s) in *. set (a := String.length p) in *.
  set (b := String.length q) in *.
  rewrite <- (substring_all s) at 1. fold n.
  replace n with (a + ((n - a - b) + b)) at 1 by lia.
  rewrite substring_cut, (substring_cut s (0 + a)).
  rewrite Hp. simpl plus. replace (a + (n - a - b)) with (n - b) by lia.
  now rewrite Hq.
Qed.

Lemma slice_middle (p t q : string) :
  String.length p = 10 -> String.length q = 8 ->
  PyStr.slice (p +:+ t +:+ q) 10 (-8) = t.
Proof.
  intros Hp Hq. unfold PyStr.slice, PyStr.norm_index. rewrite !app_length, Hp, Hq.
  change (10 <? 0)%Z with false. change (-8 <? 0)%Z with true. cbn iota.
  replace (Nat.min (10 + (String.length t + 8)) (Z.to_nat 10)) with 10 by lia.
  replace (Nat.min (10 + (String.length t + 8))
             (Z.to_nat (Z.max 0 (Z.of_nat (10 + (String.length t + 8)) + -8))))
    with (10 + String.length t) by lia.
  replace (10 + String.length t - 10) with (String.length t) by lia.
  rewrite <- Hp, substring_skip. apply substring_head.
Qed.

End Strings.

(** ** Client state *)


Section ClientState.

Variable env : Env.

Lemma tenant_token_shape t :
  PyStr.startswith (tenant_token t) "docusense-" = true
  /\ PyStr.endswith (tenant_token t) "-webhook" = true.
Proof.
  unfold tenant_token. split; [apply startswith_app |].
  rewrite <- app_assoc_s. apply endswith_app.
Qed.

Lemma tenant_token_slice t : PyStr.slice (tenant_token t) 10 (-8) = t.
Proof. apply slice_middle; reflexivity. Qed.

Lemma truthy_iff (s : string) : PyStr.truthy s = true <-> s <> "".
Proof. destruct s; simpl; split; congruence. Qed.

Lemma slice_token (s : string) :
  PyStr.startswith s "docusense-" = true -> PyStr.endswith s "-webhook" = true ->
  PyStr.slice s 10 (-8) <> "" -> s = tenant_token (PyStr.slice s 10 (-8)).
Proof.
  intros Hp Hq Ht.
  assert (Hlen : 18 < String.length s).
  { destruct (Nat.ltb_spec 18 (String.length s)) as [| Hle]; [assumption |].
    exfalso. apply Ht. unfold PyStr.slice, PyStr.norm_index.
    change (10 <? 0)%Z with false. change (-8 <? 0)%Z with true. cbn iota.
    match goal with |- substring _ ?n _ = _ => replace n with 0 by lia end.
    apply substring_zero. }
  pose proof (split_three s _ _ Hp Hq) as Hs. simpl String.length in Hs.
  rewrite Hs at 1 by lia. unfold tenant_token. do 2 f_equal.
  unfold PyStr.slice, PyStr.norm_index.
  change (10 <? 0)%Z with false. change (-8 <? 0)%Z with true. cbn iota.
  f_equal; lia.
Qed.

(** C10, as the code has it.  For every input and every configured
    secret: the check gives a tenant id exactly when the input is not empty
    and either is the secret, and then the id is "default", or is not the
    secret and is docusense-T-webhook with T not empty, and then the id is
    T.  So "default" is given for the secret and also for
    docusense-default-webhook; no empty tenant id is ever returned; and
    docusense--webhook and docusense-webhook are rejected unless one of
    them is the configured secret. *)
Theorem validate_client_state_exact (input : string) :
  (forall tenant_id,
     Enhanced.validate_client_state env (Some input) = Some tenant_id
     <-> input <> ""
         /\ ((input = WEBHOOK_CLIENT_STATE env /\ tenant_id = "default")
             \/ (input <> WEBHOOK_CLIENT_STATE env
                 /\ tenant_id <> "" /\ input = tenant_token tenant_id)))
  /\ (Enhanced.validate_client_state env (Some input) = Some "default"
      <-> input <> ""
          /\ (input = WEBHOOK_CLIENT_STATE env \/ input = "docusense-default-webhook"))
  /\ Enhanced.validate_client_state env (Some input) <> Some ""
  /\ Enhanced.validate_client_state env None = None
  /\ (WEBHOOK_CLIENT_STATE env <> "docusense--webhook" ->
      Enhanced.validate_client_state env (Some "docusense--webhook") = None)
  /\ (WEBHOOK_CLIENT_STATE env <> "docusense-webhook" ->
      Enhanced.validate_client_state env (Some "docusense-webhook") = None).
Proof.
  assert (Hexact : forall input tenant_id,
     Enhanced.validate_client_state env (Some input) = Some tenant_id
     <-> input <> ""
         /\ ((input = WEBHOOK_CLIENT_STATE env /\ tenant_id = "default")
             \/ (input <> WEBHOOK_CLIENT_STATE env
                 /\ tenant_id <> "" /\ input = tenant_token tenant_id))).
  { clear input. intros input x. unfold Enhanced.validate_client_state.
    destruct (PyStr.truthy input) eqn:Hin; cbn [negb].
    2:{ destruct input; [| discriminate]. split; [discriminate |]. intros [E _]. congruence. }
    apply truthy_iff in Hin.
    destruct (String.eqb_spec input (WEBHOOK_CLIENT_STATE env)) as [Heq | Hne].
    { split.
      - intros [= <-]. split; [assumption |]. left. auto.
      - intros [_ [[_ ->] | [E _]]]; [reflexivity | contradiction]. }
    destruct (PyStr.startswith input "docusense-" && PyStr.endswith input "-webhook")
      eqn:Hboth.
    2:{ split; [discriminate |]. intros [_ [[E _] | [_ [_ E]]]]; [contradiction |].
        subst input. destruct (tenant_token_shape x) as [H1 H2].
        rewrite H1, H2 in Hboth. discriminate. }
    apply andb_true_iff in Hboth as [Hp Hq].
    destruct (PyStr.truthy (PyStr.slice input 10 (-8))) eqn:Ht.
    - apply truthy_iff in Ht. split.
      + intros [= <-]. split; [assumption |]. right.
        split; [assumption |]. split; [assumption |]. now apply slice_token.
      + intros [_ [[E _] | [_ [_ E]]]]; [contradiction |].
        subst input. now rewrite tenant_token_slice.
    - split; [discriminate |]. intros [_ [[E _] | [_ [Hx E]]]]; [contradiction |].
      subst input. rewrite tenant_token_slice in Ht.
      apply truthy_iff in Hx. congruence. }
  split; [apply Hexact |]. split; [| split; [| split; [reflexivity | split]]].
  - rewrite Hexact. change (tenant_token "default") with "docusense-default-webhook".
    split.
    + intros [Hin [[E _] | [_ [_ E]]]]; auto.
    + intros [Hin [E | E]]; (split; [assumption |]).
      * left. auto.
      * destruct (decide (input = WEBHOOK_CLIENT_STATE env)) as [Hs | Hs];
          [left; auto | right; repeat split; [assumption | discriminate | assumption]].
  - intros E. apply Hexact in E as [_ [[_ E] | [_ [E _]]]]; [discriminate | congruence].
  - intros Hsecret.
    destruct (Enhanced.validate_client_state env (Some "docusense--webhook")) as [x |] eqn:E;
      [| reflexivity].
    exfalso. apply Hexact in E as [_ [[E _] | [_ [Hx E]]]]; [congruence |].
    apply Hx. apply (f_equal (fun s => PyStr.slice s 10 (-8))) in E.
    rewrite tenant_token_slice in E. rewrite <- E. reflexivity.
  - intros Hsecret.
    destruct (Enhanced.validate_client_state env (Some "docusense-webhook")) as [x |] eqn:E;
      [| reflexivity].
    exfalso. apply Hexact in E as [_ [[E _] | [_ [Hx E]]]]; [congruence |].
    apply Hx. apply (f_equal (fun s => PyStr.slice s 10 (-8))) in E.
    rewrite tenant_token_slice in E. rewrite <- E. reflexivity.
Qed.

End ClientState.

(** ** Running the monad *)

Lemma set_trace_nil w : set_trace (fun t => t ++ []) w = w.
Proof. destruct w. unfold set_trace. simpl. now rewrite app_nil_r. Qed.

Lemma set_trace_app a b w :
  set_trace (fun t => t ++ b) (set_trace (fun t => t ++ a) w)
  = set_trace (fun t => t ++ (a ++ b)) w.
Proof. unfold set_trace. simpl. now rewrite app_assoc. Qed.

Lemma seq_run {A B} (m : M A) (k : A -> M B) w :
  (m ≫= k) w = match m w with
               | (Ok a, w') => k a w'
               | (Raise e, w') => (Raise e, w')
               end.
Proof. reflexivity. Qed.

Lemma log_run lvl msg w :
  log lvl msg w = (Ok tt, set_trace (fun t => t ++ [EvLog lvl msg]) w).
Proof. reflexivity. Qed.

Ltac mcompute :=
  cbv beta iota zeta delta
    [mbind M_bind bind try_except try_finally create_file unlink path_exists log emit
     modify gets ret raise lift negb
     set_files set_trace set_index set_cache set_queue];
  cbn [fst snd w_files w_trace w_index w_cache w_queue].

Ltac mrun :=
  repeat first [ rewrite seq_run | rewrite log_run | progress cbn beta iota zeta ].

(** ** The embedder and the chunk loop *)


Section EmbedLoop.

Variable env : Env.

Lemma embed_text_total snippet w :
  Embedding.embed_text env snippet w
  = (Ok (embedding_for env snippet),
     set_trace (fun t => t ++ embedding_events env snippet) w).
Proof.
  unfold Embedding.embed_text, embedding_for, embedding_events, try_except, lift.
  destruct (embeddings_create env snippet) as [v | e].
  - now rewrite set_trace_nil.
  - mrun. unfold ret. now rewrite set_trace_app.
Qed.

(** C5, as the code has it.  A chunk whose embedding call fails is not
    dropped: the failure is printed, the embedder falls back to the mock
    vector, and the loop makes a document for every chunk, in order; the
    except clause of the loop is never taken. *)
Theorem embed_failure_falls_back mk on_error chunks w :
  embed_chunks env mk on_error chunks w
  = (Ok ((fun c => mk c.1 c.2 (embedding_for env c.1)) <$> chunks),
     set_trace (fun t => t ++ flat_map (fun c => embedding_events env c.1) chunks) w).
Proof.
  revert w. induction chunks as [| [snippet chunk_idx] rest IH]; intros w.
  - simpl. unfold ret. now rewrite set_trace_nil.
  - cbn [embed_chunks]. unfold bind at 1. unfold try_except, bind at 1.
    rewrite embed_text_total. cbn [ret].
    unfold bind at 1. rewrite IH. cbn [ret fmap list_fmap flat_map app fst snd].
    now rewrite set_trace_app.
Qed.

End EmbedLoop.

(** ** Relations kept by a run *)

Section Keeps.

Variable R : World -> World -> Prop.
Hypothesis R_refl : forall w, R w w.
Hypothesis R_trans : forall a b c, R a b -> R b c -> R a c.

Lemma keeps_ret {A} (a : A) : keeps R (ret a).
Proof. intros w. apply R_refl. Qed.

Lemma keeps_raise {A} e : keeps R (@raise A e).
Proof. intros w. apply R_refl. Qed.

Lemma keeps_lift {A} (r : Result A) : keeps R (lift r).
Proof. intros w. apply R_refl. Qed.

Lemma keeps_gets {A} (f : World -> A) : keeps R (gets f).
Proof. intros w. apply R_refl. Qed.

Lemma keeps_of_option {A} (o : option A) e : keeps R (of_option o e).
Proof. destruct o; [apply keeps_ret | apply keeps_raise]. Qed.

Lemma keeps_modify f : (forall w, R w (f w)) -> keeps R (modify f).
Proof. intros H w. apply H. Qed.

Lemma keeps_bind {A B} (m : M A) (k : A -> M B) :
  keeps R m -> (forall a, keeps R (k a)) -> keeps R (bind m k).
Proof.
  intros Hm Hk w. unfold bind. specialize (Hm w).
  destruct (m w) as [[a | e] w1]; simpl in *; [| assumption].
  eapply R_trans; [eassumption | apply Hk].
Qed.

Lemma keeps_try_except {A} (m : M A) (h : string -> M A) :
  keeps R m -> (forall e, keeps R (h e)) -> keeps R (try_except m h).
Proof.
  intros Hm Hh w. unfold try_except. specialize (Hm w).
  destruct (m w) as [[a | e] w1]; simpl in *; [assumption |].
  eapply R_trans; [eassumption | apply Hh].
Qed.

Lemma keeps_try_finally {A} (m : M A) (fin : M unit) :
  keeps R m -> keeps R fin -> keeps R (try_finally m fin).
Proof.
  intros Hm Hf w. unfold try_finally. specialize (Hm w).
  destruct (m w) as [r w1]. specialize (Hf w1).
  destruct (fin w1) as [[[] | e] w2]; simpl in *; eapply R_trans; eassumption.
Qed.

Lemma keeps_for_each {A} (l : list A) (f : A -> M unit) :
  (forall x, keeps R (f x)) -> keeps R (for_each l f).
Proof.
  intros Hf. induction l as [| x l IH]; [apply keeps_ret |].
  apply keeps_bind; auto.
Qed.

Lemma keeps_track {A} name (m : M A) :
  (forall lvl msg, keeps R (log lvl msg)) -> keeps R m ->
  keeps R (Telemetry.track_performance name m).
Proof.
  intros Hlog Hm w. unfold Telemetry.track_performance. specialize (Hm w).
  destruct (m w) as [[a | e] w1]; cbn [snd] in Hm.
  - specialize (Hlog INFO ("operation_completed: " +:+ name) w1).
    unfold log, emit, modify in *. cbn [snd] in *. eapply R_trans; eassumption.
  - specialize (Hlog ERROR ("operation_failed: " +:+ name) w1).
    unfold log, emit, modify in *. cbn [snd] in *. eapply R_trans; eassumption.
Qed.

End Keeps.

Lemma total_try_except {A} (m : M A) (h : string -> M A) :
  (forall e, total (h e)) -> total (try_except m h).
Proof.
  intros Hh w. unfold try_except.
  destruct (m w) as [[a | e] w1]; simpl; [eauto | apply Hh].
Qed.

Lemma total_log lvl msg : total (log lvl msg).
Proof. intros w. eexists. reflexivity. Qed.

Ltac head t := lazymatch t with ?f _ => head f | _ => t end.

(** Walks through the body of a handler; [prim] settles the operations on
    the world, [known] the loops already dealt with. *)
Ltac keeps_with refl trans prim known :=
  repeat (intros;
    lazymatch goal with
    | |- keeps _ (ret _) => apply keeps_ret, refl
    | |- keeps _ (raise _) => apply keeps_raise, refl
    | |- keeps _ (lift _) => apply keeps_lift, refl
    | |- keeps _ (gets _) => apply keeps_gets, refl
    | |- keeps _ (of_option _ _) => apply keeps_of_option, refl
    | |- keeps _ (bind _ _) => apply (keeps_bind _ trans)
    | |- keeps _ (mbind _ _) => apply (keeps_bind _ trans)
    | |- keeps _ (try_except _ _) => apply (keeps_try_except _ trans)
    | |- keeps _ (try_finally _ _) => apply (keeps_try_finally _ trans)
    | |- keeps _ (for_each _ _) => apply (keeps_for_each _ refl trans)
    | |- keeps _ (Telemetry.track_performance _ _) => apply (keeps_track _ trans)
    | |- keeps _ (emit _) => solve [prim]
    | |- keeps _ (modify _) => solve [prim]
    | |- keeps _ (match ?x with _ => _ end) => destruct x
    | |- keeps _ ?m =>
        first [ solve [known]
              | let h := head m in progress unfold h ]
    end).

(** ** The idempotency tracker *)

Section Tracker.

Variable env : Env.

Lemma same_cache_refl w : same_cache w w.
Proof. reflexivity. Qed.

Lemma same_cache_trans a b c : same_cache a b -> same_cache b c -> same_cache a c.
Proof. unfold same_cache. congruence. Qed.

Ltac cache_prim :=
  first [ apply keeps_modify; intros; reflexivity
        | unfold emit; apply keeps_modify; intros; reflexivity ].

Lemma embed_chunks_same_cache mk on_error chunks :
  (forall i e, keeps same_cache (on_error i e)) ->
  keeps same_cache (embed_chunks env mk on_error chunks).
Proof.
  intros Herr. induction chunks as [| [snippet chunk_idx] rest IH].
  - apply keeps_ret, same_cache_refl.
  - cbn [embed_chunks].
    keeps_with same_cache_refl same_cache_trans cache_prim ltac:(first [apply Herr | apply IH]).
Qed.

Lemma ingest_single_file_same_cache drive_id item_id :
  keeps same_cache (WebhookHandler.ingest_single_file env drive_id item_id).
Proof.
  unfold WebhookHandler.ingest_single_file.
  keeps_with same_cache_refl same_cache_trans cache_prim
    ltac:(apply embed_chunks_same_cache; intros;
          keeps_with same_cache_refl same_cache_trans cache_prim fail).
Qed.

Lemma ingest_single_file_total drive_id item_id :
  total (WebhookHandler.ingest_single_file env drive_id item_id).
Proof.
  unfold WebhookHandler.ingest_single_file. apply total_try_except.
  intros e. apply total_log.
Qed.

(** X15.  What [process_change] does to the tracker for an upsert record that is
    not recorded yet: whatever happens to the file, the record's
    last-modified is stored. *)
Lemma upsert_always_marked drive_id item w :
  it_deleted item = false -> is_Some (it_file item) ->
  default None (w_cache w !! WebhookHandler.cache_key drive_id (it_id item))
    <> it_last_modified item ->
  exists w',
    WebhookHandler.process_change env drive_id item w = (Ok tt, w')
    /\ w_cache w'
       = <[WebhookHandler.cache_key drive_id (it_id item) := it_last_modified item]>
           (w_cache w).
Proof.
  intros Hdel Hfile Hnew. unfold WebhookHandler.process_change.
  rewrite Hdel, bool_decide_true by assumption.
  unfold bind at 1. unfold WebhookHandler.is_already_processed, bind at 1, gets, ret.
  rewrite bool_decide_false by assumption. cbn [negb].
  rewrite seq_run.
  destruct (ingest_single_file_total drive_id (it_id item) w) as [[] Hok].
  pose proof (ingest_single_file_same_cache drive_id (it_id item) w) as Hcache.
  destruct (WebhookHandler.ingest_single_file env drive_id (it_id item) w) as [r w1].
  simpl in Hok, Hcache. subst r.
  eexists. split; [reflexivity |]. simpl. now rewrite Hcache.
Qed.

End Tracker.

Section TrackerExact.

Variable env : Env.

(** The FastAPI handler: a record whose last-modified is the one stored
    for its key is skipped and leaves the world, index and trace included,
    as it was; with any other stored value, older or newer, the file is
    handed to [ingest_single_file] and marked.  The check of both handlers
    compares by equality only. *)
Theorem idempotency_by_equality drive_id item stored w :
  it_deleted item = false -> is_Some (it_file item) ->
  w_cache w !! WebhookHandler.cache_key drive_id (it_id item) = Some stored ->
  (stored = it_last_modified item ->
     WebhookHandler.process_change env drive_id item w = (Ok tt, w))
  /\ (stored <> it_last_modified item ->
     WebhookHandler.process_change env drive_id item w
     = (WebhookHandler.ingest_single_file env drive_id (it_id item) ;;
        WebhookHandler.mark_as_processed drive_id (it_id item) (it_last_modified item)) w)
  /\ (forall candidate,
     WebhookHandler.is_already_processed drive_id (it_id item) candidate w
     = (Ok (bool_decide (stored = candidate)), w))
  /\ (forall tenant_id item_id candidate,
     w_cache w !! Enhanced.cache_key tenant_id drive_id item_id = Some stored ->
     Enhanced.is_already_processed drive_id item_id candidate tenant_id w
     = (Ok (bool_decide (stored = candidate)), w)).
Proof.
  intros Hdel Hfile Hstored.
  assert (Hcheck : forall candidate,
     WebhookHandler.is_already_processed drive_id (it_id item) candidate w
     = (Ok (bool_decide (stored = candidate)), w)).
  { intros candidate. unfold WebhookHandler.is_already_processed, bind, gets, ret.
    now rewrite Hstored. }
  split; [| split; [| split]].
  - intros Heq. unfold WebhookHandler.process_change.
    rewrite Hdel, bool_decide_true by assumption.
    unfold bind at 1. rewrite Hcheck, bool_decide_true by assumption. reflexivity.
  - intros Hne. unfold WebhookHandler.process_change.
    rewrite Hdel, bool_decide_true by assumption.
    unfold bind at 1. rewrite Hcheck, bool_decide_false by assumption. reflexivity.
  - exact Hcheck.
  - intros tenant_id item_id candidate Hen.
    unfold Enhanced.is_already_processed, bind, gets, ret. now rewrite Hen.
Qed.

(** Marking a version is what makes the tracker hold it. *)
Lemma mark_then_lookup drive_id item_id last_modified w :
  w_cache (WebhookHandler.mark_as_processed drive_id item_id last_modified w).2
    !! WebhookHandler.cache_key drive_id item_id = Some last_modified.
Proof. simpl. apply lookup_insert_eq. Qed.

End TrackerExact.

(** ** What a run adds to the trace *)

Section Extends.

Variable P : Event -> Prop.

Lemma extends_refl w : extends P w w.
Proof. exists []. split; [now rewrite app_nil_r | constructor]. Qed.

Lemma extends_trans a b c : extends P a b -> extends P b c -> extends P a c.
Proof.
  intros (e1 & H1 & F1) (e2 & H2 & F2). exists (e1 ++ e2). split.
  - now rewrite H2, H1, app_assoc.
  - now apply Forall_app.
Qed.

Lemma extends_emit e : P e -> keeps (extends P) (emit e).
Proof. intros He w. exists [e]. split; [reflexivity | now repeat constructor]. Qed.

Lemma extends_quiet f : (forall w, w_trace (f w) = w_trace w) -> keeps (extends P) (modify f).
Proof. intros Hf w. exists []. split; [simpl; now rewrite Hf, app_nil_r | constructor]. Qed.

Lemma extends_embed_chunks env mk on_error chunks :
  (forall lvl msg, P (EvLog lvl msg)) ->
  (forall i e, keeps (extends P) (on_error i e)) ->
  keeps (extends P) (embed_chunks env mk on_error chunks).
Proof.
  intros Hlog Herr. induction chunks as [| [snippet chunk_idx] rest IH].
  - apply keeps_ret, extends_refl.
  - cbn [embed_chunks].
    keeps_with extends_refl extends_trans
      ltac:(apply extends_emit, Hlog)
      ltac:(first [apply Herr | apply IH]).
Qed.

End Extends.

Ltac extends_prim :=
  first [ apply extends_emit; simpl; tauto
        | apply extends_quiet; intros; reflexivity ].

Lemma delta_requests_none evs :
  Forall (fun e => ~ is_delta_get e) evs -> delta_requests evs = [].
Proof.
  induction 1 as [| e evs He _ IH]; [reflexivity |].
  unfold delta_requests in *. destruct e; simpl in *; try assumption. tauto.
Qed.

Section SinglePage.

Variable env : Env.

Local Abbreviation quiet_run := (keeps (extends (fun e => ~ is_delta_get e))).

Lemma enhanced_item_no_request item drive_id tenant_id :
  quiet_run (Enhanced.process_single_item_change env item drive_id tenant_id).
Proof.
  unfold Enhanced.process_single_item_change.
  keeps_with (extends_refl (fun e => ~ is_delta_get e))
             (extends_trans (fun e => ~ is_delta_get e)) extends_prim fail.
Qed.

Lemma handler_item_no_request drive_id item :
  quiet_run (WebhookHandler.process_change env drive_id item).
Proof.
  unfold WebhookHandler.process_change.
  keeps_with (extends_refl (fun e => ~ is_delta_get e))
             (extends_trans (fun e => ~ is_delta_get e)) extends_prim
    ltac:(apply extends_embed_chunks; [simpl; tauto |]; intros;
          keeps_with (extends_refl (fun e => ~ is_delta_get e))
                     (extends_trans (fun e => ~ is_delta_get e)) extends_prim fail).
Qed.

(** After the one request: the rest of a cycle sends no other. *)
Lemma one_request_then_none {A} (rest : M A) (h : string -> M A) url w :
  quiet_run rest -> (forall e, quiet_run (h e)) ->
  exists evs,
    w_trace (try_except (lift (graph_headers env) ;; emit (EvDeltaGet url) ;; rest) h w).2
    = w_trace w ++ evs
    /\ (delta_requests evs = [] \/ delta_requests evs = [url]).
Proof.
  intros Hrest Hh. unfold try_except. rewrite seq_run. unfold lift.
  destruct (graph_headers env) as [[] | e].
  - rewrite seq_run. unfold emit at 1, modify at 1.
    set (w1 := set_trace (fun t => t ++ [EvDeltaGet url]) w).
    assert (Hw1 : exists evs, w_trace (match rest w1 with
                                       | (Ok a, w') => (Ok a, w')
                                       | (Raise e, w') => h e w'
                                       end).2 = w_trace w1 ++ evs
                              /\ Forall (fun e => ~ is_delta_get e) evs).
    { pose proof (Hrest w1) as H1. destruct (rest w1) as [[a | e] w2]; [exact H1 |].
      apply (extends_trans _ _ _ _ H1 (Hh e w2)). }
    destruct Hw1 as (evs & Htrace & Hnone).
    exists (EvDeltaGet url :: evs). split.
    + rewrite Htrace. subst w1. simpl. now rewrite <- app_assoc.
    + right. unfold delta_requests. simpl. f_equal. now apply delta_requests_none.
  - destruct (Hh e w) as (evs & Htrace & Hnone).
    exists evs. split; [exact Htrace |]. left. now apply delta_requests_none.
Qed.

(** C4, as the code has it.  In both handlers a delta cycle sends at most
    one request to the delta API, the one for the first page of the drive;
    a next-page link is never followed (the tenant-aware handler only logs
    that there are more pages). *)
Theorem delta_cycle_reads_one_page drive_id tenant_id w :
  (exists evs,
     w_trace (Enhanced.process_drive_delta env drive_id tenant_id w).2 = w_trace w ++ evs
     /\ (delta_requests evs = [] \/ delta_requests evs = [Enhanced.delta_url drive_id]))
  /\ (exists evs,
     w_trace (WebhookHandler.process_drive_delta env drive_id w).2 = w_trace w ++ evs
     /\ (delta_requests evs = []
         \/ delta_requests evs = [WebhookHandler.delta_url drive_id])).
Proof.
  split.
  - unfold Enhanced.process_drive_delta. apply one_request_then_none.
    + keeps_with (extends_refl (fun e => ~ is_delta_get e))
                 (extends_trans (fun e => ~ is_delta_get e)) extends_prim
        ltac:(apply enhanced_item_no_request).
    + intros e. keeps_with (extends_refl (fun e => ~ is_delta_get e))
                 (extends_trans (fun e => ~ is_delta_get e)) extends_prim fail.
  - unfold WebhookHandler.process_drive_delta. apply one_request_then_none.
    + keeps_with (extends_refl (fun e => ~ is_delta_get e))
                 (extends_trans (fun e => ~ is_delta_get e)) extends_prim
        ltac:(apply handler_item_no_request).
    + intros e. keeps_with (extends_refl (fun e => ~ is_delta_get e))
                 (extends_trans (fun e => ~ is_delta_get e)) extends_prim fail.
Qed.

End SinglePage.

(** ** The notification endpoint *)

Section Endpoint.

Variable env : Env.

(** C9 on webhook_handler.py.  The FastAPI handler answers the handshake
    with status 200 and does no processing, but the body is the JSON object
    with the member validationToken, not the token as plain text. *)
Theorem handshake_answered_as_json token body w :
  token <> "" ->
  WebhookHandler.endpoint env (mkRequest (Some token) body) w
  = (Ok (mkHttp 200 (JsonObject [("validationToken", JStr token)])),
     set_trace (fun t => t ++ [EvLog PRINT ("Webhook validation requested: " +:+ token)]) w).
Proof.
  intros Htoken. apply truthy_iff in Htoken.
  unfold WebhookHandler.endpoint, WebhookHandler.handle_graph_webhook.
  cbn [req_validation_token]. change (default "" (Some token)) with token.
  rewrite Htoken. reflexivity.
Qed.

(** X26.  The Azure Function answers the same request with the token itself as
    plain text, and only logs. *)
Lemma handshake_echoed_as_text token body w :
  token <> "" ->
  Enhanced.main env (mkRequest (Some token) body) w
  = (Ok (mkHttp 200 (PlainText token)),
     set_trace (fun t => t ++ [EvLog INFO "Graph webhook notification received";
                               EvLog INFO ("Webhook validation requested: " +:+ token);
                               EvLog INFO "operation_completed: webhook_processing"]) w).
Proof.
  intros Htoken. apply truthy_iff in Htoken.
  unfold Enhanced.main, Telemetry.track_performance.
  cbn [req_validation_token]. change (default "" (Some token)) with token.
  rewrite Htoken.
  unfold try_except. mrun. unfold ret. cbn beta iota. rewrite log_run.
  now rewrite !set_trace_app.
Qed.

Lemma no_index_write_refl w : no_index_write w w.
Proof. split; [reflexivity | apply extends_refl]. Qed.

Lemma no_index_write_trans a b c :
  no_index_write a b -> no_index_write b c -> no_index_write a c.
Proof.
  intros [I1 E1] [I2 E2]. split; [congruence | eapply extends_trans; eassumption].
Qed.

Lemma no_index_write_log lvl msg : keeps no_index_write (log lvl msg).
Proof.
  intros w. split; [reflexivity |]. apply (extends_emit _ (EvLog lvl msg)). simpl. tauto.
Qed.

(** The loop of [validate_webhook] only prints, and fails as soon as one
    client state is not the secret. *)
Lemma validate_notifications_rejects notifications w :
  Exists (fun n => n_client_state n <> Some (WEBHOOK_CLIENT_STATE env)) notifications ->
  exists w',
    WebhookHandler.validate_notifications env notifications w = (Ok false, w')
    /\ no_index_write w w'.
Proof.
  induction notifications as [| n rest IH]; intros Hbad; [inversion Hbad |].
  cbn [WebhookHandler.validate_notifications].
  destruct (decide (n_client_state n = Some (WEBHOOK_CLIENT_STATE env))) as [Hok | Hno].
  - rewrite bool_decide_true by assumption. cbn [negb]. apply IH.
    inversion Hbad; subst; [contradiction | assumption].
  - rewrite bool_decide_false by assumption. cbn [negb].
    rewrite seq_run, log_run. eexists. split; [reflexivity |].
    apply (no_index_write_log PRINT _ w).
Qed.

(** X27.  The FastAPI handler does reject the batch as a whole: with one invalid
    client state it answers 401 before any background task is added, so no
    notification is processed and nothing is written to the index. *)
Lemma handler_rejects_whole_batch token notifications w :
  PyStr.truthy (default "" token) = false ->
  Exists (fun n => n_client_state n <> Some (WEBHOOK_CLIENT_STATE env)) notifications ->
  exists w',
    WebhookHandler.endpoint env (mkRequest token (BodyObject notifications)) w
    = (Ok (mkHttp 401 (JsonObject [("detail", JStr "Unauthorized")])), w')
    /\ no_index_write w w'.
Proof.
  intros Htoken Hbad.
  unfold WebhookHandler.endpoint, WebhookHandler.handle_graph_webhook.
  cbn [req_validation_token]. rewrite Htoken.
  unfold WebhookHandler.validate_webhook, WebhookHandler.request_notifications.
  cbn [req_body].
  destruct (validate_notifications_rejects notifications w Hbad) as (w' & Hrun & Hkeep).
  unfold bind at 1. unfold bind at 1. unfold try_except, bind at 1, ret at 1.
  rewrite Hrun. cbn [negb]. exists w'. split; [reflexivity | exact Hkeep].
Qed.

End Endpoint.

(** C3 on azure_function_webhook_enhanced.py.  The Azure Function checks
    and processes the notifications one after the other: for a batch whose
    second client state is forged it answers 401, but the first notification
    has been processed by then, and the deletion its delta cycle found has
    been applied to the index. *)
Theorem forged_notification_after_valid_one :
  let w0 := Sample.world_with [Sample.indexed "i1"] in
  let run := Enhanced.main Sample.one_deletion Sample.mixed_batch w0 in
  run.1 = Ok (mkHttp 401 (PlainText "Unauthorized"))
  /\ w_index w0 = {[ "default_d1_i1_0" := Sample.indexed "i1" ]}
  /\ w_index run.2 = ∅
  /\ In (EvIndexDelete ["default_d1_i1_0"]) (w_trace run.2).
Proof.
  vm_compute. split; [reflexivity |]. split; [reflexivity |]. split; [reflexivity |].
  repeat (first [left; reflexivity | right]).
Qed.

(** ** Text extraction *)

(** A path whose last component has no extension, as the temp files that
    [graph_client.download_file] makes with [mkstemp()], is an unsupported
    file type for [extract_text]: the text is empty. *)
Lemma extract_text_without_extension env path w :
  PyStr.splitext_ext path = "" ->
  TextExtraction.extract_text env path w
  = (Ok [], set_trace (fun t => t ++ [EvLog PRINT "Unsupported file type: "]) w).
Proof. intros Hext. unfold TextExtraction.extract_text. rewrite Hext. reflexivity. Qed.

(** ** Temp files of the large-file path *)

Section TempFiles.

Local Set Warnings "-clear-no-such-hyp".

Variable env : Env.

Lemma same_files_refl w : same_files w w.
Proof. reflexivity. Qed.

Lemma same_files_trans a b c : same_files a b -> same_files b c -> same_files a c.
Proof. unfold same_files. congruence. Qed.

Ltac files_prim :=
  first [ apply keeps_modify; intros; reflexivity
        | unfold emit; apply keeps_modify; intros; reflexivity ].

Lemma batches_same_files file_name drive_id item_id tenant_id batch_size consume chunks :
  (forall docs n, keeps same_files (consume docs n)) ->
  forall batch total_chunks,
  keeps same_files
    (LargeFileHandler.process_text_in_batches env file_name drive_id item_id tenant_id
       batch_size consume chunks batch total_chunks).
Proof.
  intros Hconsume. induction chunks as [| [snippet chunk_idx] rest IH]; intros batch n.
  - cbn [LargeFileHandler.process_text_in_batches].
    destruct batch; [apply keeps_ret, same_files_refl | apply Hconsume].
  - cbn [LargeFileHandler.process_text_in_batches].
    keeps_with same_files_refl same_files_trans files_prim
      ltac:(first [apply Hconsume | apply IH]).
Qed.

Lemma process_file_in_chunks_same_files temp_path drive_id item_id file_name tenant_id :
  keeps same_files
    (LargeFileHandler.process_file_in_chunks env temp_path drive_id item_id file_name
       tenant_id).
Proof.
  unfold LargeFileHandler.process_file_in_chunks.
  keeps_with same_files_refl same_files_trans files_prim
    ltac:(apply batches_same_files; intros;
          keeps_with same_files_refl same_files_trans files_prim fail).
Qed.

Lemma stream_download_failed drive_id item_id file_name w :
  match stream_download env drive_id item_id file_name with
  | SdNoHeaders _ => True
  | SdStatus path _ | SdBroken path _ => path ∉ w_files w
  | SdDone _ => False
  end ->
  exists w',
    LargeFileHandler.stream_download_large_file env drive_id item_id file_name w
    = (Ok None, w')
    /\ w_files w' = w_files w.
Proof.
  intros Hfresh. unfold LargeFileHandler.stream_download_large_file.
  destruct (stream_download env drive_id item_id file_name) as [e | path code | path e | path].
  - eexists. split; reflexivity.
  - mcompute. repeat (rewrite bool_decide_true by set_solver; mcompute).
    eexists. split; [reflexivity |]. mcompute. set_solver.
  - mcompute. repeat (rewrite bool_decide_true by set_solver; mcompute).
    eexists. split; [reflexivity |]. mcompute. set_solver.
  - contradiction.
Qed.

Lemma stream_download_done drive_id item_id file_name path w :
  stream_download env drive_id item_id file_name = SdDone path ->
  LargeFileHandler.stream_download_large_file env drive_id item_id file_name w
  = (Ok (Some path),
     set_trace (fun t => t ++ [EvLog INFO ("Successfully streamed " +:+ file_name
                                           +:+ " to " +:+ path)])
               (set_files (fun fs => {[path]} ∪ fs) w)).
Proof.
  intros Hdone. unfold LargeFileHandler.stream_download_large_file. now rewrite Hdone.
Qed.

(** The [finally] clause removes the temp file the body has left alone. *)
Lemma finally_removes {A} (body : M A) path w :
  path <> "" -> keeps same_files body -> path ∈ w_files w ->
  w_files (try_finally body
             (finally_cleanup (Some path)
                (fun p => log INFO ("Cleaned up temp file: " +:+ p))) w).2
  = w_files w ∖ {[path]}.
Proof.
  intros Hname Hbody Hin. apply truthy_iff in Hname.
  unfold try_finally. specialize (Hbody w). destruct (body w) as [r w1].
  unfold same_files in Hbody. cbn [snd] in Hbody.
  unfold finally_cleanup. rewrite Hname. mcompute.
  repeat (rewrite bool_decide_true by (rewrite Hbody; exact Hin); mcompute).
  now rewrite Hbody.
Qed.

(** X30.  The large-file path releases its temp file on every path: whatever the
    download, the extraction, the embedding and the index do, the files on
    disk after [process_large_file] are those from before it. *)
Lemma large_file_releases_temp_file drive_id item_id file_name file_size tenant_id w :
  match stream_download env drive_id item_id file_name with
  | SdNoHeaders _ => True
  | SdStatus path _ | SdBroken path _ | SdDone path => path <> "" /\ path ∉ w_files w
  end ->
  w_files (LargeFileHandler.process_large_file env drive_id item_id file_name file_size
             tenant_id w).2 = w_files w.
Proof.
  intros Hfresh. unfold LargeFileHandler.process_large_file.
  rewrite seq_run, log_run. unfold bind at 1.
  set (w0 := set_trace _ w).
  destruct (stream_download env drive_id item_id file_name)
    as [e | path code | path e | path] eqn:Hdl.
  1-3: destruct (stream_download_failed drive_id item_id file_name w0) as (w1 & -> & Hw1);
       [rewrite Hdl; tauto | unfold finally_cleanup; mcompute; exact Hw1].
  destruct Hfresh as [Hname Hfresh].
  rewrite (stream_download_done _ _ _ _ _ Hdl).
  rewrite finally_removes; [mcompute; set_solver | exact Hname | | mcompute; set_solver].
  apply (keeps_try_except _ same_files_trans).
  - pose proof Hname as Htruthy. apply truthy_iff in Htruthy. rewrite Htruthy.
    apply process_file_in_chunks_same_files.
  - intros e. keeps_with same_files_refl same_files_trans files_prim fail.
Qed.

End TempFiles.

(** ** Runs on the samples *)

(** C1 on webhook_handler.py.  The download of report.pdf is refused:
    nothing is written to the index, yet the item is marked processed at the
    last-modified of the record, and the next cycle takes it as done. *)
Theorem failed_download_marked_processed :
  let run := WebhookHandler.process_drive_delta Sample.download_refused "d1"
                                                Sample.empty_world in
  In (EvLog PRINT "Failed to download report.pdf") (w_trace run.2)
  /\ w_index run.2 = ∅
  /\ Forall (fun e => ~ is_index_write e) (w_trace run.2)
  /\ w_cache run.2 = {[ "d1_i1" := Some Sample.stamp ]}
  /\ WebhookHandler.is_already_processed "d1" (Some "i1") (Some Sample.stamp) run.2
     = (Ok true, run.2).
Proof.
  vm_compute. split; [| split; [reflexivity | split; [| split; reflexivity]]].
  - repeat (first [left; reflexivity | right]).
  - repeat constructor; tauto.
Qed.

(** C8 on webhook_handler.py and graph_client.py.  The connection breaks
    while the content is streamed: [download_file] has made the temp file
    and gives [None], and the file is still there when the ingestion
    returns, in both handlers.  The large-file path removes it. *)
Theorem broken_download_leaves_temp_file :
  w_files (WebhookHandler.ingest_single_file Sample.download_broken "d1" (Some "i1")
             Sample.empty_world).2 = {[ "/tmp/tmpq7w2k9xs" ]}
  /\ w_files (Enhanced.ingest_single_file Sample.download_broken "d1" "i1" "report.pdf"
                "default" Sample.empty_world).2 = {[ "/tmp/tmpq7w2k9xs" ]}
  /\ w_files (LargeFileHandler.process_large_file Sample.download_broken "d1" "i1"
                "report.pdf" (60 * MB) "default" Sample.empty_world).2 = ∅.
Proof. vm_compute. repeat split; reflexivity. Qed.

(** C5 fails on the code.  The embedding service is down, and the chunk
    "hello world" is indexed all the same, with the mock vector: by the loop
    of the tenant-aware handler, and by a whole run of the large-file path. *)
Lemma failed_embedding_is_indexed :
  let env := Sample.embedding_down in
  let snippet := Py.of_string "hello world" in
  embeddings_create env snippet = Raise "Request timed out."
  /\ (embed_chunks env (Enhanced.make_doc "d1" "i1" "notes.txt" "default" (utcnow env))
        (fun _ e => log ERROR ("Error processing chunk from notes.txt: " +:+ e))
        [(snippet, 0)] Sample.empty_world).1
     = Ok [Enhanced.make_doc "d1" "i1" "notes.txt" "default" (utcnow env)
             snippet 0 Embedding.MOCK_EMBEDDING]
  /\ w_index (LargeFileHandler.process_large_file env "d1" "i1" "notes.txt" (60 * MB)
                "default" Sample.empty_world).2
     = {[ "default_d1_i1_0" :=
            LargeFileHandler.large_doc "d1" "i1" "notes.txt" "default" (utcnow env)
              snippet 0 Embedding.MOCK_EMBEDDING ]}.
Proof. vm_compute. repeat split; reflexivity. Qed.

(** C4 fails on the code.  The delta of drive d1 has two pages; the
    deletion of i2 is on the second.  It belongs to the full change set, but
    the cycle never asks for the second page and the chunk of i2 stays in
    the index. *)
Lemma second_page_not_processed :
  let w0 := Sample.world_with [Sample.indexed "i1"; Sample.indexed "i2"] in
  let run := Enhanced.process_drive_delta Sample.two_pages "d1" "default" w0 in
  In (Sample.deletion "i2")
     (paged_changes Sample.two_pages 2 (Enhanced.delta_url "d1"))
  /\ delta_requests (w_trace run.2) = [Enhanced.delta_url "d1"]
  /\ In (EvLog INFO "Delta query has more pages, consider implementing pagination")
        (w_trace run.2)
  /\ w_index run.2 = {[ "default_d1_i2_0" := Sample.indexed "i2" ]}.
Proof.
  vm_compute. split; [| split; [reflexivity | split; [| reflexivity]]].
  - right. left. reflexivity.
  - repeat (first [left; reflexivity | right]).
Qed.

(** *** Instances of the theorems above *)

(** C10 fails on the code.  The token of a tenant named default is not
    the shared secret, and the check gives "default" for it all the same. *)
Lemma default_without_the_secret :
  "docusense-default-webhook" <> WEBHOOK_CLIENT_STATE Sample.quiet
  /\ Enhanced.validate_client_state Sample.quiet (Some "docusense-default-webhook")
     = Some "default".
Proof. split; [discriminate | reflexivity]. Qed.

Lemma idempotency_witness :
  let w := mkWorld ∅ {[ "d1_i1" := Some Sample.stamp ]} ∅ [] [] in
  WebhookHandler.process_change Sample.download_refused "d1"
    (Sample.upsert "i1" "report.pdf" 2000000) w = (Ok tt, w).
Proof.
  intros w.
  apply (idempotency_by_equality Sample.download_refused "d1"
           (Sample.upsert "i1" "report.pdf" 2000000) (Some Sample.stamp) w).
  - reflexivity.
  - eexists. reflexivity.
  - reflexivity.
  - reflexivity.
Defined.

Lemma handshake_witness :
  (WebhookHandler.endpoint Sample.quiet Sample.handshake Sample.empty_world).1
  = Ok (mkHttp 200 (JsonObject
          [("validationToken",
            JStr "Validation: Testing client application reachability")])).
Proof.
  unfold Sample.handshake.
  rewrite (handshake_answered_as_json Sample.quiet
             "Validation: Testing client application reachability" BodyEmpty
             Sample.empty_world); [reflexivity | discriminate].
Defined.

(** * Further properties of the code *)

(** ** The chunker: closed form and edge cases *)

Section ChunkerMore.

Import Py IngestLocal.

(** The chunk at index [j] of a list of words. *)
Lemma chunk_loop_exact words size : 0 < size -> Forall word words ->
  forall fuel k, length words <= fuel + k * size ->
  let out := flat_map (emit_chunk words size)
                      (range_from fuel (k * size) (length words) size) in
  out = (fun j => (join space (take size (drop (j * size) words)), j))
          <$> seq k (length out)
  /\ (length words <= k * size -> length out = 0)
  /\ (k * size < length words ->
      (k + length out - 1) * size < length words <= (k + length out) * size).
Proof.
  intros Hsize Hwords. induction fuel as [| fuel IH]; intros k Hfuel out; subst out.
  - simpl in *. repeat split; auto; lia.
  - cbn [range_from].
    destruct (Nat.ltb_spec (k * size) (length words)) as [Hlt | Hge].
    2:{ simpl. repeat split; auto; lia. }
    cbn [flat_map].
    specialize (IH (S k)). replace (k * size + size) with (S k * size) by lia.
    destruct IH as (IHout & IHzero & IHbounds); [simpl; lia |].
    set (rest := flat_map (emit_chunk words size)
                          (range_from fuel (S k * size) (length words) size)) in *.
    set (l := drop (k * size) words).
    assert (Hl : l <> []).
    { intros E. apply (f_equal length) in E. subst l.
      rewrite length_drop in E. simpl in E. lia. }
    assert (Hgood : Forall word (take size l))
      by (apply Forall_take, Forall_drop, Hwords).
    assert (Htake : take size l <> []).
    { destruct l; [contradiction |]. destruct size; [lia | discriminate]. }
    assert (Hemit : emit_chunk words size (k * size) = [(join space (take size l), k)]).
    { unfold emit_chunk. rewrite slice_window. fold l.
      rewrite join_truthy by assumption. now rewrite Nat.div_mul by lia. }
    rewrite Hemit. cbn [app length seq fmap list_fmap].
    split; [| split].
    + f_equal. exact IHout.
    + lia.
    + intros _. destruct (Nat.le_gt_cases (length words) (S k * size)) as [Hle | Hgt].
      * rewrite (IHzero Hle). lia.
      * specialize (IHbounds Hgt). lia.
Qed.

(** X1.  The chunker in closed form: with the default size, chunk [i] is the
    single-space join of the words [300 i] to [300 i + 299] of the text, and
    there are as many chunks as it takes to hold all the words. *)
Theorem chunk_text_windows (input : text) :
  chunk_text input DEFAULT_SIZE
  = Some ((fun i => (join space (take 300 (drop (i * 300) (split input))), i))
            <$> seq 0 ((length (split input) + 299) / 300)).
Proof.
  unfold chunk_text, DEFAULT_SIZE, range. cbn [Nat.eqb mbind option_bind].
  pose proof (chunk_loop_exact (split input) 300 ltac:(lia) (split_words input)
                (length (split input)) 0 ltac:(lia)) as H.
  cbn zeta in H. change (0 * 300) with 0 in H.
  destruct H as (Hout & Hzero & Hbounds).
  set (out := flat_map _ _) in *. f_equal. rewrite Hout at 1. do 2 f_equal.
  destruct (Nat.eq_dec (length (split input)) 0) as [Hz | Hnz].
  - rewrite Hzero by lia. rewrite Hz. reflexivity.
  - specialize (Hbounds ltac:(lia)).
    apply (Nat.div_unique _ _ _ (length (split input) + 299 - length out * 300));
      lia.
Qed.

Lemma split_acc_nil s : forall cur,
  split_acc cur s = [] <-> cur = [] /\ Forall (fun c => isspace c = true) s.
Proof.
  induction s as [| c s IH]; intros cur; simpl.
  - destruct cur; split; try discriminate; try tauto.
    + intros _. split; [reflexivity | constructor].
    + intros [E _]. discriminate.
  - destruct (isspace c) eqn:Hc.
    + destruct cur as [| c0 cur'].
      * rewrite IH. split; intros [E H]; (split; [exact E |]);
          first [ now constructor | now inversion H ].
      * split; [discriminate | intros [E _]; discriminate].
    + rewrite IH. split; [intros [E _]; discriminate |].
      intros [_ H]. inversion H; congruence.
Qed.

Lemma lstrip_blank s : Forall (fun c => isspace c = true) s -> lstrip s = [].
Proof. induction 1 as [| c s Hc _ IH]; [reflexivity |]. simpl. now rewrite Hc. Qed.

Lemma strip_blank_iff s :
  truthy (strip s) = false <-> Forall (fun c => isspace c = true) s.
Proof.
  split.
  - intros Hstrip. apply Forall_forall. intros c Hin.
    destruct (isspace c) eqn:Hc; [reflexivity |].
    apply list_elem_of_In in Hin.
    rewrite (strip_truthy c s Hin Hc) in Hstrip. discriminate.
  - intros Hall. unfold strip, rstrip. rewrite (lstrip_blank s Hall). reflexivity.
Qed.

(** X2.  The chunker yields nothing exactly for the texts the handlers take as
    empty ([not content.strip()]): the empty text and the texts of white
    space only.  Any other text gives at least one chunk. *)
Theorem chunk_text_blank (input : text) :
  chunk_text input DEFAULT_SIZE = Some [] <-> truthy (strip input) = false.
Proof.
  rewrite strip_blank_iff.
  unfold chunk_text, DEFAULT_SIZE, range. cbn [Nat.eqb mbind option_bind].
  pose proof (chunk_loop (split input) 300 ltac:(lia) (split_words input)
                (length (split input)) 0 ltac:(lia)) as H.
  cbn zeta in H. destruct H as (_ & _ & _ & Hnil).
  change (0 * 300) with 0 in Hnil.
  transitivity (split input = []).
  - split.
    + intros [= E]. apply Hnil in E. destruct (split input); [reflexivity | simpl in E; lia].
    + intros E. f_equal. apply Hnil. rewrite E. simpl. lia.
  - unfold split. rewrite split_acc_nil. tauto.
Qed.

Lemma join_last ws :
  ws <> [] -> Forall word ws ->
  exists s d, join space ws = s ++ [d] /\ isspace d = false.
Proof.
  intros Hne Hws. induction Hws as [| w ws [Hw Hall] Hws IH]; [contradiction |].
  destruct ws as [| w2 rest].
  - destruct (exists_last Hw) as (s & d & ->). exists s, d. split; [reflexivity |].
    apply Forall_app in Hall as [_ Hd]. now inversion Hd.
  - destruct IH as (s & d & Hs & Hd); [discriminate |].
    exists (w ++ space ++ s), d. split; [| exact Hd].
    change (join space (w :: w2 :: rest)) with (w ++ space ++ join space (w2 :: rest)).
    rewrite Hs. now rewrite <- !app_assoc.
Qed.

Lemma join_stripped ws :
  ws <> [] -> Forall word ws -> strip (join space ws) = join space ws.
Proof.
  intros Hne Hws.
  assert (Hfirst : lstrip (join space ws) = join space ws).
  { destruct ws as [| w ws]; [contradiction |].
    inversion Hws as [| ? ? [Hw Hall] _]; subst.
    destruct w as [| c w]; [contradiction |]. inversion Hall; subst.
    destruct ws; simpl; now rewrite H1. }
  unfold strip, rstrip. rewrite Hfirst.
  destruct (join_last ws Hne Hws) as (s & d & -> & Hd).
  rewrite rev_app_distr. simpl. rewrite Hd. simpl. now rewrite rev_involutive.
Qed.

(** X3.  A chunk is a fixed point of the chunker: it has no white space at its
    ends, and chunking it again gives the chunk itself, as the one chunk of
    index 0. *)
Theorem chunk_text_of_chunk (input : text) :
  exists chunks,
    chunk_text input DEFAULT_SIZE = Some chunks
    /\ Forall (fun c => strip c.1 = c.1
                       /\ chunk_text c.1 DEFAULT_SIZE = Some [(c.1, 0)]) chunks.
Proof.
  unfold chunk_text at 1. unfold DEFAULT_SIZE, range. cbn [Nat.eqb mbind option_bind].
  eexists. split; [reflexivity |].
  pose proof (chunk_loop_exact (split input) 300 ltac:(lia) (split_words input)
                (length (split input)) 0 ltac:(lia)) as H.
  cbn zeta in H. change (0 * 300) with 0 in H. destruct H as (Hout & Hzero & Hall).
  rewrite Hout. apply Forall_fmap, Forall_forall. intros j Hj. unfold compose. cbn [fst].
  apply elem_of_seq in Hj.
  set (ws := take 300 (drop (j * 300) (split input))).
  assert (Hgood : Forall word ws) by (apply Forall_take, Forall_drop, split_words).
  assert (Hne : ws <> []).
  { destruct (Nat.le_gt_cases (length (split input)) 0) as [Hle | Hgt];
      [rewrite (Hzero Hle) in Hj; lia |].
    specialize (Hall Hgt). intros E. apply (f_equal length) in E. subst ws.
    rewrite length_take, length_drop in E. cbn [length] in E. nia. }
  split; [now apply join_stripped |].
  unfold chunk_text, DEFAULT_SIZE, range. cbn [Nat.eqb mbind option_bind].
  rewrite split_join by assumption.
  pose proof (chunk_loop_exact ws 300 ltac:(lia) Hgood (length ws) 0 ltac:(lia)) as H.
  cbn zeta in H. change (0 * 300) with 0 in H. destruct H as (Hws & _ & Hbounds).
  assert (Hlen : 0 < length ws <= 300).
  { split; [destruct ws; [contradiction | simpl; lia] |].
    subst ws. rewrite length_take. lia. }
  specialize (Hbounds ltac:(lia)).
  set (out := flat_map (emit_chunk ws 300) _) in *.
  assert (Hone : length out = 1) by lia.
  rewrite Hws, Hone. cbn [seq fmap list_fmap]. change (0 * 300) with 0.
  rewrite drop_0, take_ge by lia. reflexivity.
Qed.

End ChunkerMore.

(** ** The file type filter *)

Section FileTypes.

Import FileTypeFilter.

Lemma find_hit {A} (f : A -> bool) l x : In x l -> f x = true -> exists y, find f l = Some y.
Proof.
  induction l as [| a l IH]; intros Hin Hx; [destruct Hin |].
  simpl. destruct (f a) eqn:Ha; [eauto |].
  destruct Hin as [-> | Hin]; [congruence | auto].
Qed.

Lemma find_miss {A} (f : A -> bool) l : (forall x, In x l -> f x = false) -> find f l = None.
Proof.
  induction l as [| a l IH]; intros H; [reflexivity |].
  simpl. rewrite (H a) by (left; reflexivity). apply IH. intros x Hx. apply H. now right.
Qed.

(** Two prefixes of one string: one is a prefix of the other. *)
Lemma prefix_chain (p q m : string) :
  String.prefix p m = true -> String.prefix q m = true ->
  String.prefix p q = true \/ String.prefix q p = true.
Proof.
  revert q m. induction p as [| a p IH]; intros q m Hp Hq; [left; destruct q; reflexivity |].
  destruct q as [| b q]; [right; reflexivity |].
  destruct m as [| c m]; [discriminate |].
  simpl in *. destruct (ascii_dec a c); [subst | discriminate].
  destruct (ascii_dec b c); [subst | discriminate].
  destruct (ascii_dec c c); [| contradiction]. eapply IH; eassumption.
Qed.

(** X4.  The extension is looked at first: a name that ends, in any letter
    case, with an extension of the skip list is refused, whatever its MIME
    type and size. *)
Theorem skip_extension_wins file_name ext mime_type file_size :
  In ext SKIP_EXTENSIONS ->
  PyStr.endswith (PyStr.lower file_name) ext = true ->
  (should_process_file file_name mime_type file_size).1 = false.
Proof.
  intros Hin Hends. unfold should_process_file.
  destruct (find_hit (PyStr.endswith (PyStr.lower file_name)) _ _ Hin Hends) as [y ->].
  reflexivity.
Qed.

(** X5.  A supported MIME type, or any [text/] type, makes a file eligible
    whatever its size and whatever the rest of its name, once the name, a
    text in ASCII, has no extension of the skip list. *)
Theorem document_mime_accepted file_name mime_type file_size :
  is_ascii file_name = true ->
  (forall ext, In ext SKIP_EXTENSIONS ->
               PyStr.endswith (PyStr.lower file_name) ext = false) ->
  In mime_type SUPPORTED_MIME_TYPES \/ PyStr.startswith mime_type "text/" = true ->
  (should_process_file file_name (Some mime_type) file_size).1 = true.
Proof.
  intros _ Hskip Hmime. unfold should_process_file.
  rewrite (find_miss _ _ Hskip). unfold mime_decision.
  assert (Htruthy : PyStr.truthy mime_type = true).
  { destruct mime_type; [| reflexivity]. destruct Hmime as [Hin | Hp]; [| discriminate].
    exfalso. revert Hin. vm_compute. intuition discriminate. }
  rewrite Htruthy. cbn [negb].
  destruct (bool_decide (mime_type ∈ SUPPORTED_MIME_TYPES)) eqn:Hsup; [reflexivity |].
  destruct Hmime as [Hin | Hp].
  - apply bool_decide_eq_false in Hsup. exfalso. apply Hsup. now apply list_elem_of_In.
  - rewrite Hp. reflexivity.
Qed.

Lemma binary_prefix_not_document p mime_type :
  In p binary_prefixes -> PyStr.startswith mime_type p = true ->
  bool_decide (mime_type ∈ SUPPORTED_MIME_TYPES) = false
  /\ PyStr.startswith mime_type "text/" = false /\ PyStr.truthy mime_type = true.
Proof.
  intros Hp Hstart. unfold PyStr.startswith in *.
  assert (Hcheck : forallb (fun s => negb (String.prefix p s)) ("text/" :: "" :: SUPPORTED_MIME_TYPES)
                   = true).
  { revert Hp. unfold binary_prefixes. simpl In.
    intros [<- | [<- | [<- | [<- | []]]]]; vm_compute; reflexivity. }
  rewrite forallb_forall in Hcheck.
  assert (Hshort : String.prefix "text/" p = false).
  { revert Hp. unfold binary_prefixes. simpl In.
    intros [<- | [<- | [<- | [<- | []]]]]; vm_compute; reflexivity. }
  split; [| split].
  - apply bool_decide_eq_false. intros Hin. apply list_elem_of_In in Hin.
    specialize (Hcheck mime_type ltac:(right; right; exact Hin)).
    rewrite Hstart in Hcheck. discriminate.
  - destruct (String.prefix "text/" mime_type) eqn:Htext; [| reflexivity].
    destruct (prefix_chain _ _ _ Hstart Htext) as [H | H].
    + specialize (Hcheck "text/" ltac:(left; reflexivity)). rewrite H in Hcheck. discriminate.
    + congruence.
  - destruct mime_type; [| reflexivity].
    specialize (Hcheck "" ltac:(right; left; reflexivity)).
    rewrite Hstart in Hcheck. discriminate.
Qed.

(** X6.  An image, video, audio or octet-stream MIME type makes a file
    ineligible even when its name has a text extension such as .txt: the
    MIME type is looked at before the text extensions. *)
Theorem binary_mime_refused file_name p mime_type file_size :
  In p binary_prefixes -> PyStr.startswith mime_type p = true ->
  (should_process_file file_name (Some mime_type) file_size).1 = false.
Proof.
  intros Hp Hstart. unfold should_process_file.
  destruct (find _ SKIP_EXTENSIONS); [reflexivity |].
  unfold mime_decision.
  destruct (binary_prefix_not_document p mime_type Hp Hstart) as (-> & -> & ->).
  cbn [negb].
  destruct (find_hit (PyStr.startswith mime_type) _ _ Hp Hstart) as [y ->]. reflexivity.
Qed.

(** X7.  Without a MIME type and without a known extension the size decides:
    a file whose name, a text in ASCII, has neither a skip extension nor a
    text extension is eligible exactly up to 10MB. *)
Theorem unknown_type_size_limit file_name mime_type file_size :
  is_ascii file_name = true ->
  mime_type = None \/ mime_type = Some "" ->
  (forall ext, In ext (SKIP_EXTENSIONS ++ text_extensions) ->
               PyStr.endswith (PyStr.lower file_name) ext = false) ->
  (should_process_file file_name mime_type file_size).1
  = (file_size <=? 10 * 1024 * 1024)%Z.
Proof.
  intros _ Hmime Hext. unfold should_process_file.
  rewrite find_miss by (intros; apply Hext, in_or_app; now left).
  assert (Hfall : mime_decision mime_type = None) by (destruct Hmime as [-> | ->]; reflexivity).
  rewrite Hfall.
  rewrite find_miss by (intros; apply Hext, in_or_app; now right).
  rewrite Z.leb_antisym. destruct (10 * 1024 * 1024 <? file_size)%Z; reflexivity.
Qed.

Lemma lower_ascii_twice c : PyStr.lower_ascii (PyStr.lower_ascii c) = PyStr.lower_ascii c.
Proof. destruct c as [[] [] [] [] [] [] [] []]; vm_compute; reflexivity. Qed.

Lemma lower_twice s : PyStr.lower (PyStr.lower s) = PyStr.lower s.
Proof. induction s as [| c s IH]; [reflexivity |]. simpl. now rewrite lower_ascii_twice, IH. Qed.

(** X8.  The decision does not depend on the letter case of the file name. *)
Theorem filter_ignores_case file_name mime_type file_size :
  should_process_file (PyStr.lower file_name) mime_type file_size
  = should_process_file file_name mime_type file_size.
Proof. unfold should_process_file. now rewrite lower_twice. Qed.

End FileTypes.

(** ** Deleting the chunks of a file *)

Section Deletion.

Variable env : Env.

Lemma lookup_foldr_delete (m : gmap string Doc) ids key :
  foldr delete m ids !! key = if bool_decide (key ∈ ids) then None else m !! key.
Proof.
  induction ids as [| i ids IH]; [reflexivity |]. simpl.
  destruct (decide (i = key)) as [-> | Hne].
  - rewrite lookup_delete_eq, bool_decide_true by (left). reflexivity.
  - rewrite lookup_delete_ne, IH by assumption.
    destruct (decide (key ∈ ids)) as [Hin | Hout].
    + rewrite !bool_decide_true by (try right; assumption). reflexivity.
    + rewrite !bool_decide_false; [reflexivity | | assumption].
      intros Hin. apply elem_of_cons in Hin as [-> | Hin]; contradiction.
Qed.

(** The ids that [remove_file_from_index] collects for a filter. *)
Lemma matching_ids f w key :
  keyed w ->
  key ∈ doc_id <$> filter (fun d => matches f d = true) (map_to_list (w_index w)).*2
  <-> exists doc, w_index w !! key = Some doc /\ matches f doc = true.
Proof.
  intros Hkeyed. rewrite list_elem_of_fmap. split.
  - intros (doc & -> & Hin). apply list_elem_of_filter in Hin as [Hm Hin].
    apply list_elem_of_fmap in Hin as ([k d] & -> & Hin).
    apply elem_of_map_to_list in Hin. cbn [snd] in *.
    exists d. rewrite (Hkeyed _ _ Hin). auto.
  - intros (doc & Hlook & Hm). exists doc. split; [symmetry; now apply Hkeyed |].
    apply list_elem_of_filter. split; [assumption |].
    apply list_elem_of_fmap. exists (key, doc). split; [reflexivity |].
    now apply elem_of_map_to_list.
Qed.

Lemma deleted_lookup f w key :
  keyed w ->
  foldr delete (w_index w)
    (doc_id <$> filter (fun d => matches f d = true) (map_to_list (w_index w)).*2) !! key
  = unless_matching f (w_index w !! key).
Proof.
  intros Hkeyed. rewrite lookup_foldr_delete. unfold unless_matching.
  destruct (w_index w !! key) as [doc |] eqn:Hlook.
  - destruct (matches f doc) eqn:Hm.
    + rewrite bool_decide_true; [reflexivity |]. apply matching_ids; eauto.
    + rewrite bool_decide_false; [reflexivity |]. intros Hin.
      apply matching_ids in Hin as (doc' & Hlook' & Hm'); [| assumption]. congruence.
  - destruct (bool_decide _); reflexivity.
Qed.

(** X9.  Deletion is complete and touches nothing else.  The ids have no
    single quote, so the filter that is sent compares the three fields with
    them.  When the search succeeds, giving every document that matches the
    filter, and the delete call succeeds, [remove_file_from_index] of the
    tenant-aware handler leaves exactly the documents that do not belong to
    the given drive, item and tenant; chunks of other files, and of the
    same file of another tenant, stay as they are. *)
Theorem removal_is_exact drive_id item_id tenant_id w :
  quote_free drive_id -> quote_free item_id -> quote_free tenant_id ->
  keyed w ->
  search_ok env (mkFilter drive_id item_id (Some tenant_id)) = Ok tt ->
  (forall ids, delete_ok env ids = Ok tt) ->
  let run := Enhanced.remove_file_from_index env drive_id item_id tenant_id w in
  run.1 = Ok tt
  /\ forall key, w_index run.2 !! key
                 = unless_matching (mkFilter drive_id item_id (Some tenant_id))
                                   (w_index w !! key).
Proof.
  intros _ _ _ Hkeyed Hsearch Hdelete. cbn zeta.
  unfold Enhanced.remove_file_from_index, search, delete_documents.
  set (f := mkFilter drive_id item_id (Some tenant_id)) in *.
  pose proof (deleted_lookup f w) as Hdel.
  set (ids := doc_id <$> _) in Hdel.
  mcompute. rewrite Hsearch. mcompute. fold ids.
  destruct ids as [| i ids'] eqn:Hids.
  - split; [reflexivity |]. intros key. rewrite <- Hdel by assumption. reflexivity.
  - rewrite Hdelete. mcompute. split; [reflexivity |]. intros key.
    rewrite <- Hdel by assumption. reflexivity.
Qed.

(** X10.  A failing index leaves the documents alone: when the search raises, or
    the delete call does, [remove_file_from_index] catches the exception,
    returns normally, and the index is as before. *)
Theorem removal_failure_leaves_index drive_id item_id tenant_id w :
  (exists e, search_ok env (mkFilter drive_id item_id (Some tenant_id)) = Raise e)
  \/ (forall ids, exists e, delete_ok env ids = Raise e) ->
  let run := Enhanced.remove_file_from_index env drive_id item_id tenant_id w in
  run.1 = Ok tt /\ w_index run.2 = w_index w.
Proof.
  intros Hfail. cbn zeta.
  unfold Enhanced.remove_file_from_index, search, delete_documents. mcompute.
  destruct (search_ok env _) as [[] | e] eqn:Hsearch; mcompute; [| split; reflexivity].
  destruct Hfail as [[e He] | Hdelete]; [congruence |].
  destruct (doc_id <$> _) as [| i ids]; [split; reflexivity |].
  destruct (Hdelete (i :: ids)) as [e ->]. mcompute. split; reflexivity.
Qed.

(** X11.  The FastAPI handler filters on drive and item only: for ids without a
    single quote, its [remove_file_from_index] deletes the chunks of the
    item whatever tenant they belong to. *)
Theorem handler_removal_crosses_tenants drive_id item_id w key doc :
  quote_free drive_id -> quote_free (PyStr.fmt item_id) ->
  keyed w ->
  search_ok env (mkFilter drive_id (PyStr.fmt item_id) None) = Ok tt ->
  (forall ids, delete_ok env ids = Ok tt) ->
  w_index w !! key = Some doc ->
  doc_source_drive_id doc = drive_id ->
  doc_source_item_id doc = Some (PyStr.fmt item_id) ->
  w_index (WebhookHandler.remove_file_from_index env drive_id item_id w).2 !! key = None.
Proof.
  intros _ _ Hkeyed Hsearch Hdelete Hlook Hdrive Hitem.
  unfold WebhookHandler.remove_file_from_index, search, delete_documents.
  set (f := mkFilter drive_id (PyStr.fmt item_id) None) in *.
  assert (Hm : matches f doc = true).
  { unfold matches, f. cbn [f_drive f_item f_tenant].
    rewrite Hdrive, String.eqb_refl, bool_decide_true by assumption. reflexivity. }
  pose proof (deleted_lookup f w key Hkeyed) as Hdel.
  pose proof (proj2 (matching_ids f w key Hkeyed) (ex_intro _ doc (conj Hlook Hm))) as Hin.
  set (ids := doc_id <$> _) in Hdel, Hin.
  mcompute. rewrite Hsearch. mcompute. fold ids.
  destruct ids as [| i ids'] eqn:Hids; [inversion Hin |].
  rewrite Hdelete. mcompute. rewrite Hdel, Hlook. cbn [unless_matching]. now rewrite Hm.
Qed.

End Deletion.

(** ** The tracker, further *)

Section TrackerMore.

Variable env : Env.

(** X12.  An upsert record that carries no [lastModifiedDateTime], for an item the
    tracker has never seen, is taken as processed: [None == None].  The
    record is skipped and the world stays as it was. *)
Theorem unseen_item_without_timestamp_skipped drive_id item w :
  it_deleted item = false -> is_Some (it_file item) ->
  it_last_modified item = None ->
  w_cache w !! WebhookHandler.cache_key drive_id (it_id item) = None ->
  WebhookHandler.process_change env drive_id item w = (Ok tt, w).
Proof.
  intros Hdel Hfile Hlm Hnew. unfold WebhookHandler.process_change.
  rewrite Hdel, bool_decide_true by assumption.
  unfold WebhookHandler.is_already_processed. mcompute. rewrite Hnew, Hlm. reflexivity.
Qed.

(** X14.  The key of the tenant-aware tracker joins tenant, drive and item with
    an underscore and does not tell them apart: once tenant [a_b] has
    marked item [i] of drive [c], the same version of item [i] of drive
    [b_c] counts as processed for tenant [a]. *)
Theorem tracker_key_collision a b c item_id last_modified w :
  let marked := (Enhanced.mark_as_processed c item_id last_modified (a +:+ "_" +:+ b) w).2 in
  Enhanced.is_already_processed (b +:+ "_" +:+ c) item_id last_modified a marked
  = (Ok true, marked).
Proof.
  cbn zeta. unfold Enhanced.is_already_processed, Enhanced.mark_as_processed,
    Enhanced.cache_key. mcompute.
  replace (a +:+ "_" +:+ (b +:+ "_" +:+ c) +:+ "_" +:+ item_id)
    with ((a +:+ "_" +:+ b) +:+ "_" +:+ c +:+ "_" +:+ item_id).
  - rewrite lookup_insert_eq. cbn [default]. now rewrite bool_decide_true.
  - rewrite !app_assoc_s. reflexivity.
Qed.

Lemma handler_removal_same_cache drive_id item_id :
  keeps same_cache (WebhookHandler.remove_file_from_index env drive_id item_id).
Proof.
  unfold WebhookHandler.remove_file_from_index, search, delete_documents.
  keeps_with same_cache_refl same_cache_trans
    ltac:(first [ apply keeps_modify; intros; reflexivity
                | unfold emit; apply keeps_modify; intros; reflexivity ])
    fail.
Qed.

(** X13.  A deletion removes chunks from the index but no entry from the
    tracker.  So when a deleted file comes back with the last-modified that
    was recorded for it, its upsert record is skipped, and the file stays
    out of the index. *)
Theorem restored_file_is_skipped drive_id deleted restored w :
  it_deleted deleted = true ->
  it_deleted restored = false -> is_Some (it_file restored) ->
  w_cache w !! WebhookHandler.cache_key drive_id (it_id restored)
    = Some (it_last_modified restored) ->
  let after := (WebhookHandler.process_change env drive_id deleted w).2 in
  WebhookHandler.process_change env drive_id restored after = (Ok tt, after).
Proof.
  intros Hdel Hup Hfile Hseen. cbn zeta.
  pose proof (handler_removal_same_cache drive_id (it_id deleted) w) as Hcache.
  assert (Hafter : (WebhookHandler.process_change env drive_id deleted w).2
                   = (WebhookHandler.remove_file_from_index env drive_id (it_id deleted) w).2)
    by (unfold WebhookHandler.process_change; now rewrite Hdel).
  rewrite Hafter.
  set (after := (WebhookHandler.remove_file_from_index env drive_id (it_id deleted) w).2) in *.
  unfold same_cache in Hcache.
  unfold WebhookHandler.process_change. rewrite Hup, bool_decide_true by assumption.
  unfold WebhookHandler.is_already_processed. mcompute.
  rewrite Hcache, Hseen. cbn [default]. rewrite bool_decide_true by reflexivity. reflexivity.
Qed.

End TrackerMore.

(** ** The change loop of the tenant-aware handler *)

Section ItemChange.

Variable env : Env.

Lemma stores_untouched_refl w : stores_untouched w w.
Proof. repeat split. Qed.

Lemma stores_untouched_trans a b c :
  stores_untouched a b -> stores_untouched b c -> stores_untouched a c.
Proof. intros (I1 & C1 & F1) (I2 & C2 & F2). repeat split; congruence. Qed.

Ltac stores_prim :=
  first [ apply keeps_modify; intros; repeat split; reflexivity
        | unfold emit; apply keeps_modify; intros; repeat split; reflexivity ].

(** X16.  A record that is not a deletion never reaches the index, the tracker or
    a temp file in the tenant-aware handler: [process_single_item_change]
    filters the file, may put it on the queue, and returns; nothing is
    downloaded or indexed and the item is not marked. *)
Theorem upsert_record_changes_no_store item drive_id tenant_id w :
  it_deleted item = false ->
  let run := Enhanced.process_single_item_change env item drive_id tenant_id w in
  stores_untouched w run.2
  /\ extends (fun e => ~ is_index_write e) w run.2.
Proof.
  intros Hdel. cbn zeta. split.
  - revert w. change (keeps stores_untouched
      (Enhanced.process_single_item_change env item drive_id tenant_id)).
    unfold Enhanced.process_single_item_change. rewrite Hdel.
    keeps_with stores_untouched_refl stores_untouched_trans stores_prim fail.
  - revert w. change (keeps (extends (fun e => ~ is_index_write e))
      (Enhanced.process_single_item_change env item drive_id tenant_id)).
    unfold Enhanced.process_single_item_change. rewrite Hdel.
    keeps_with (extends_refl (fun e => ~ is_index_write e))
               (extends_trans (fun e => ~ is_index_write e)) extends_prim fail.
Qed.

End ItemChange.

(** ** The queue *)

Section Queue.

Variable env : Env.

(** X17.  [enqueue_large_file_processing] never raises, and its answer tells what
    happened to the queue: [True] exactly when the file is at most 1GB and
    the send succeeded, and then the message, with the arguments as given,
    is the one added at the end of the queue; otherwise the queue is as
    before. *)
Theorem enqueue_answer_is_exact drive_id item_id file_name file_size tenant_id w :
  let message := mkQueueMessage drive_id item_id file_name file_size tenant_id (utcnow env) in
  let sent := bool_decide (file_size <= GB)%Z
              && succeeded (queue_send env message) in
  let run := QueueProcessor.enqueue_large_file_processing env drive_id item_id file_name
               file_size tenant_id w in
  run.1 = Ok sent
  /\ w_queue run.2 = (if sent then w_queue w ++ [message] else w_queue w).
Proof.
  cbn zeta. unfold QueueProcessor.enqueue_large_file_processing,
    QueueProcessor.MAX_QUEUE_FILE_SIZE.
  destruct (Z.ltb_spec (1024 * 1024 * 1024) file_size) as [Hbig | Hsmall].
  - rewrite (bool_decide_false (file_size <= GB)%Z) by size_lia. split; reflexivity.
  - rewrite (bool_decide_true (file_size <= GB)%Z) by size_lia. mcompute.
    destruct (queue_send env _) as [[] | e]; mcompute; split; reflexivity.
Qed.

End Queue.

(** ** Text extraction, further *)

Section Extraction.

Variable env : Env.

(** X19.  [extract_text] never raises.  A text comes from a parser only, and only
    for the four supported extensions, compared without regard to case; an
    unsupported extension and a failing parser both give the empty text. *)
Theorem extract_text_never_raises path w :
  let ext := PyStr.lower (PyStr.splitext_ext path) in
  exists content,
    (TextExtraction.extract_text env path w).1 = Ok content
    /\ (content = []
        \/ (In ext [".pdf"; ".docx"; ".pptx"; ".txt"] /\ parse env ext path = Ok content)).
Proof.
  cbn zeta. unfold TextExtraction.extract_text.
  set (ext := PyStr.lower (PyStr.splitext_ext path)).
  assert (Hlift : In ext [".pdf"; ".docx"; ".pptx"; ".txt"] ->
    exists content,
      (try_except (lift (parse env ext path))
         (fun e => log PRINT ("Error extracting text from " +:+ path +:+ ": " +:+ e) ;;
                   ret []) w).1 = Ok content
      /\ (content = []
          \/ (In ext [".pdf"; ".docx"; ".pptx"; ".txt"] /\ parse env ext path = Ok content))).
  { intros Hin. mcompute. destruct (parse env ext path) as [content | e].
    - exists content. split; [reflexivity |]. right. split; [assumption | reflexivity].
    - exists []. split; [reflexivity | left; reflexivity]. }
  destruct (String.eqb_spec ext ".pdf") as [E | _]; [apply Hlift; rewrite E; simpl; tauto |].
  destruct (String.eqb_spec ext ".docx") as [E | _]; [apply Hlift; rewrite E; simpl; tauto |].
  destruct (String.eqb_spec ext ".pptx") as [E | _]; [apply Hlift; rewrite E; simpl; tauto |].
  destruct (String.eqb_spec ext ".txt") as [E | _]; [apply Hlift; rewrite E; simpl; tauto |].
  exists []. split; [reflexivity | left; reflexivity].
Qed.

End Extraction.

(** ** The resource of a notification *)

Section Resource.

Variable env : Env.

Lemma split_on_length sep s : 1 <= length (PyStr.split_on sep s).
Proof.
  induction s as [| c s IH]; cbn [PyStr.split_on]; [simpl; lia |].
  destruct (Ascii.eqb c sep); [simpl; lia |].
  destruct (PyStr.split_on sep s); simpl; lia.
Qed.

Lemma split_on_grows sep c s :
  length (PyStr.split_on sep s) <= length (PyStr.split_on sep (String c s)).
Proof.
  cbn [PyStr.split_on]. destruct (Ascii.eqb c sep); [simpl; lia |].
  pose proof (split_on_length sep s). destruct (PyStr.split_on sep s); simpl in *; lia.
Qed.

Lemma split_on_field sep (field rest : string) :
  ~ In sep (list_ascii_of_string field) ->
  PyStr.split_on sep (field +:+ String sep rest) = field :: PyStr.split_on sep rest.
Proof.
  induction field as [| c field IH]; intros Hfree.
  - change (PyStr.split_on sep (String sep rest) = "" :: PyStr.split_on sep rest).
    cbn [PyStr.split_on]. now rewrite Ascii.eqb_refl.
  - rewrite app_cons. cbn [PyStr.split_on]. cbn [list_ascii_of_string In] in Hfree.
    destruct (Ascii.eqb_spec c sep) as [-> | _]; [tauto |].
    rewrite IH by tauto. reflexivity.
Qed.

Lemma split_on_after_drives s : forall n,
  substring n 8 s = "/drives/" -> 3 <= length (PyStr.split_on "/" s).
Proof.
  induction s as [| c s IH]; intros n Hsub.
  - destruct n; discriminate.
  - destruct n as [| n].
    + assert (Hs : String c s = "/drives/" +:+ substring 8 (String.length s - 7) (String c s)).
      { rewrite <- Hsub at 1. rewrite <- (substring_all (String c s)) at 1.
        cbn [String.length].
        assert (Hlen : 8 <= String.length (String c s)).
        { apply (f_equal String.length) in Hsub. revert Hsub. clear.
          generalize (String c s). intros t Hsub.
          destruct (Nat.le_gt_cases 8 (String.length t)) as [H | H]; [exact H |].
          exfalso. revert Hsub H. clear.
          do 8 (destruct t as [| ? t]; [simpl; intros; discriminate |]).
          simpl. intros _ H. lia. }
        cbn [String.length] in Hlen.
        replace (S (String.length s)) with (8 + (String.length s - 7)) by lia.
        rewrite substring_cut. f_equal. }
      rewrite Hs.
      change ("/drives/" +:+ ?r)%string with (String "/" ("drives" +:+ String "/" r)).
      cbn [PyStr.split_on]. rewrite Ascii.eqb_refl.
      rewrite split_on_field by (vm_compute; intuition discriminate).
      pose proof (split_on_length "/" (substring 8 (String.length s - 7) (String c s))).
      simpl in *. lia.
    + cbn [substring] in Hsub. pose proof (IH n Hsub). pose proof (split_on_grows "/" c s). lia.
Qed.

Lemma enhanced_cycle_returns drive_id tenant_id w :
  (Enhanced.process_drive_delta env drive_id tenant_id w).1 = Ok tt.
Proof.
  destruct (total_try_except
    (lift (graph_headers env) ;; emit (EvDeltaGet (Enhanced.delta_url drive_id)) ;;
     let* response := lift (delta_get env (Enhanced.delta_url drive_id)) in
     if status_code response =? 200 then
       let changes := resp_value response in
       log INFO ("Processing " +:+ pretty (length changes) +:+ " delta changes for tenant "
                 +:+ tenant_id) ;;
       for_each changes
         (fun item =>
            try_except (Enhanced.process_single_item_change env item drive_id tenant_id)
              (fun e => log ERROR ("Error processing item "
                                   +:+ default "unknown" (it_id item) +:+ ": " +:+ e))) ;;
       if PyStr.truthy (default "" (resp_next_link response)) then
         log INFO "Delta query has more pages, consider implementing pagination"
       else ret tt
     else
       log ERROR ("Delta query failed: " +:+ pretty (status_code response) +:+ " - "
                  +:+ resp_text response))
    (fun e => log ERROR ("Error processing drive delta: " +:+ e))
    (fun e => total_log _ _) w) as [[] H].
  exact H.
Qed.

(** X22.  A resource that contains [/drives/] always has a third component: in
    the tenant-aware handler the branch "Invalid resource path format" is
    never taken and no index error is raised; the delta cycle is run for
    that component, under the tenant of the notification. *)
Theorem drives_resource_starts_cycle notification w :
  let resource := default "" (n_resource notification) in
  let tenant_id := default "default" (n_tenant_id notification) in
  PyStr.contains "/drives/" resource = true ->
  exists drive_id,
    PyStr.split_on "/" resource !! 2 = Some drive_id
    /\ Enhanced.process_notification_sync env notification w
       = Enhanced.process_drive_delta env drive_id tenant_id
           (set_trace (fun t => t ++ [EvLog INFO
              ("Processing " +:+ default "" (n_change_type notification)
               +:+ " notification for " +:+ resource
               +:+ " (tenant: " +:+ tenant_id +:+ ")")]) w).
Proof.
  cbn zeta. intros Hcontains.
  set (resource := default "" (n_resource notification)) in *.
  assert (Hlen : 3 <= length (PyStr.split_on "/" resource)).
  { unfold PyStr.contains in Hcontains.
    destruct (String.index 0 "/drives/" resource) as [n |] eqn:Hindex; [| discriminate].
    apply index_correct1 in Hindex. exact (split_on_after_drives _ _ Hindex). }
  destruct (PyStr.split_on "/" resource !! 2) as [drive_id |] eqn:Hthird.
  2: { apply lookup_ge_None in Hthird. lia. }
  exists drive_id. split; [reflexivity |].
  unfold Enhanced.process_notification_sync. fold resource.
  rewrite Hcontains. apply Nat.leb_le in Hlen. rewrite Hlen, Hthird.
  unfold try_except at 1. rewrite seq_run, log_run. unfold of_option, bind at 1, ret at 1.
  set (w1 := set_trace _ w).
  pose proof (enhanced_cycle_returns drive_id (default "default" (n_tenant_id notification)) w1)
    as Hok.
  destruct (Enhanced.process_drive_delta env drive_id _ w1) as [[[] | e] w2];
    [reflexivity | discriminate].
Qed.

(** X23.  For the resource of a drive subscription, [/drives/<id>/...], the
    FastAPI handler runs the delta cycle of that drive. *)
Theorem subscription_resource_names_drive client_state drive_id rest change_type tenant_id w :
  ~ In "/"%char (list_ascii_of_string drive_id) ->
  let resource := "/drives/" +:+ drive_id +:+ "/" +:+ rest in
  WebhookHandler.process_file_change env
    (mkNotification client_state (Some resource) change_type tenant_id) w
  = match WebhookHandler.process_drive_delta env drive_id
            (set_trace (fun t => t ++ [EvLog PRINT
               ("Webhook: " +:+ default "" change_type +:+ " - " +:+ resource)]) w) with
    | (_, w') => (Ok tt, w')
    end.
Proof.
  intros Hfree. cbn zeta.
  set (resource := "/drives/" +:+ drive_id +:+ "/" +:+ rest).
  unfold WebhookHandler.process_file_change. cbn [n_resource n_change_type].
  change (default "" (Some resource)) with resource.
  assert (Hcontains : PyStr.contains "/drives/" resource = true).
  { unfold PyStr.contains, resource.
    change ("/drives/" +:+ ?r)%string with (String "/" ("drives/" +:+ r)).
    cbn [String.index].
    pose proof (startswith_app "/drives/" (drive_id +:+ "/" +:+ rest)) as Hp.
    unfold PyStr.startswith in Hp.
    change ("/drives/" +:+ ?r)%string with (String "/" ("drives/" +:+ r)) in Hp.
    now rewrite Hp. }
  assert (Hparts : PyStr.split_on "/" resource !! 2 = Some drive_id).
  { unfold resource.
    change ("/drives/" +:+ ?r)%string with (String "/" ("drives" +:+ String "/" r)).
    cbn [PyStr.split_on]. rewrite Ascii.eqb_refl.
    rewrite split_on_field by (vm_compute; intuition discriminate).
    change ("/" +:+ rest)%string with (String "/" rest).
    rewrite split_on_field by assumption. reflexivity. }
  rewrite Hcontains, Hparts.
  unfold try_except at 1. rewrite seq_run, log_run. unfold of_option, bind at 1, ret at 1.
  set (w1 := set_trace _ w).
  assert (Hok : (WebhookHandler.process_drive_delta env drive_id w1).1 = Ok tt).
  { unfold WebhookHandler.process_drive_delta.
    match goal with
    | |- (try_except ?m ?h w1).1 = _ =>
        destruct (total_try_except m h (fun e => total_log _ _) w1) as [[] H]; exact H
    end. }
  destruct (WebhookHandler.process_drive_delta env drive_id w1) as [[[] | e] w2];
    [reflexivity | discriminate].
Qed.

End Resource.

(** ** The answer of the Azure Function *)

Section Answer.

Variable env : Env.

Lemma notification_sync_returns notification w :
  (Enhanced.process_notification_sync env notification w).1 = Ok tt.
Proof.
  unfold Enhanced.process_notification_sync.
  match goal with
  | |- (try_except ?m ?h w).1 = _ =>
      destruct (total_try_except m h (fun e => total_log _ _) w) as [[] H]; exact H
  end.
Qed.

Lemma process_notifications_answer notifications : forall w,
  (Enhanced.process_notifications env notifications w).1
  = Ok (if forallb (has_valid_state env) notifications then None
        else Some (mkHttp 401 (PlainText "Unauthorized"))).
Proof.
  induction notifications as [| n rest IH]; intros w; [reflexivity |].
  cbn [Enhanced.process_notifications forallb]. unfold has_valid_state at 1.
  destruct (Enhanced.validate_client_state env (n_client_state n)) as [tenant_id |].
  - cbn [andb]. unfold Telemetry.log_webhook_event. rewrite seq_run, log_run, seq_run.
    set (w1 := set_trace _ w). set (n' := mkNotification _ _ _ _).
    pose proof (notification_sync_returns n' w1) as Hok.
    destruct (Enhanced.process_notification_sync env n' w1) as [[[] | e] w2];
      [apply IH | discriminate].
  - reflexivity.
Qed.

Lemma track_result {A} name (m : M A) w :
  (Telemetry.track_performance name m w).1 = (m w).1.
Proof.
  unfold Telemetry.track_performance. destruct (m w) as [[a | e] w1]; reflexivity.
Qed.

(** X24.  The answer to a batch of notifications as the Graph API sends them,
    with members that are strings or absent, depends on the client states
    alone: 200 with the number of notifications when every client state is
    valid, and 401 as soon as one is not, whatever the processing of the
    notifications before it has done or failed to do. *)
Theorem batch_answer_by_client_states token notifications w :
  PyStr.truthy (default "" token) = false -> notifications <> [] ->
  (Enhanced.main env (mkRequest token (BodyObject notifications)) w).1
  = Ok (if forallb (has_valid_state env) notifications
        then mkHttp 200 (JsonObject [("status", JStr "accepted");
                                     ("processed", JNum (length notifications))])
        else mkHttp 401 (PlainText "Unauthorized")).
Proof.
  intros Htoken Hsome. unfold Enhanced.main. rewrite track_result.
  cbn [req_validation_token req_body]. rewrite Htoken.
  destruct notifications as [| n rest]; [contradiction |].
  rewrite seq_run, log_run. unfold try_except. rewrite seq_run, log_run.
  unfold bind at 1.
  set (w1 := set_trace _ (set_trace _ w)).
  pose proof (process_notifications_answer (n :: rest) w1) as Hanswer.
  set (ok := forallb (has_valid_state env) (n :: rest)) in *.
  destruct (Enhanced.process_notifications env (n :: rest) w1) as [[returned | e] w2];
    cbn [fst] in Hanswer; [| discriminate].
  injection Hanswer as ->.
  destruct ok; reflexivity.
Qed.

(** X25.  For a request whose body is not JSON, is empty, or is an object with a
    list of notifications as the Graph API sends them, with members that
    are strings or absent, the Azure Function never raises and never
    answers 500: the processing of a notification catches its own
    exceptions, so the last [except] clause of [main] is not reached on
    such a request, and the status is 200, 400 or 401. *)
Theorem no_internal_error req w :
  exists response,
    (Enhanced.main env req w).1 = Ok response
    /\ In (http_status response) [200; 400; 401].
Proof.
  unfold Enhanced.main. rewrite track_result.
  rewrite seq_run, log_run. unfold try_except.
  destruct (PyStr.truthy (default "" (req_validation_token req))).
  { rewrite seq_run, log_run. eexists. split; [reflexivity | simpl; tauto]. }
  destruct (req_body req) as [| | [| n rest]].
  1-3: rewrite seq_run, log_run; eexists; split; [reflexivity | simpl; tauto].
  rewrite seq_run, log_run. unfold bind at 1.
  set (w1 := set_trace _ (set_trace _ w)).
  pose proof (process_notifications_answer (n :: rest) w1) as Hanswer.
  set (ok := forallb (has_valid_state env) (n :: rest)) in *.
  destruct (Enhanced.process_notifications env (n :: rest) w1) as [[returned | e] w2];
    cbn [fst] in Hanswer; [| discriminate].
  injection Hanswer as ->.
  destruct ok; eexists; (split; [reflexivity | simpl; tauto]).
Qed.

End Answer.

(** ** Ingestion of a downloaded file *)

Section PlainTempFile.

Local Set Warnings "-clear-no-such-hyp".

Variable env : Env.

(** X20.  A download that succeeds is still not indexed by the FastAPI handler
    when the temp file has no extension, as the files that
    [graph_client.download_file] makes with [mkstemp()]: [extract_text] goes
    by the extension of the temp path, not of the file name, and finds no
    text.  The temp file is removed, the index is not written to, and the
    old chunks of the file stay. *)
Theorem handler_ingest_finds_no_text drive_id item_id info path w :
  file_info env drive_id (PyStr.fmt item_id) = Ok (Some info) ->
  PyStr.lower (PyStr.splitext_ext (default "Unknown" (fi_name info)))
    ∈ WebhookHandler.supported_extensions ->
  download env drive_id (PyStr.fmt item_id) = DlDone path ->
  path <> "" -> PyStr.splitext_ext path = "" ->
  let run := WebhookHandler.ingest_single_file env drive_id item_id w in
  run.1 = Ok tt
  /\ no_index_write w run.2
  /\ w_files run.2 = w_files w ∖ {[path]}
  /\ last (w_trace run.2)
     = Some (EvLog PRINT ("No text extracted from " +:+ default "Unknown" (fi_name info))).
Proof.
  intros Hinfo Hext Hdl Hpath Hplain. cbn zeta. apply truthy_iff in Hpath.
  unfold WebhookHandler.ingest_single_file, GraphClient.get_file_info,
    GraphClient.download_file.
  rewrite Hinfo, Hdl. mcompute. rewrite bool_decide_true by exact Hext. mcompute.
  rewrite Hpath. mcompute.
  rewrite extract_text_without_extension by exact Hplain. mcompute.
  change (Py.truthy (Py.strip [])) with false. cbn beta iota.
  rewrite bool_decide_true by set_solver. cbn beta iota.
  split; [reflexivity |]. split; [| split].
  - split; [reflexivity |]. cbn [snd w_trace].
    eexists [_; _; _]. rewrite <- !app_assoc. split; [reflexivity |].
    repeat constructor; simpl; tauto.
  - cbn [snd w_files]. set_solver.
  - cbn [snd w_trace]. apply last_snoc.
Qed.

(** X21.  The same holds for [ingest_single_file] of the tenant-aware handler,
    whose [finally] clause removes the temp file. *)
Theorem tenant_ingest_finds_no_text drive_id item_id file_name tenant_id path w :
  download env drive_id item_id = DlDone path ->
  path <> "" -> PyStr.splitext_ext path = "" ->
  let run := Enhanced.ingest_single_file env drive_id item_id file_name tenant_id w in
  run.1 = Ok tt
  /\ no_index_write w run.2
  /\ w_files run.2 = w_files w ∖ {[path]}
  /\ last (w_trace run.2) = Some (EvLog WARNING ("No text extracted from " +:+ file_name)).
Proof.
  intros Hdl Hpath Hplain. cbn zeta. apply truthy_iff in Hpath.
  unfold Enhanced.ingest_single_file, GraphClient.download_file, finally_cleanup.
  rewrite Hdl. mcompute. rewrite Hpath. mcompute.
  rewrite extract_text_without_extension by exact Hplain. mcompute.
  change (Py.truthy (Py.strip [])) with false. cbn beta iota.
  rewrite bool_decide_true by set_solver. cbn beta iota.
  rewrite bool_decide_true by set_solver. cbn beta iota.
  split; [reflexivity |]. split; [| split].
  - split; [reflexivity |]. cbn [snd w_trace].
    eexists [_; _; _]. rewrite <- !app_assoc. split; [reflexivity |].
    repeat constructor; simpl; tauto.
  - cbn [snd w_files]. set_solver.
  - cbn [snd w_trace]. apply last_snoc.
Qed.

End PlainTempFile.

(** ** The consumer of the large-file queue *)

Section QueueConsumer.

Variable env : Env.

Lemma item_change_keeps_stores item drive_id tenant_id :
  it_deleted item = false ->
  keeps stores_untouched (Enhanced.process_single_item_change env item drive_id tenant_id).
Proof.
  intros Hdel. unfold Enhanced.process_single_item_change. rewrite Hdel.
  keeps_with stores_untouched_refl stores_untouched_trans
    ltac:(first [ apply keeps_modify; intros; repeat split; reflexivity
                | unfold emit; apply keeps_modify; intros; repeat split; reflexivity ])
    fail.
Qed.

(** X18.  A file that is put on the queue is never indexed: the function that
    consumes the queue reports the file as successfully processed, and
    neither the change loop that enqueued it nor the consumer has written
    to the index, the tracker or the disk. *)
Theorem queued_file_is_not_indexed item drive_id tenant_id message w :
  it_deleted item = false ->
  let enqueued := (Enhanced.process_single_item_change env item drive_id tenant_id w).2 in
  let run := QueueFunction.process_queued_large_file (Ok message) enqueued in
  run.1 = Ok tt
  /\ stores_untouched w run.2
  /\ last (w_trace run.2)
     = Some (EvLog INFO ("Successfully processed large file: " +:+ q_file_name message)).
Proof.
  intros Hdel. cbn zeta.
  pose proof (item_change_keeps_stores item drive_id tenant_id Hdel w) as Hkeep.
  destruct (Enhanced.process_single_item_change env item drive_id tenant_id w) as [r w1].
  cbn [snd] in *.
  unfold QueueFunction.process_queued_large_file, QueueFunction.process_very_large_file.
  mcompute. split; [reflexivity |]. split; [exact Hkeep | apply last_snoc].
Qed.

End QueueConsumer.

(** ** The branch of the change loop that is never run *)

Section DeadBranch.

Variable env : Env.

Lemma enqueue_returns drive_id item_id file_name file_size tenant_id w :
  exists success,
    (QueueProcessor.enqueue_large_file_processing env drive_id item_id file_name file_size
       tenant_id w).1 = Ok success.
Proof.
  unfold QueueProcessor.enqueue_large_file_processing.
  match goal with
  | |- exists _, (try_except ?m ?h w).1 = _ =>
      apply (total_try_except m h)
  end.
  intros e w'. eexists. reflexivity.
Qed.

Lemma item_change_returns item drive_id tenant_id w :
  it_deleted item = false ->
  (Enhanced.process_single_item_change env item drive_id tenant_id w).1 = Ok tt.
Proof.
  intros Hdel. unfold Enhanced.process_single_item_change. rewrite Hdel.
  destruct (negb (PyStr.truthy (default "" (it_id item)))); [reflexivity |].
  destruct (it_file item) as [mime_type |]; [| reflexivity].
  destruct (FileTypeFilter.should_process_file _ mime_type _) as [should_process reason].
  unfold FileTypeFilter.log_file_decision. rewrite seq_run, log_run.
  destruct should_process; cbn [negb]; [| reflexivity].
  destruct (QueueProcessor.should_use_queue_processing _).
  - set (w1 := set_trace _ w). unfold bind.
    destruct (enqueue_returns drive_id (default "" (it_id item))
                (default "Unknown" (it_name item)) (default 0%Z (it_size item))
                tenant_id w1) as [success Hok].
    destruct (QueueProcessor.enqueue_large_file_processing _ _ _ _ _ _ w1) as [[b | e] w2];
      cbn [fst] in Hok; [| discriminate].
    destruct b; reflexivity.
  - destruct (LargeFileHandler.can_process_file_size _) as [can_process method].
    destruct can_process; reflexivity.
Qed.

(** C2 on azure_function_webhook_enhanced.py.  In the handler whose tracker
    is keyed by tenant, drive and item, an upsert record that the tracker
    does not hold at this last-modified (no entry, or an entry with another
    value, older or newer) is not processed again: [is_already_processed]
    would answer [False], but [process_single_item_change] never asks; it
    returns without a call of the search client or of the Graph API, with
    the index, the tracker and the disk as they were, so the record's
    last-modified is never stored either. *)
Theorem changed_version_not_reprocessed item item_id drive_id tenant_id w :
  it_deleted item = false -> it_id item = Some item_id ->
  default None (w_cache w !! Enhanced.cache_key tenant_id drive_id item_id)
    <> it_last_modified item ->
  let run := Enhanced.process_single_item_change env item drive_id tenant_id w in
  Enhanced.is_already_processed drive_id item_id (it_last_modified item) tenant_id w
    = (Ok false, w)
  /\ run.1 = Ok tt
  /\ stores_untouched w run.2
  /\ extends away_from_index w run.2.
Proof.
  intros Hdel Hid Hnew. cbn zeta. split; [| split; [| split]].
  - unfold Enhanced.is_already_processed. mcompute.
    now rewrite bool_decide_false by exact Hnew.
  - now apply item_change_returns.
  - now apply item_change_keeps_stores.
  - revert w Hnew. intros w _. revert w.
    change (keeps (extends away_from_index)
              (Enhanced.process_single_item_change env item drive_id tenant_id)).
    unfold Enhanced.process_single_item_change. rewrite Hdel.
    keeps_with (extends_refl away_from_index) (extends_trans away_from_index)
               extends_prim fail.
Qed.


End DeadBranch.

(** ** Subscriptions *)

Section Subscriptions.

Variable env : Env.

(** X28.  A subscription made for a tenant carries the client state
    [docusense-<tenant>-webhook].  The Azure Function takes it and finds the
    tenant again; the FastAPI handler, in the module that makes the
    subscription, accepts the shared secret only and answers 401 to the
    notifications of that subscription. *)
Theorem tenant_subscription_validation drive_id notification_url tenant_id expires
    resource change_type w :
  tenant_id <> "" ->
  let subscription :=
    WebhookManager.subscription_data env drive_id notification_url (Some tenant_id) expires in
  let notification :=
    mkNotification (Some (sub_client_state subscription)) resource change_type None in
  sub_client_state subscription <> WEBHOOK_CLIENT_STATE env ->
  Enhanced.validate_client_state env (n_client_state notification) = Some tenant_id
  /\ (WebhookHandler.endpoint env (mkRequest None (BodyObject [notification])) w).1
     = Ok (mkHttp 401 (JsonObject [("detail", JStr "Unauthorized")])).
Proof.
  intros Htenant. cbn zeta. apply truthy_iff in Htenant.
  unfold WebhookManager.subscription_data, PyStr.fmt. cbn [n_client_state].
  change (default "" (Some tenant_id)) with tenant_id.
  change (default "None" (Some tenant_id)) with tenant_id.
  rewrite Htenant. cbn [sub_client_state].
  change ("docusense-" +:+ tenant_id +:+ "-webhook") with (tenant_token tenant_id).
  intros Hsecret. split.
  - unfold Enhanced.validate_client_state.
    destruct (tenant_token_shape tenant_id) as (Hstart & Hend).
    change (PyStr.truthy (tenant_token tenant_id)) with true. cbn [negb].
    destruct (String.eqb_spec (tenant_token tenant_id) (WEBHOOK_CLIENT_STATE env));
      [contradiction |].
    rewrite Hstart, Hend. cbn [andb]. rewrite tenant_token_slice, Htenant. reflexivity.
  - unfold WebhookHandler.endpoint, WebhookHandler.handle_graph_webhook,
      WebhookHandler.validate_webhook, WebhookHandler.request_notifications.
    cbn [req_validation_token req_body WebhookHandler.validate_notifications n_client_state].
    change (PyStr.truthy (default "" None)) with false. cbn iota.
    mcompute. cbn [WebhookHandler.validate_notifications n_client_state].
    rewrite bool_decide_false by congruence. reflexivity.
Qed.

End Subscriptions.

(** ** The large-file path, end to end *)

Section LargeFile.

Variable env : Env.
Variables drive_id item_id file_name tenant_id : string.

Local Abbreviation upload_batch :=
  (fun (batch_docs : list Doc) (total_chunks : nat) =>
     match batch_docs with
     | [] => ret total_chunks
     | _ =>
         upload_documents env batch_docs ;;
         log INFO ("Uploaded batch of " +:+ pretty (length batch_docs)
                   +:+ " chunks for " +:+ file_name) ;;
         ret (total_chunks + length batch_docs)
     end).

Local Abbreviation doc_of :=
  (fun c : Py.text * nat =>
     LargeFileHandler.large_doc drive_id item_id file_name tenant_id (utcnow env)
       c.1 c.2 (embedding_for env c.1)).

Lemma bind_run {A B} (m : M A) (k : A -> M B) w :
  bind m k w = match m w with
               | (Ok a, w') => k a w'
               | (Raise e, w') => (Raise e, w')
               end.
Proof. reflexivity. Qed.

Lemma upload_batch_run batch total w :
  (forall docs, upload_ok env docs = Ok tt) ->
  exists w',
    upload_batch batch total w = (Ok (total + length batch), w')
    /\ w_index w' = upsert_all batch (w_index w).
Proof.
  intros Hupload. destruct batch as [| d batch].
  - exists w. cbn [length]. rewrite Nat.add_0_r. split; reflexivity.
  - unfold upload_documents. mcompute. rewrite Hupload. mcompute.
    eexists. split; reflexivity.
Qed.

(** The batches are uploaded one after the other, and together they are
    all the documents. *)
Lemma batches_upload_all chunks :
  (forall docs, upload_ok env docs = Ok tt) ->
  forall batch total w,
  exists w',
    LargeFileHandler.process_text_in_batches env file_name drive_id item_id
      tenant_id 10 upload_batch chunks batch total w
    = (Ok (total + length batch + length chunks), w')
    /\ w_index w' = upsert_all (batch ++ (doc_of <$> chunks)) (w_index w).
Proof.
  intros Hupload. induction chunks as [| [snippet chunk_idx] rest IH]; intros batch total w.
  - cbn [LargeFileHandler.process_text_in_batches fmap list_fmap length].
    rewrite app_nil_r, Nat.add_0_r.
    destruct batch as [| d batch].
    + exists w. cbn [length]. rewrite Nat.add_0_r. split; reflexivity.
    + destruct (upload_batch_run (d :: batch) total w Hupload) as (w' & Hrun & Hidx).
      cbn beta iota in Hrun. rewrite Hrun. exists w'. split; [reflexivity | exact Hidx].
  - cbn [LargeFileHandler.process_text_in_batches].
    rewrite bind_run. unfold try_except at 1. rewrite bind_run, embed_text_total.
    unfold ret at 1.
    set (w1 := set_trace _ w).
    set (batch1 := batch ++ [_]).
    assert (Hbatch1 : batch ++ (doc_of <$> (snippet, chunk_idx) :: rest)
                      = batch1 ++ (doc_of <$> rest)).
    { subst batch1. rewrite <- app_assoc. reflexivity. }
    assert (Hlen1 : length batch1 = length batch + 1)
      by (subst batch1; rewrite length_app; reflexivity).
    rewrite Hbatch1. cbn [length].
    destruct (10 <=? length batch1).
    + rewrite bind_run.
      destruct (upload_batch_run batch1 total w1 Hupload) as (w2 & Hrun & Hidx).
      cbn beta in Hrun. rewrite Hrun. cbn beta iota.
      destruct (IH [] (total + length batch1) w2) as (w3 & IHrun & IHidx).
      rewrite IHrun. exists w3. split; [do 2 f_equal; simpl; lia |].
      rewrite IHidx, Hidx. unfold upsert_all. cbn [app]. now rewrite foldl_app.
    + destruct (IH batch1 total w1) as (w3 & IHrun & IHidx).
      rewrite IHrun. exists w3. split; [do 2 f_equal; lia | exact IHidx].
Qed.

Lemma extract_text_supported path content w :
  In (PyStr.lower (PyStr.splitext_ext path)) [".pdf"; ".docx"; ".pptx"; ".txt"] ->
  parse env (PyStr.lower (PyStr.splitext_ext path)) path = Ok content ->
  TextExtraction.extract_text env path w = (Ok content, w).
Proof.
  intros Hin Hparse. unfold TextExtraction.extract_text.
  set (ext := PyStr.lower (PyStr.splitext_ext path)) in *.
  assert (Hlift : try_except (lift (parse env ext path))
            (fun e => log PRINT ("Error extracting text from " +:+ path +:+ ": " +:+ e) ;;
                      ret []) w = (Ok content, w)).
  { unfold try_except, lift. now rewrite Hparse. }
  cbn [In] in Hin. destruct Hin as [<- | [<- | [<- | [<- | []]]]]; exact Hlift.
Qed.

Lemma deleted_is_without f w :
  keyed w ->
  foldr delete (w_index w)
    (doc_id <$> filter (fun d => matches f d = true) (map_to_list (w_index w)).*2)
  = without_matching f (w_index w).
Proof.
  intros Hkeyed. apply map_eq. intros key. rewrite deleted_lookup by assumption.
  unfold without_matching, unless_matching. apply option_eq. intros doc.
  rewrite map_lookup_filter_Some. cbn [snd].
  destruct (w_index w !! key) as [d |]; [| split; [discriminate | intros [? _]; discriminate]].
  destruct (matches f d) eqn:Hm.
  - split; [discriminate | intros [[= ->] ?]; congruence].
  - split; [intros [= ->]; auto | intros [? _]; assumption].
Qed.

Lemma large_removal_run w :
  keyed w ->
  search_ok env (mkFilter drive_id item_id (Some tenant_id)) = Ok tt ->
  (forall ids, delete_ok env ids = Ok tt) ->
  exists w',
    LargeFileHandler.remove_file_from_index env drive_id item_id tenant_id w = (Ok tt, w')
    /\ w_index w' = without_matching (mkFilter drive_id item_id (Some tenant_id)) (w_index w).
Proof.
  intros Hkeyed Hsearch Hdelete.
  unfold LargeFileHandler.remove_file_from_index, search, delete_documents.
  set (f := mkFilter drive_id item_id (Some tenant_id)) in *.
  pose proof (deleted_is_without f w Hkeyed) as Hdel.
  set (ids := doc_id <$> _) in Hdel.
  mcompute. rewrite Hsearch. mcompute. fold ids.
  destruct ids as [| i ids'] eqn:Hids.
  - eexists. split; [reflexivity |]. rewrite <- Hdel. reflexivity.
  - rewrite Hdelete. mcompute. eexists. split; [reflexivity |]. rewrite <- Hdel. reflexivity.
Qed.

(** X29.  What the large-file path does when every service answers, for ids
    without a single quote: the text of the temp file is chunked, the old
    chunks of the file are deleted, and one document per chunk is uploaded,
    in batches; in the end the index holds the documents of the other files
    and the new ones, and the function returns [True]. *)
Theorem large_file_is_reindexed temp_path content w :
  quote_free drive_id -> quote_free item_id -> quote_free tenant_id ->
  keyed w ->
  In (PyStr.lower (PyStr.splitext_ext temp_path)) [".pdf"; ".docx"; ".pptx"; ".txt"] ->
  parse env (PyStr.lower (PyStr.splitext_ext temp_path)) temp_path = Ok content ->
  Py.truthy (Py.strip content) = true ->
  search_ok env (mkFilter drive_id item_id (Some tenant_id)) = Ok tt ->
  (forall ids, delete_ok env ids = Ok tt) ->
  (forall docs, upload_ok env docs = Ok tt) ->
  exists chunks,
    IngestLocal.chunk_text content IngestLocal.DEFAULT_SIZE = Some chunks
    /\ let run := LargeFileHandler.process_file_in_chunks env temp_path drive_id item_id
                    file_name tenant_id w in
       run.1 = Ok true
       /\ w_index run.2
          = upsert_all (doc_of <$> chunks)
              (without_matching (mkFilter drive_id item_id (Some tenant_id)) (w_index w)).
Proof.
  intros _ _ _ Hkeyed Hext Hparse Htext Hsearch Hdelete Hupload.
  destruct (IngestLocal.chunk_text content IngestLocal.DEFAULT_SIZE) as [chunks |] eqn:Hchunks.
  2: { unfold IngestLocal.chunk_text, IngestLocal.DEFAULT_SIZE, Py.range in Hchunks.
       discriminate. }
  exists chunks. split; [reflexivity |]. cbn zeta.
  assert (Hrun : exists w',
    LargeFileHandler.process_file_in_chunks env temp_path drive_id item_id file_name
      tenant_id w = (Ok true, w')
    /\ w_index w'
       = upsert_all (doc_of <$> chunks)
           (without_matching (mkFilter drive_id item_id (Some tenant_id)) (w_index w))).
  { unfold LargeFileHandler.process_file_in_chunks, try_except.
    rewrite seq_run, log_run. set (w1 := set_trace _ w).
    rewrite bind_run, (extract_text_supported _ _ _ Hext Hparse), Htext. cbn [negb].
    rewrite seq_run.
    assert (Hkeyed1 : keyed w1) by exact Hkeyed.
    destruct (large_removal_run w1 Hkeyed1 Hsearch Hdelete) as (w2 & -> & Hidx).
    rewrite bind_run. unfold chunks_of, of_option. rewrite Hchunks. unfold ret at 1.
    rewrite bind_run.
    destruct (batches_upload_all chunks Hupload [] 0 w2) as (w3 & -> & Bidx).
    rewrite seq_run, log_run. unfold ret. eexists. split; [reflexivity |].
    cbn [w_index set_trace]. rewrite Bidx, Hidx. reflexivity. }
  destruct Hrun as (w' & -> & Hidx). split; [reflexivity | exact Hidx].
Qed.

End LargeFile.

(** ** Instances *)

Lemma none_ends name l :
  forallb (fun e => negb (PyStr.endswith name e)) l = true ->
  forall ext, In ext l -> PyStr.endswith name ext = false.
Proof.
  intros Hall ext Hin. rewrite forallb_forall in Hall.
  apply negb_true_iff. now apply Hall.
Qed.

Lemma keyed_world_with docs : keyed (Sample.world_with docs).
Proof.
  intros key doc Hlook. unfold Sample.world_with in Hlook. cbn [w_index] in Hlook.
  apply elem_of_list_to_map_2 in Hlook.
  apply list_elem_of_fmap in Hlook as (d & [= -> ->] & _). reflexivity.
Qed.

Lemma skip_extension_wins_witness :
  (FileTypeFilter.should_process_file "Holiday.MP4" (Some "application/pdf") 1000).1 = false.
Proof.
  apply (skip_extension_wins "Holiday.MP4" ".mp4").
  - simpl. repeat (first [left; reflexivity | right]).
  - reflexivity.
Defined.

Lemma document_mime_accepted_witness :
  (FileTypeFilter.should_process_file "report.pdf" (Some "application/pdf") 2000000).1 = true.
Proof.
  apply (document_mime_accepted "report.pdf" "application/pdf").
  - reflexivity.
  - apply none_ends. reflexivity.
  - left. simpl. repeat (first [left; reflexivity | right]).
Defined.

Lemma binary_mime_refused_witness :
  (FileTypeFilter.should_process_file "scan.txt" (Some "image/png") 500).1 = false.
Proof.
  apply (binary_mime_refused "scan.txt" "image/" "image/png").
  - simpl. left. reflexivity.
  - reflexivity.
Defined.

Lemma unknown_type_size_limit_witness :
  (FileTypeFilter.should_process_file "huge.bin" None 50000000).1 = false.
Proof.
  apply (unknown_type_size_limit "huge.bin" None 50000000).
  - reflexivity.
  - left. reflexivity.
  - apply none_ends. reflexivity.
Defined.

Lemma removal_is_exact_witness :
  w_index (Enhanced.remove_file_from_index Sample.quiet "d1" "i1" "default"
             (Sample.world_with [Sample.indexed "i1"; Sample.indexed "i2"])).2
    !! "default_d1_i1_0" = None.
Proof.
  pose proof (removal_is_exact Sample.quiet "d1" "i1" "default"
                (Sample.world_with [Sample.indexed "i1"; Sample.indexed "i2"]))
    as [_ Hlook].
  - unfold quote_free. simpl. intuition discriminate.
  - unfold quote_free. simpl. intuition discriminate.
  - unfold quote_free. simpl. intuition discriminate.
  - apply keyed_world_with.
  - reflexivity.
  - intros ids. reflexivity.
  - rewrite Hlook. reflexivity.
Defined.

Lemma removal_failure_leaves_index_witness :
  w_index (Enhanced.remove_file_from_index Cases.index_down "d1" "i1" "default"
             (Sample.world_with [Sample.indexed "i1"])).2
  = w_index (Sample.world_with [Sample.indexed "i1"]).
Proof.
  apply (removal_failure_leaves_index Cases.index_down "d1" "i1" "default").
  left. eexists. reflexivity.
Defined.

Lemma handler_removal_crosses_tenants_witness :
  w_index (WebhookHandler.remove_file_from_index Sample.quiet "d1" (Some "i1")
             (Sample.world_with [Sample.indexed "i1"])).2 !! "default_d1_i1_0" = None.
Proof.
  apply (handler_removal_crosses_tenants Sample.quiet "d1" (Some "i1")
           (Sample.world_with [Sample.indexed "i1"]) "default_d1_i1_0" (Sample.indexed "i1")).
  - unfold quote_free. simpl. intuition discriminate.
  - unfold quote_free. simpl. intuition discriminate.
  - apply keyed_world_with.
  - reflexivity.
  - intros ids. reflexivity.
  - reflexivity.
  - reflexivity.
  - reflexivity.
Defined.

Lemma unseen_item_without_timestamp_skipped_witness :
  WebhookHandler.process_change Cases.download_done "d1" Cases.undated Sample.empty_world
  = (Ok tt, Sample.empty_world).
Proof.
  apply (unseen_item_without_timestamp_skipped Cases.download_done "d1" Cases.undated).
  - reflexivity.
  - eexists. reflexivity.
  - reflexivity.
  - reflexivity.
Defined.

Lemma upsert_record_changes_no_store_witness :
  stores_untouched Sample.empty_world
    (Enhanced.process_single_item_change Sample.quiet
       (Sample.upsert "i1" "report.pdf" 2000000) "d1" "default" Sample.empty_world).2.
Proof.
  apply (upsert_record_changes_no_store Sample.quiet
           (Sample.upsert "i1" "report.pdf" 2000000) "d1" "default" Sample.empty_world).
  reflexivity.
Defined.

Lemma drives_resource_starts_cycle_witness :
  exists drive_id, PyStr.split_on "/" "/drives/d1/root" !! 2 = Some drive_id.
Proof.
  destruct (drives_resource_starts_cycle Sample.quiet Cases.drive_notification
              Sample.empty_world eq_refl) as (drive_id & Hthird & _).
  exists drive_id. exact Hthird.
Defined.

Lemma subscription_resource_names_drive_witness :
  (WebhookHandler.process_file_change Sample.quiet Cases.drive_notification
     Sample.empty_world).1 = Ok tt.
Proof.
  unfold Cases.drive_notification.
  change "/drives/d1/root" with ("/drives/" +:+ "d1" +:+ "/" +:+ "root").
  rewrite (subscription_resource_names_drive Sample.quiet (Some "docusense-webhook-secret")
             "d1" "root" (Some "updated") None Sample.empty_world).
  - destruct (WebhookHandler.process_drive_delta _ _ _). reflexivity.
  - simpl. intuition discriminate.
Defined.

Lemma batch_answer_by_client_states_witness :
  (Enhanced.main Sample.one_deletion Sample.mixed_batch Sample.empty_world).1
  = Ok (mkHttp 401 (PlainText "Unauthorized")).
Proof.
  unfold Sample.mixed_batch.
  rewrite (batch_answer_by_client_states Sample.one_deletion None).
  - reflexivity.
  - reflexivity.
  - discriminate.
Defined.

Lemma handler_ingest_finds_no_text_witness :
  w_index (WebhookHandler.ingest_single_file Cases.download_done "d1" (Some "i1")
             Sample.empty_world).2 = ∅.
Proof.
  pose proof (handler_ingest_finds_no_text Cases.download_done "d1" (Some "i1")
                (mkFileInfo (Some "report.pdf") (Some Sample.stamp)) "/tmp/tmpq7w2k9xs"
                Sample.empty_world) as H.
  destruct H as (_ & [Hindex _] & _).
  - reflexivity.
  - vm_compute. left.
  - reflexivity.
  - discriminate.
  - reflexivity.
  - exact Hindex.
Defined.

Lemma tenant_ingest_finds_no_text_witness :
  w_index (Enhanced.ingest_single_file Cases.download_done "d1" "i1" "report.pdf" "default"
             Sample.empty_world).2 = ∅.
Proof.
  pose proof (tenant_ingest_finds_no_text Cases.download_done "d1" "i1" "report.pdf"
                "default" "/tmp/tmpq7w2k9xs" Sample.empty_world) as H.
  destruct H as (_ & [Hindex _] & _).
  - reflexivity.
  - discriminate.
  - reflexivity.
  - exact Hindex.
Defined.

Lemma queued_file_is_not_indexed_witness :
  (QueueFunction.process_queued_large_file (Ok Cases.big_message)
     (Enhanced.process_single_item_change Sample.quiet
        (Sample.upsert "i1" "survey.pdf" (300 * 1024 * 1024)) "d1" "default"
        Sample.empty_world).2).1 = Ok tt.
Proof.
  apply (queued_file_is_not_indexed Sample.quiet
           (Sample.upsert "i1" "survey.pdf" (300 * 1024 * 1024)) "d1" "default"
           Cases.big_message Sample.empty_world).
  reflexivity.
Defined.

Lemma tenant_subscription_validation_witness :
  Enhanced.validate_client_state Sample.quiet (Some "docusense-contoso-webhook")
  = Some "contoso".
Proof.
  apply (tenant_subscription_validation Sample.quiet "d1"
           "https://docusense.example/api/webhooks/graph" "contoso" "2024-05-05T08:30:00"
           (Some "/drives/d1/root") (Some "updated") Sample.empty_world).
  - discriminate.
  - discriminate.
Defined.

Lemma large_file_is_reindexed_witness :
  (LargeFileHandler.process_file_in_chunks Sample.embedding_down "/tmp/tmpq7w2k9xs_notes.txt"
     "d1" "i1" "notes.txt" "default" (Sample.world_with [Sample.indexed "i1"])).1 = Ok true.
Proof.
  destruct (large_file_is_reindexed Sample.embedding_down "d1" "i1" "notes.txt" "default"
              "/tmp/tmpq7w2k9xs_notes.txt" (Py.of_string "hello world")
              (Sample.world_with [Sample.indexed "i1"])) as (chunks & _ & Hrun & _).
  - unfold quote_free. simpl. intuition discriminate.
  - unfold quote_free. simpl. intuition discriminate.
  - unfold quote_free. simpl. intuition discriminate.
  - apply keyed_world_with.
  - vm_compute. repeat (first [left; reflexivity | right]).
  - reflexivity.
  - reflexivity.
  - reflexivity.
  - intros ids. reflexivity.
  - intros docs. reflexivity.
  - exact Hrun.
Defined.

Lemma upsert_always_marked_witness :
  exists w',
    WebhookHandler.process_change Sample.download_refused "d1"
      (Sample.upsert "i1" "report.pdf" 2000000) Sample.empty_world = (Ok tt, w')
    /\ w_cache w' = <["d1_i1" := Some Sample.stamp]> ∅.
Proof.
  apply (upsert_always_marked Sample.download_refused "d1"
           (Sample.upsert "i1" "report.pdf" 2000000) Sample.empty_world).
  - reflexivity.
  - eexists. reflexivity.
  - discriminate.
Defined.

Lemma handler_rejects_whole_batch_witness :
  exists w',
    WebhookHandler.endpoint Sample.quiet Sample.mixed_batch Sample.empty_world
    = (Ok (mkHttp 401 (JsonObject [("detail", JStr "Unauthorized")])), w')
    /\ no_index_write Sample.empty_world w'.
Proof.
  apply (handler_rejects_whole_batch Sample.quiet None).
  - reflexivity.
  - apply Exists_cons_tl, Exists_cons_hd. discriminate.
Defined.

Lemma large_file_releases_temp_file_witness :
  w_files (LargeFileHandler.process_large_file Sample.embedding_down "d1" "i1" "notes.txt"
             (60 * MB) "default" Sample.empty_world).2 = ∅.
Proof.
  apply (large_file_releases_temp_file Sample.embedding_down "d1" "i1" "notes.txt"
           (60 * MB) "default" Sample.empty_world).
  split; [discriminate | apply not_elem_of_empty].
Defined.

Lemma handshake_echoed_as_text_witness :
  (Enhanced.main Sample.quiet Sample.handshake Sample.empty_world).1
  = Ok (mkHttp 200 (PlainText "Validation: Testing client application reachability")).
Proof.
  unfold Sample.handshake.
  rewrite (handshake_echoed_as_text Sample.quiet
             "Validation: Testing client application reachability" BodyEmpty
             Sample.empty_world); [reflexivity | discriminate].
Defined.

Lemma restored_file_is_skipped_witness :
  let w := mkWorld ∅ {[ "d1_i1" := Some Sample.stamp ]} ∅ [] [] in
  let after := (WebhookHandler.process_change Sample.quiet "d1" (Sample.deletion "i1") w).2 in
  WebhookHandler.process_change Sample.quiet "d1" (Sample.upsert "i1" "report.pdf" 2000000)
    after = (Ok tt, after).
Proof.
  intros w.
  apply (restored_file_is_skipped Sample.quiet "d1" (Sample.deletion "i1")
           (Sample.upsert "i1" "report.pdf" 2000000) w).
  - reflexivity.
  - reflexivity.
  - eexists. reflexivity.
  - reflexivity.
Defined.

(** The failing input of C2: report.pdf is seen for the first time, with an
    empty tracker. *)
Lemma changed_version_not_reprocessed_witness :
  let item := Sample.upsert "i1" "report.pdf" 2000000 in
  let run := Enhanced.process_single_item_change Cases.download_done item "d1" "default"
               Sample.empty_world in
  Enhanced.is_already_processed "d1" "i1" (Some Sample.stamp) "default" Sample.empty_world
    = (Ok false, Sample.empty_world)
  /\ run.1 = Ok tt
  /\ w_index run.2 = ∅
  /\ w_cache run.2 = ∅.
Proof.
  intros item run.
  destruct (changed_version_not_reprocessed Cases.download_done item "i1" "d1" "default"
              Sample.empty_world) as (Hcheck & Hok & (Hindex & Hcache & _) & _).
  - reflexivity.
  - reflexivity.
  - discriminate.
  - split; [exact Hcheck |]. split; [exact Hok |]. split; [exact Hindex | exact Hcache].
Defined.

